(** * scorm-kit: the PDF player engine and the SCORM package builder

    A shallow embedding of [public/js/player-viewer.js] (the paging and
    progress engine of the player) and of the package pipeline of
    [server.js] ([generateManifest], [generateConfigJS] and the
    [POST /package] handler), followed by the properties of the
    specification that concern them.

    Conventions of the embedding:
    - a JavaScript number is an IEEE-754 binary64 value, [spec_float];
      page numbers and counters, which the code only ever increments,
      decrements and compares, are [Z];
    - a JavaScript string is a [string], one character per code unit;
    - the module-level variables of the player are the fields of
      [Viewer.State]; a pending promise is an entry of [inflight], and its
      settlement is an [Event] delivered by the host;
    - an exception is the [Throw] case of [Result]. *)

From Stdlib Require Import ZArith Lia Bool List Ascii String.
From Stdlib Require Import Floats.SpecFloat.
From stdpp Require Import base option list strings gmap pretty.

Set Warnings "-register-all".
Local Open Scope Z_scope.

(** ** Numbers *)

Module Number.

Definition prec : Z := 53.
Definition emax : Z := 1024.

Definition zero : spec_float := S754_zero false.
Definition one : spec_float := Eval cbv in SFone prec emax.
Definition infinity : spec_float := S754_infinity false.

(** [x / y] *)
Definition div (x y : spec_float) : spec_float := SFdiv prec emax x y.

(** [x <= y] *)
Definition le (x y : spec_float) : bool := SFleb x y.

(** [isFinite(x)] *)
Definition isFinite (x : spec_float) : bool :=
  match x with
  | S754_nan | S754_infinity _ => false
  | S754_zero _ | S754_finite _ _ _ => true
  end.

(** ToBoolean on a number: [0], [-0] and [NaN] are falsy. *)
Definition truthy (x : spec_float) : bool :=
  match x with
  | S754_nan | S754_zero _ => false
  | S754_infinity _ | S754_finite _ _ _ => true
  end.

(** [Math.min(x, y)]: [NaN] if either argument is, and [-0] below [+0]. *)
Definition Math_min (x y : spec_float) : spec_float :=
  match SFcompare x y with
  | None => S754_nan
  | Some Lt => x
  | Some Gt => y
  | Some Eq =>
      match x, y with
      | S754_zero _, S754_zero true => y
      | _, _ => x
      end
  end.

(** The integer [n] as a number, rounded to nearest even. *)
Definition of_Z (n : Z) : spec_float := binary_normalize prec emax n 0 false.

(** A strictly positive finite number. *)
Definition positive_finite (x : spec_float) : bool :=
  match x with S754_finite false _ _ => true | _ => false end.

(** Not [NaN], and of positive sign: [+0], a positive finite number or
    [+Infinity]. *)
Definition nonNegative (x : spec_float) : bool :=
  match x with
  | S754_zero false | S754_infinity false | S754_finite false _ _ => true
  | _ => false
  end.

(** A positive normal number between 2^-511 and 2^511: a mantissa of 53
    bits, and an exponent that puts it there. Window sizes in pixels and
    page sizes in points are of this kind. *)
Definition ordinary (x : spec_float) : bool :=
  match x with
  | S754_finite false m e =>
      (Zpos (digits2_pos m) =? 53) && (-563 <=? e) && (e <=? 458)
  | _ => false
  end.

(** A number that is a binary64 value. *)
Definition is_double (x : spec_float) : bool := valid_binary prec emax x.

End Number.

(** ** The viewport fit of [renderPage] (player-viewer.js, lines 127-128)

    [let scale = Math.min(wrapperW / pdfW, wrapperH / pdfH);
     if (!isFinite(scale) || scale <= 0) scale = 1;] *)

Definition fitScale (wrapperW wrapperH pdfW pdfH : spec_float) : spec_float :=
  let scale := Number.Math_min (Number.div wrapperW pdfW) (Number.div wrapperH pdfH) in
  if negb (Number.isFinite scale) || Number.le scale Number.zero
  then Number.one else scale.

(** ** JavaScript values and exceptions *)

Module JS.

(** A value as [JSON.parse] produces it, with [undefined] for an absent
    property. *)
Inductive Value :=
| Undefined
| Null
| Bool (b : bool)
| Num (x : spec_float)
| Str (s : string)
| Arr (xs : list Value)
| Obj (fields : gmap string Value).

(** ToBoolean *)
Definition toBoolean (v : Value) : bool :=
  match v with
  | Undefined | Null => false
  | Bool b => b
  | Num x => Number.truthy x
  | Str s => negb (String.eqb s EmptyString)
  | Arr _ | Obj _ => true
  end.

(** [v.k] for one of the property names the server reads ([pdfUrl],
    [config], [title], [sidebarDefaultOpen], [slideSequenceLocked]), none
    of which a prototype defines. On [null] and [undefined] this is [v?.k];
    the plain read, which throws, is guarded where it occurs. *)
Definition get (v : Value) (k : string) : Value :=
  match v with
  | Obj fields => default Undefined (fields !! k)
  | _ => Undefined
  end.

(** [a || b] *)
Definition or (a b : Value) : Value := if toBoolean a then a else b.

(** An [Error] object: [err.name] and [err.message]. *)
Record Error := { name : string; message : string }.

(** [String(err)], that is [Error.prototype.toString]. *)
Definition errorToString (e : Error) : string :=
  if String.eqb (message e) EmptyString then name e
  else if String.eqb (name e) EmptyString then message e
  else name e +:+ ": " +:+ message e.

(** [(err.message || err)] in a string concatenation. *)
Definition messageOr (e : Error) : string :=
  if String.eqb (message e) EmptyString then errorToString e else message e.

Inductive Result (A : Type) :=
| Ok (a : A)
| Throw (e : Error).
Arguments Ok {A} a.
Arguments Throw {A} e.

Definition bind {A B} (r : Result A) (k : A -> Result B) : Result B :=
  match r with
  | Ok a => k a
  | Throw e => Throw e
  end.

Definition TypeError (msg : string) : Error := {| name := "TypeError"; message := msg |}.
Definition mkError (msg : string) : Error := {| name := "Error"; message := msg |}.

(** The one-character strings the templates are built from. *)
Definition dq : string := String "034"%char EmptyString.
Definition nl : string := String "010"%char EmptyString.

(** [xs.join(sep)] on an array of strings. *)
Fixpoint join (sep : string) (xs : list string) : string :=
  match xs with
  | [] => EmptyString
  | [x] => x
  | x :: rest => x +:+ sep +:+ join sep rest
  end.

(** What [join] has written when it reaches the elements after [xs]. *)
Definition joined (sep : string) (xs : list string) : string :=
  foldr (fun x acc => x +:+ sep +:+ acc) EmptyString xs.

(** [s.replace(/"/g, '\\"')]: a backslash before every double quote. *)
Fixpoint escapeQuotes (s : string) : string :=
  match s with
  | EmptyString => EmptyString
  | String c rest =>
      if Ascii.eqb c "034"%char
      then String "092"%char (String c (escapeQuotes rest))
      else String c (escapeQuotes rest)
  end.

(** A boolean in a template literal. *)
Definition boolText (b : bool) : string := if b then "true" else "false".

(** [s.includes(needle)] *)
Fixpoint includes (s needle : string) : bool :=
  String.prefix needle s
  || match s with
     | String _ rest => includes rest needle
     | EmptyString => false
     end.

End JS.

#[global] Instance result_ret : MRet JS.Result := @JS.Ok.
#[global] Instance result_bind : MBind JS.Result := fun A B k r => JS.bind r k.

(** ** The package builder (server.js) *)

Module Server.
Import JS.

(** [generateManifest(pkgId, title, launchFile, resourceFiles)]

    The four arguments are interpolated into the template literal as
    they are. *)
Definition generateManifest (pkgId title launchFile : string)
    (resourceFiles : list string) : string :=
  let filesXml :=
    join (nl +:+ "      ")
      (map (fun f => "<file href=" +:+ dq +:+ f +:+ dq +:+ " />") resourceFiles) in
  join nl [
    "<?xml version=" +:+ dq +:+ "1.0" +:+ dq +:+ " encoding=" +:+ dq +:+ "UTF-8" +:+ dq +:+ "?>";
    "<manifest identifier=" +:+ dq +:+ pkgId +:+ dq +:+ " version=" +:+ dq +:+ "1" +:+ dq;
    "  xmlns=" +:+ dq +:+ "http://www.imsproject.org/xsd/imscp_rootv1p1p2" +:+ dq;
    "  xmlns:adlcp=" +:+ dq +:+ "http://www.adlnet.org/xsd/adlcp_rootv1p2" +:+ dq;
    "  xmlns:xsi=" +:+ dq +:+ "http://www.w3.org/2001/XMLSchema-instance" +:+ dq;
    "  xsi:schemaLocation=" +:+ dq +:+ "http://www.imsproject.org/xsd/imscp_rootv1p1p2";
    "  imscp_rootv1p1p2.xsd" +:+ dq +:+ ">";
    "  <metadata>";
    "    <schema>ADL SCORM</schema>";
    "    <schemaversion>1.2</schemaversion>";
    "  </metadata>";
    "  <organizations default=" +:+ dq +:+ "ORG_1" +:+ dq +:+ ">";
    "    <organization identifier=" +:+ dq +:+ "ORG_1" +:+ dq +:+ ">";
    "      <title>" +:+ title +:+ "</title>";
    "      <item identifier=" +:+ dq +:+ "ITEM_1" +:+ dq +:+ " identifierref=" +:+ dq +:+ "RES_1" +:+ dq +:+ ">";
    "        <title>" +:+ title +:+ "</title>";
    "      </item>";
    "    </organization>";
    "  </organizations>";
    "  <resources>";
    "    <resource identifier=" +:+ dq +:+ "RES_1" +:+ dq +:+ " type=" +:+ dq +:+ "webcontent" +:+ dq +:+ " adlcp:scormtype=" +:+ dq +:+ "sco" +:+ dq +:+ " href=" +:+ dq +:+ launchFile +:+ dq +:+ ">";
    "      " +:+ filesXml;
    "    </resource>";
    "  </resources>";
    "</manifest>"
  ].

(** [(cfg.title || "").replace(/"/g, '\\"')]: [replace] exists on a
    string only, and a truthy title of another type raises a
    [TypeError]. *)
Definition configTitle (cfg : Value) : Result string :=
  match or (get cfg "title") (Str EmptyString) with
  | Str s => Ok (escapeQuotes s)
  | _ => Throw (TypeError ("(cfg.title || " +:+ dq +:+ dq +:+ ").replace is not a function"))
  end.

(** [generateConfigJS(cfg, pdfFilename)] *)
Definition generateConfigJS (cfg : Value) (pdfFilename : string) : Result string :=
  title ← configTitle cfg;
  let sidebarDefaultOpen := boolText (toBoolean (get cfg "sidebarDefaultOpen")) in
  let slideSequenceLocked := boolText (toBoolean (get cfg "slideSequenceLocked")) in
  mret (join nl [
    "// Config.js";
    "var Config = {";
    "    // Judul dokumen yang tampil di topbar";
    "    title: " +:+ dq +:+ title +:+ dq +:+ ",";
    EmptyString;
    "    // MODE: masukkan link PPTX publik (A).";
    "    // Contoh: " +:+ dq +:+ "https://example.com/training.pptx" +:+ dq;
    "    // Jika nanti diintegrasikan ke LMS, LMS tinggal mengganti / generate URL ini.";
    "    //pptUrl: " +:+ dq +:+ "https://netpolitanteam.com/demo/ppt/test.pptx" +:+ dq +:+ ",";
    "    pptUrl: null,";
    EmptyString;
    "    // (opsional) fallback ke file PDF statis di folder `data/`";
    "    filename: " +:+ dq +:+ pdfFilename +:+ dq +:+ ",";
    EmptyString;
    "    // UI config (tidak perlu ubah)";
    "    fontFamily: " +:+ dq +:+ "system-ui, -apple-system, BlinkMacSystemFont, 'Segoe UI', sans-serif" +:+ dq +:+ ",";
    "    fontSize: " +:+ dq +:+ "14px" +:+ dq +:+ ",";
    "    fontColor: " +:+ dq +:+ "#222222" +:+ dq +:+ ",";
    "    bodyBgColor: " +:+ dq +:+ "#ffffff" +:+ dq +:+ ",";
    "    headerBgColor: " +:+ dq +:+ "#555555" +:+ dq +:+ ",";
    "    headerTextColor: " +:+ dq +:+ "#ffffff" +:+ dq +:+ ",";
    "    footerBgColor: " +:+ dq +:+ "#555555" +:+ dq +:+ ",";
    "    footerTextColor: " +:+ dq +:+ "#ffffff" +:+ dq +:+ ",";
    "    buttonBgColor: " +:+ dq +:+ "#777777" +:+ dq +:+ ",";
    "    buttonPrimaryBgColor: " +:+ dq +:+ "#007bff" +:+ dq +:+ ",";
    "    buttonTextColor: " +:+ dq +:+ "#ffffff" +:+ dq +:+ ",";
    "    progressBarColor: " +:+ dq +:+ "#00ff00" +:+ dq +:+ ",";
    EmptyString;
    "    // sidebar default open? (true/false)";
    "    sidebarDefaultOpen: " +:+ sidebarDefaultOpen +:+ ",";
    EmptyString;
    "    // Lock sequence slides? (true = must go sequentially)";
    "    slideSequenceLocked: " +:+ slideSequenceLocked +:+ ",";
    EmptyString;
    "    // nav button position: 'left' | 'center' | 'right'";
    "    navPosition: " +:+ dq +:+ "right" +:+ dq;
    "};"
  ]).

(** The end of the text [generateConfigJS] returns, from the line of the
    first flag on, when the flags are printed as [sidebar] and [locked]. *)
Definition flagLines (sidebar locked : bool) : list string := [
  "    sidebarDefaultOpen: " +:+ boolText sidebar +:+ ",";
  EmptyString;
  "    // Lock sequence slides? (true = must go sequentially)";
  "    slideSequenceLocked: " +:+ boolText locked +:+ ",";
  EmptyString;
  "    // nav button position: 'left' | 'center' | 'right'";
  "    navPosition: " +:+ dq +:+ "right" +:+ dq;
  "};"
].

(** *** The [POST /package] handler

    The host of one request: the identifier [uuidv4()] returns, the files
    shipped under [public/] (relative path to content; a directory exists
    when a path lies below it) and what [fetch] settles to. The staging
    directory [tmp/pkg_<uuid>] has the same shape; creating directories
    and writing files into it do not fail in the model. *)

Inductive FetchOutcome :=
| FetchRejected (e : Error)
| FetchResponse (status : Z) (body : Result string).

Record Host := {
  uuidv4 : string;
  publicDir : gmap string string;
  fetch : Value -> FetchOutcome
}.

(** [resp.ok] *)
Definition ok (status : Z) : bool := (200 <=? status) && (status <=? 299).

(** [const resp = await fetch(pdfUrl);
     if (!resp.ok) throw new Error("Failed fetching PDF: " + resp.status);
     await pump(resp.body, fsSync.createWriteStream(pdfDestPath));]
    The content written to [data/content.pdf], or the exception: the
    rejection of [fetch], the error for a status that is not a success, or
    the failure of the body stream. *)
Definition download (outcome : FetchOutcome) : Result string :=
  match outcome with
  | FetchRejected e => Throw e
  | FetchResponse status body =>
      if negb (ok status)
      then Throw (mkError ("Failed fetching PDF: " +:+ pretty status))
      else body
  end.

Fixpoint stripPrefix (p s : string) : option string :=
  match p, s with
  | EmptyString, _ => Some s
  | String a p', String b s' => if Ascii.eqb a b then stripPrefix p' s' else None
  | String _ _, EmptyString => None
  end.

(** [fsSync.existsSync(path.join(dir, p))]: a file, or a directory. *)
Definition existsSync (dir : gmap string string) (p : string) : bool :=
  bool_decide (is_Some (dir !! p))
  || bool_decide (Exists (fun k => is_Some (stripPrefix (p +:+ "/") k)) (map fst (map_to_list dir))).

(** [copyRecursive(src, dst)]: a file is copied; for a directory, the
    traversal copies every file below it to the same place below [dst]. *)
Definition copyRecursive (from : gmap string string) (src dst : string)
    (to : gmap string string) : gmap string string :=
  match from !! src with
  | Some content => <[dst := content]> to
  | None =>
      map_fold (fun k content acc =>
                  match stripPrefix (src +:+ "/") k with
                  | Some rest => <[dst +:+ "/" +:+ rest := content]> acc
                  | None => acc
                  end) to from
  end.

Definition copyTargets : list string := ["player.html"; "index_lms.html"; "css"; "js"].

Definition pdfFilename : string := "content.pdf".

Definition indexLmsFallback : string :=
  join nl [
    "<!doctype html><html><body style=" +:+ dq +:+ "margin:0" +:+ dq +:+ ">";
    "<iframe src=" +:+ dq +:+ "player.html?pdf=data/" +:+ pdfFilename +:+ dq +:+ " style=" +:+ dq +:+ "width:100%;height:100vh;border:0;" +:+ dq +:+ "></iframe>";
    "</body></html>"
  ].

(** [config?.title || "SCORM Package"] as the manifest receives it. The
    call comes after [generateConfigJS] has returned, so the title is a
    string or falsy (lemma [manifestTitle_or] below); a truthy title of
    another type does not reach it. *)
Definition manifestTitle (config : Value) : string :=
  match get config "title" with
  | Str s => if String.eqb s EmptyString then "SCORM Package" else s
  | _ => "SCORM Package"
  end.

(** The body of the [try] block up to the point where the archive is
    opened: the staged directory, or the exception that leaves the
    block. *)
Definition stagePackage (h : Host) (pdfUrl config : Value)
    : Result (gmap string string) :=
  let pkgId := "pkg_" +:+ uuidv4 h in
  (* 1) copy viewer assets *)
  let dir :=
    foldl (fun dir t => if existsSync (publicDir h) t
                        then copyRecursive (publicDir h) t t dir else dir)
          (∅ : gmap string string) copyTargets in
  (* 2) data folder + PDF *)
  content ← download (fetch h pdfUrl);
  let dir := <["data/" +:+ pdfFilename := content]> dir in
  (* 3) Config.js *)
  configJS ← generateConfigJS (or config (Obj ∅)) pdfFilename;
  let dir := <["Config.js" := configJS]> dir in
  (* 4) index_lms.html fallback *)
  let dir := if existsSync dir "index_lms.html" then dir
             else <["index_lms.html" := indexLmsFallback]> dir in
  (* 5) manifest *)
  let resourceFiles :=
    ["player.html"; "index_lms.html"; "Config.js"; "data/" +:+ pdfFilename]
    ++ (if existsSync dir "css/styles.css" then ["css/styles.css"] else [])
    ++ (if existsSync dir "js/pdf.min.js" then ["js/pdf.min.js"] else [])
    ++ (if existsSync dir "js/pdf.worker.min.js" then ["js/pdf.worker.min.js"] else [])
    ++ (if existsSync dir "js/player-viewer.js" then ["js/player-viewer.js"] else []) in
  let manifestXml := generateManifest pkgId (manifestTitle config) "index_lms.html" resourceFiles in
  mret (<["imsmanifest.xml" := manifestXml]> dir).

Inductive Body :=
| Text (s : string)
| Archive (files : gmap string string).

(** What the caller receives, and the timer left behind. *)
Record Response := {
  status : Z;
  headers : list (string * string);
  body : Body;
  cleanupAfterMs : option Z
}.

Definition archiveStreamed (r : Response) : bool :=
  match body r with Archive _ => true | Text _ => false end.

(** [app.post("/package", ...)], on the parsed request body. *)
Definition postPackage (h : Host) (reqBody : Value) : Response :=
  let caught (err : Error) :=
    {| status := 500; headers := [];
       body := Text ("Package generation error: " +:+ messageOr err);
       cleanupAfterMs := None |} in
  match reqBody with
  | Undefined =>
      caught (TypeError "Cannot destructure property 'pdfUrl' of 'req.body' as it is undefined.")
  | Null =>
      caught (TypeError "Cannot destructure property 'pdfUrl' of 'req.body' as it is null.")
  | _ =>
      let pdfUrl := get reqBody "pdfUrl" in
      let config := get reqBody "config" in
      if negb (toBoolean pdfUrl)
      then {| status := 400; headers := []; body := Text "Missing pdfUrl";
              cleanupAfterMs := None |}
      else
        match stagePackage h pdfUrl config with
        | Ok dir =>
            (* 6) zip *)
            {| status := 200;
               headers := [("Content-Type", "application/zip");
                           ("Content-Disposition",
                            "attachment; filename=" +:+ dq +:+ "scorm_package.zip" +:+ dq)];
               body := Archive dir;
               cleanupAfterMs := Some (1000 * 60 * 5) |}
        | Throw err => caught err
        end
  end.

End Server.

(** ** The player engine (public/js/player-viewer.js) *)

Module Viewer.

(** *** What pdf.js, the window and the LMS provide *)

Record Viewport := { width : spec_float; height : spec_float }.

(** A page proxy: [page.getViewport({ scale })]. *)
Record PdfPage := { getViewport : spec_float -> Viewport }.

(** A document proxy: [pdf.numPages], a count of pages. *)
Record PdfDoc := { numPages : nat }.

Record Window := {
  innerWidth : spec_float;
  innerHeight : spec_float;
  clientWidth : spec_float;
  clientHeight : spec_float
}.

Inductive ScormVersion := V12 | V2004.

(** The API object found in the frame hierarchy, as a store of data-model
    elements that answers every call. *)
Record LMS := {
  cmi : gmap string string;
  initialized : bool;
  commits : nat;
  finished : bool
}.

(** A pending promise, with the page number its callbacks close over. *)
Inductive Job :=
| AwaitDocument
| AwaitPage (pageNumber : Z)
| AwaitRender (pageNumber : Z).

(** What the engine asks of pdf.js and of the canvas. *)
Inductive Effect :=
| GetDocument (url : string)
| DestroyDocument
| GetPage (pageNumber : Z)
| ResizeCanvas (w h : spec_float)
| ClearRect
| Raster (pageNumber : Z) (scale : spec_float)
| FillText (msg : string).

(** *** STATE: the variables of the module, the pending promises and the
    requests made so far *)

Record State := {
  pdfDoc : option PdfDoc;
  currentPage : Z;
  totalPages : Z;
  isRendering : bool;
  currPage : Z;
  visitedPages : list (option bool);
  lastPdfUrl : option string;
  scormAPI : option LMS;
  scormVersion : option ScormVersion;
  inflight : gmap nat Job;
  nextJob : nat;
  effects : list Effect
}.

(** Assignment to one variable. *)

Definition set_pdfDoc (v : option PdfDoc) (s : State) : State :=
  {| pdfDoc := v; currentPage := currentPage s; totalPages := totalPages s;
     isRendering := isRendering s; currPage := currPage s;
     visitedPages := visitedPages s; lastPdfUrl := lastPdfUrl s;
     scormAPI := scormAPI s; scormVersion := scormVersion s;
     inflight := inflight s; nextJob := nextJob s; effects := effects s |}.

Definition set_currentPage (v : Z) (s : State) : State :=
  {| pdfDoc := pdfDoc s; currentPage := v; totalPages := totalPages s;
     isRendering := isRendering s; currPage := currPage s;
     visitedPages := visitedPages s; lastPdfUrl := lastPdfUrl s;
     scormAPI := scormAPI s; scormVersion := scormVersion s;
     inflight := inflight s; nextJob := nextJob s; effects := effects s |}.

Definition set_totalPages (v : Z) (s : State) : State :=
  {| pdfDoc := pdfDoc s; currentPage := currentPage s; totalPages := v;
     isRendering := isRendering s; currPage := currPage s;
     visitedPages := visitedPages s; lastPdfUrl := lastPdfUrl s;
     scormAPI := scormAPI s; scormVersion := scormVersion s;
     inflight := inflight s; nextJob := nextJob s; effects := effects s |}.

Definition set_isRendering (v : bool) (s : State) : State :=
  {| pdfDoc := pdfDoc s; currentPage := currentPage s;
     totalPages := totalPages s; isRendering := v; currPage := currPage s;
     visitedPages := visitedPages s; lastPdfUrl := lastPdfUrl s;
     scormAPI := scormAPI s; scormVersion := scormVersion s;
     inflight := inflight s; nextJob := nextJob s; effects := effects s |}.

Definition set_currPage (v : Z) (s : State) : State :=
  {| pdfDoc := pdfDoc s; currentPage := currentPage s;
     totalPages := totalPages s; isRendering := isRendering s; currPage := v;
     visitedPages := visitedPages s; lastPdfUrl := lastPdfUrl s;
     scormAPI := scormAPI s; scormVersion := scormVersion s;
     inflight := inflight s; nextJob := nextJob s; effects := effects s |}.

Definition set_visitedPages (v : list (option bool)) (s : State) : State :=
  {| pdfDoc := pdfDoc s; currentPage := currentPage s;
     totalPages := totalPages s; isRendering := isRendering s;
     currPage := currPage s; visitedPages := v; lastPdfUrl := lastPdfUrl s;
     scormAPI := scormAPI s; scormVersion := scormVersion s;
     inflight := inflight s; nextJob := nextJob s; effects := effects s |}.

Definition set_lastPdfUrl (v : option string) (s : State) : State :=
  {| pdfDoc := pdfDoc s; currentPage := currentPage s;
     totalPages := totalPages s; isRendering := isRendering s;
     currPage := currPage s; visitedPages := visitedPages s; lastPdfUrl := v;
     scormAPI := scormAPI s; scormVersion := scormVersion s;
     inflight := inflight s; nextJob := nextJob s; effects := effects s |}.

Definition set_scormAPI (v : option LMS) (s : State) : State :=
  {| pdfDoc := pdfDoc s; currentPage := currentPage s;
     totalPages := totalPages s; isRendering := isRendering s;
     currPage := currPage s; visitedPages := visitedPages s;
     lastPdfUrl := lastPdfUrl s; scormAPI := v; scormVersion := scormVersion s;
     inflight := inflight s; nextJob := nextJob s; effects := effects s |}.

Definition set_scormVersion (v : option ScormVersion) (s : State) : State :=
  {| pdfDoc := pdfDoc s; currentPage := currentPage s;
     totalPages := totalPages s; isRendering := isRendering s;
     currPage := currPage s; visitedPages := visitedPages s;
     lastPdfUrl := lastPdfUrl s; scormAPI := scormAPI s; scormVersion := v;
     inflight := inflight s; nextJob := nextJob s; effects := effects s |}.

Definition set_inflight (v : gmap nat Job) (s : State) : State :=
  {| pdfDoc := pdfDoc s; currentPage := currentPage s;
     totalPages := totalPages s; isRendering := isRendering s;
     currPage := currPage s; visitedPages := visitedPages s;
     lastPdfUrl := lastPdfUrl s; scormAPI := scormAPI s;
     scormVersion := scormVersion s; inflight := v; nextJob := nextJob s;
     effects := effects s |}.

Definition set_nextJob (v : nat) (s : State) : State :=
  {| pdfDoc := pdfDoc s; currentPage := currentPage s;
     totalPages := totalPages s; isRendering := isRendering s;
     currPage := currPage s; visitedPages := visitedPages s;
     lastPdfUrl := lastPdfUrl s; scormAPI := scormAPI s;
     scormVersion := scormVersion s; inflight := inflight s; nextJob := v;
     effects := effects s |}.

Definition set_effects (v : list Effect) (s : State) : State :=
  {| pdfDoc := pdfDoc s; currentPage := currentPage s;
     totalPages := totalPages s; isRendering := isRendering s;
     currPage := currPage s; visitedPages := visitedPages s;
     lastPdfUrl := lastPdfUrl s; scormAPI := scormAPI s;
     scormVersion := scormVersion s; inflight := inflight s;
     nextJob := nextJob s; effects := v |}.

(** The state when the script has loaded. *)
Definition initial : State :=
  {| pdfDoc := None; currentPage := 1; totalPages := 0; isRendering := false;
     currPage := -1; visitedPages := []; lastPdfUrl := None; scormAPI := None;
     scormVersion := None; inflight := ∅; nextJob := 0%nat; effects := [] |}.

(** ToBoolean on [pdfDoc], a document proxy or [null]. *)
Definition loaded (s : State) : bool :=
  match pdfDoc s with Some _ => true | None => false end.

(** A request to pdf.js or to the canvas. *)
Definition emit (e : Effect) (s : State) : State := set_effects (effects s ++ [e]) s.

(** A promise whose callbacks are registered. *)
Definition schedule (j : Job) (s : State) : State :=
  set_nextJob (S (nextJob s)) (set_inflight (<[nextJob s := j]> (inflight s)) s).

(** A settled promise. *)
Definition settle (id : nat) (s : State) : State := set_inflight (delete id (inflight s)) s.

(** *** Arrays with holes: [visitedPages] *)

(** [a[i]], [undefined] (here [None]) at a hole and outside the array. *)
Definition arrayGet (a : list (option bool)) (i : Z) : option bool :=
  if i <? 0 then None else mjoin (a !! Z.to_nat i).

(** [a[i] = v]: an index past the end extends the array with holes; a
    negative index names a property and leaves the elements alone. *)
Definition arraySet (a : list (option bool)) (i : Z) (v : bool) : list (option bool) :=
  if i <? 0 then a
  else if (Z.to_nat i <? length a)%nat then <[Z.to_nat i := Some v]> a
  else a ++ replicate (Z.to_nat i - length a) None ++ [Some v].

(** ToBoolean on an element. *)
Definition truthy (v : option bool) : bool := default false v.

(** *** The progress string (lines 149 and 216-223) *)

(** [visitedPages.map(v => v ? "1" : "0").join("")]: [map] skips a hole
    and [join] prints it as the empty string. *)
Definition encodeVisited (a : list (option bool)) : string :=
  JS.join EmptyString
    (map (fun v => match v with
                   | Some true => "1"
                   | Some false => "0"
                   | None => EmptyString
                   end) a).

(** [visitedPages = Array(totalPages).fill(false);
     if (suspend && suspend.length === totalPages)
         visitedPages = suspend.split("").map(c => c === "1");] *)
Definition decodeVisited (suspend : string) (totalPages : nat) : list (option bool) :=
  let visitedPages := replicate totalPages (Some false) in
  if negb (String.eqb suspend EmptyString) && (String.length suspend =? totalPages)%nat
  then map (fun c => Some (Ascii.eqb c "1"%char)) (list_ascii_of_string suspend)
  else visitedPages.

(** *** [parseInt(s, 10)], [None] for [NaN] *)

Definition isWhiteSpace (c : ascii) : bool :=
  let n := nat_of_ascii c in
  ((9 <=? n) && (n <=? 13) || (n =? 32) || (n =? 160))%nat.

Fixpoint trimStart (s : string) : string :=
  match s with
  | String c rest => if isWhiteSpace c then trimStart rest else s
  | EmptyString => s
  end.

Definition digit (c : ascii) : option Z :=
  let n := nat_of_ascii c in
  if ((48 <=? n) && (n <=? 57))%nat then Some (Z.of_nat n - 48) else None.

(** The value of the longest prefix of digits, after [acc]. *)
Fixpoint digits (acc : Z) (s : string) : Z :=
  match s with
  | String c rest =>
      match digit c with
      | Some d => digits (10 * acc + d) rest
      | None => acc
      end
  | EmptyString => acc
  end.

Definition startsWithDigit (s : string) : bool :=
  match s with
  | String c _ => bool_decide (is_Some (digit c))
  | EmptyString => false
  end.

Definition parseInt (s : string) : option Z :=
  let s := trimStart s in
  let '(sign, s) :=
    match s with
    | String "-"%char rest => (-1, rest)
    | String "+"%char rest => (1, rest)
    | _ => (1, s)
    end in
  if startsWithDigit s then Some (sign * digits 0 s) else None.

(** *** SCORM helpers *)

(** [initSCORM()]: [found] is what [findAPI(window)] meets in the frame
    hierarchy; [findAPI] sets [scormVersion] only when it finds an API. *)
Definition initSCORM (found : option (ScormVersion * LMS)) (s : State) : State :=
  match found with
  | None => set_scormAPI None s
  | Some (v, api) =>
      set_scormAPI
        (Some {| cmi := cmi api; initialized := true; commits := commits api;
                 finished := finished api |})
        (set_scormVersion (Some v) s)
  end.

Definition elementName (s : State) (a b : string) : string :=
  match scormVersion s with Some V12 => a | _ => b end.

Definition getSCORMValue (a b : string) (s : State) : string :=
  match scormAPI s with
  | None => EmptyString
  | Some api => default EmptyString (cmi api !! elementName s a b)
  end.

Definition setSCORMValue (a b v : string) (s : State) : State :=
  match scormAPI s with
  | None => s
  | Some api =>
      set_scormAPI
        (Some {| cmi := <[elementName s a b := v]> (cmi api);
                 initialized := initialized api; commits := commits api;
                 finished := finished api |}) s
  end.

Definition commitSCORM (s : State) : State :=
  match scormAPI s with
  | None => s
  | Some api =>
      set_scormAPI
        (Some {| cmi := cmi api; initialized := initialized api;
                 commits := S (commits api); finished := finished api |}) s
  end.

Definition terminateSCORM (s : State) : State :=
  match scormAPI s with
  | None => s
  | Some api =>
      set_scormAPI
        (Some {| cmi := cmi api; initialized := initialized api;
                 commits := commits api; finished := true |}) s
  end.

(** *** Helpers *)

Definition clearCanvas (s : State) : State := emit ClearRect s.

(** [a || b] on two numbers. *)
Definition numberOr (a b : spec_float) : spec_float := if Number.truthy a then a else b.

(** *** Rendering a page with fit-to-screen logic *)

(** [renderPage(pageNumber)], up to the return of the call: the two
    guards, the two assignments and the request for the page. *)
Definition renderPage (pageNumber : Z) (s : State) : State :=
  if negb (loaded s) || isRendering s then s
  else if currPage s =? pageNumber then s
  else
    let s := set_currPage pageNumber s in
    let s := set_isRendering true s in
    schedule (AwaitPage pageNumber) (emit (GetPage pageNumber) s).

(** The callback of [pdfDoc.getPage(pageNumber).then]. *)
Definition pageResolved (pageNumber : Z) (page : PdfPage) (win : Window) (s : State) : State :=
  let wrapperW := numberOr (innerWidth win) (clientWidth win) in
  let wrapperH := numberOr (innerHeight win) (clientHeight win) in
  let unscaled := getViewport page Number.one in
  let pdfW := width unscaled in
  let pdfH := height unscaled in
  let scale := fitScale wrapperW wrapperH pdfW pdfH in
  let viewport := getViewport page scale in
  let s := emit (ResizeCanvas (width viewport) (height viewport)) s in
  let s := emit ClearRect s in
  schedule (AwaitRender pageNumber) (emit (Raster pageNumber scale) s).

(** The callback of [page.render(renderContext).promise.then]. *)
Definition renderResolved (pageNumber : Z) (s : State) : State :=
  let s := set_isRendering false s in
  let s := if negb (truthy (arrayGet (visitedPages s) (pageNumber - 1)))
           then set_visitedPages (arraySet (visitedPages s) (pageNumber - 1) true) s
           else s in
  let dataString := encodeVisited (visitedPages s) in
  let s := setSCORMValue "cmi.suspend_data" "cmi.suspend_data" dataString s in
  let s := setSCORMValue "cmi.core.lesson_location" "cmi.location" (pretty pageNumber) s in
  commitSCORM s.

(** Both [catch] callbacks: [console.error], then [isRendering = false]. *)
Definition renderFailed (s : State) : State := set_isRendering false s.

(** *** Loading a document *)

Definition destroyPdfDoc (s : State) : State :=
  let s := if loaded s then emit DestroyDocument s else s in
  set_pdfDoc None s.

(** The [catch] block of [startViewerWithPdf]; the promise it returns is
    rejected. *)
Definition startFailed (s : State) : State :=
  emit (FillText "Failed to load PDF.") (clearCanvas s).

(** [startViewerWithPdf(pdfUrl)] up to [await loadingTask.promise]. *)
Definition startViewerWithPdf (pdfUrl : option string)
    (found : option (ScormVersion * LMS)) (s : State) : State :=
  match pdfUrl with
  | None => startFailed s
  | Some url =>
      if String.eqb url EmptyString then startFailed s
      else
        let s := destroyPdfDoc s in
        let s := clearCanvas s in
        let s := set_currPage (-1) s in
        let s := set_isRendering false s in
        let s := set_currentPage 1 s in
        let s := set_totalPages 0 s in
        let s := set_visitedPages [] s in
        let s := set_lastPdfUrl (Some url) s in
        let s := initSCORM found s in
        schedule AwaitDocument (emit (GetDocument url) s)
  end.

(** [startViewerWithPdf] from the point where [loadingTask.promise] has
    resolved to [pdf]. *)
Definition documentResolved (pdf : PdfDoc) (s : State) : State :=
  let s := set_pdfDoc (Some pdf) s in
  let s := set_totalPages (Z.of_nat (numPages pdf)) s in
  let suspend := getSCORMValue "cmi.suspend_data" "cmi.suspend_data" s in
  let s := set_visitedPages (decodeVisited suspend (numPages pdf)) s in
  let lastLoc := parseInt (getSCORMValue "cmi.core.lesson_location" "cmi.location" s) in
  let s := match lastLoc with
           | Some l => if (1 <=? l) && (l <=? totalPages s)
                       then set_currentPage l s else set_currentPage 1 s
           | None => set_currentPage 1 s
           end in
  renderPage (currentPage s) s.

(** *** Navigation, teardown and resize *)

Definition next (s : State) : State :=
  if negb (loaded s) then s
  else if currentPage s <? totalPages s
       then let s := set_currentPage (currentPage s + 1) s in renderPage (currentPage s) s
       else s.

Definition prev (s : State) : State :=
  if negb (loaded s) then s
  else if 1 <? currentPage s
       then let s := set_currentPage (currentPage s - 1) s in renderPage (currentPage s) s
       else s.

Definition destroy (s : State) : State := clearCanvas (destroyPdfDoc s).

Definition resize (s : State) : State :=
  if loaded s && negb (currentPage s =? 0)
  then renderPage (currentPage s) (set_currPage (-1) s)
  else s.

(** *** The host: calls into the engine and settlements of its promises *)

Inductive Event :=
| Start (pdfUrl : option string) (found : option (ScormVersion * LMS))
| DocumentResolved (id : nat) (pdf : PdfDoc)
| DocumentRejected (id : nat)
| PageResolved (id : nat) (page : PdfPage) (win : Window)
| PageRejected (id : nat)
| RenderResolved (id : nat)
| RenderRejected (id : nat)
| Next
| Prev
| Destroy
| Resize
| BeforeUnload.

(** One turn of the event loop; [None] when the event settles a promise
    that is not pending in that way. *)
Definition deliver (ev : Event) (s : State) : option State :=
  match ev with
  | Start pdfUrl found => Some (startViewerWithPdf pdfUrl found s)
  | DocumentResolved id pdf =>
      match inflight s !! id with
      | Some AwaitDocument => Some (documentResolved pdf (settle id s))
      | _ => None
      end
  | DocumentRejected id =>
      match inflight s !! id with
      | Some AwaitDocument => Some (startFailed (settle id s))
      | _ => None
      end
  | PageResolved id page win =>
      match inflight s !! id with
      | Some (AwaitPage pageNumber) => Some (pageResolved pageNumber page win (settle id s))
      | _ => None
      end
  | PageRejected id =>
      match inflight s !! id with
      | Some (AwaitPage _) => Some (renderFailed (settle id s))
      | _ => None
      end
  | RenderResolved id =>
      match inflight s !! id with
      | Some (AwaitRender pageNumber) => Some (renderResolved pageNumber (settle id s))
      | _ => None
      end
  | RenderRejected id =>
      match inflight s !! id with
      | Some (AwaitRender _) => Some (renderFailed (settle id s))
      | _ => None
      end
  | Next => Some (next s)
  | Prev => Some (prev s)
  | Destroy => Some (destroy s)
  | Resize => Some (resize s)
  | BeforeUnload => Some (terminateSCORM s)
  end.

(** The settlement of a promise of [renderPage]. *)
Definition isSettlement (ev : Event) : bool :=
  match ev with
  | PageResolved _ _ _ | PageRejected _ | RenderResolved _ | RenderRejected _ => true
  | _ => false
  end.

(** A document as pdf.js hands it over has at least one page. *)
Definition documentHasPages (ev : Event) : Prop :=
  match ev with
  | DocumentResolved _ pdf => (1 <= numPages pdf)%nat
  | _ => True
  end.

Fixpoint run (evs : list Event) (s : State) : option State :=
  match evs with
  | [] => Some s
  | ev :: rest => s' ← deliver ev s; run rest s'
  end.

(** The render work requested so far: page fetches, canvas resizes and
    rasters. *)
Definition isPageFetch (e : Effect) : bool :=
  match e with GetPage _ => true | _ => false end.
Definition isResize (e : Effect) : bool :=
  match e with ResizeCanvas _ _ => true | _ => false end.
Definition isRaster (e : Effect) : bool :=
  match e with Raster _ _ => true | _ => false end.

Definition count (f : Effect -> bool) (s : State) : nat :=
  length (List.filter f (effects s)).

(** The settlement that hands the page over. *)
Definition isPageResolved (ev : Event) : bool :=
  match ev with PageResolved _ _ _ => true | _ => false end.

Definition pageArrived (evs : list Event) : bool := existsb isPageResolved evs.

(** What the callback of [getPage] asks for on [page] in the window
    [win]: the canvas at the size of the fitted viewport, cleared, and
    the raster of the page at the fitted scale. *)
Definition renderWork (pageNumber : Z) (page : PdfPage) (win : Window) : list Effect :=
  let scale := fitScale (numberOr (innerWidth win) (clientWidth win))
                        (numberOr (innerHeight win) (clientHeight win))
                        (width (getViewport page Number.one))
                        (height (getViewport page Number.one)) in
  let viewport := getViewport page scale in
  [ResizeCanvas (width viewport) (height viewport); ClearRect; Raster pageNumber scale].

(** The course of the one render of page [p] that is pending, after the
    requests [base]. Before the page has arrived nothing has been added
    to [base], and the page is awaited or its fetch has failed; once it
    has arrived, [base] is followed by the work on that page and nothing
    else, and the raster is awaited or has settled. *)
Definition renderCourse (p : Z) (base : list Effect) (arrived : bool) (s : State) : Prop :=
  if arrived
  then exists page win,
         effects s = base ++ renderWork p page win
         /\ ((exists id, inflight s = {[ id := AwaitRender p ]} /\ isRendering s = true)
             \/ (inflight s = ∅ /\ isRendering s = false))
  else effects s = base
       /\ ((exists id, inflight s = {[ id := AwaitPage p ]} /\ isRendering s = true)
           \/ (inflight s = ∅ /\ isRendering s = false)).

End Viewer.

(** ** The markup escape the specification asks of the manifest builder *)

Module Spec.

(** From the specification (4.6): the title is free text and must be
    escaped for the markup context of the descriptor. The descriptor is
    XML; these are its five predefined entities. *)
Fixpoint escapeMarkup (s : string) : string :=
  match s with
  | EmptyString => EmptyString
  | String c rest =>
      (if Ascii.eqb c "&"%char then "&amp;"
       else if Ascii.eqb c "<"%char then "&lt;"
       else if Ascii.eqb c ">"%char then "&gt;"
       else if Ascii.eqb c "034"%char then "&quot;"
       else if Ascii.eqb c "'"%char then "&apos;"
       else String c EmptyString) +:+ escapeMarkup rest
  end.

End Spec.

(** ** The search for the SCORM API (player-viewer.js, lines 40-52) *)

Module Frames.
Import Viewer.

(** A window of the frame hierarchy as [findAPI] reads it: its properties
    [API] and [API_1484_11], an API object or [undefined]; or a window of
    another origin, where reading a property throws. *)
Inductive Frame :=
| SameOrigin (API API_1484_11 : option LMS)
| CrossOrigin.

(** The body of the [try] block, entered at [win] with [attemptsLeft]
    equal to [maxAttempts - attempts]. [ancestors] are the parents of
    [win], the nearest first; the last of them is the top window, which
    is its own parent. The result is the API object with the value
    [scormVersion] receives; [None] is [null], with [scormVersion] left
    alone. *)
Fixpoint search (ancestors : list Frame) (win : Frame) (attemptsLeft : nat)
    : option (ScormVersion * LMS) :=
  match win with
  | CrossOrigin => None
  | SameOrigin (Some api) _ => Some (V12, api)
  | SameOrigin None (Some api) => Some (V2004, api)
  | SameOrigin None None =>
      match ancestors, attemptsLeft with
      | parent :: rest, S n => search rest parent n
      | _, _ => None
      end
  end.

Definition maxAttempts : nat := 500.

(** [findAPI(win)] *)
Definition findAPI (win : Frame) (ancestors : list Frame) : option (ScormVersion * LMS) :=
  search ancestors win maxAttempts.

(** What the two tests after the loop return on a window. *)
Definition offers (win : Frame) : option (ScormVersion * LMS) :=
  match win with
  | SameOrigin (Some api) _ => Some (V12, api)
  | SameOrigin None (Some api) => Some (V2004, api)
  | _ => None
  end.

End Frames.

(** ** Sessions of the player engine *)

Module Session.
Import Viewer.

(** A promise of [renderPage]: the page or its raster is awaited. *)
Definition renderPending (j : Job) : bool :=
  match j with AwaitPage _ | AwaitRender _ => true | AwaitDocument => false end.

Definition isStart (ev : Event) : bool :=
  match ev with Start _ _ => true | _ => false end.

(** The events that assign a new array to [visitedPages]. *)
Definition isLoad (ev : Event) : bool :=
  match ev with Start _ _ | DocumentResolved _ _ => true | _ => false end.

(** The calls a page makes on [window.playerViewer] and the resize
    listener. *)
Definition isNavigation (ev : Event) : bool :=
  match ev with Next | Prev | Resize | Destroy => true | _ => false end.

Definition isDestroyDocument (e : Effect) : bool :=
  match e with DestroyDocument => true | _ => false end.

(** [isRendering] tells whether a promise of [renderPage] is pending, at
    most one is, and identifiers of promises are not reused. *)
Definition oneAtATime (s : State) : Prop :=
  (forall id j, inflight s !! id = Some j -> (id < nextJob s)%nat)
  /\ ((isRendering s = false
       /\ forall id j, inflight s !! id = Some j -> renderPending j = false)
      \/ (isRendering s = true
          /\ exists id j, inflight s !! id = Some j /\ renderPending j = true
             /\ forall id' j', inflight s !! id' = Some j' ->
                               renderPending j' = true -> id' = id)).

(** The document, its page count and the page counter agree. *)
Definition consistent (s : State) : Prop :=
  1 <= currentPage s
  /\ forall d, pdfDoc s = Some d ->
               totalPages s = Z.of_nat (numPages d) /\ currentPage s <= totalPages s.

(** A request pdf.js can serve: a raster at a finite scale greater than
    zero. *)
Definition usable (e : Effect) : Prop :=
  match e with
  | Raster _ scale => Number.positive_finite scale = true
  | _ => True
  end.

(** The calls that move the page counter or ask for the page again. *)
Definition isPaging (ev : Event) : bool :=
  match ev with Next | Prev | Resize => true | _ => false end.

(** [window.playerViewer.getState()] *)
Record PlayerState := {
  pdfLoaded : bool;
  stateLastPdfUrl : option string;
  stateTotalPages : Z;
  stateCurrentPage : Z
}.

Definition getState (s : State) : PlayerState :=
  {| pdfLoaded := loaded s; stateLastPdfUrl := lastPdfUrl s;
     stateTotalPages := totalPages s; stateCurrentPage := currentPage s |}.

End Session.

(** ** The staging directory of [POST /package] (server.js, lines 300-352) *)

Module Package.
Import JS Server.

(** 1) copy viewer assets: the staging directory after the loop. *)
Definition copyAssets (public : gmap string string) : gmap string string :=
  foldl (fun dir t => if existsSync public t then copyRecursive public t t dir else dir)
        (∅ : gmap string string) copyTargets.

(** 2) to 4): the PDF, [Config.js] and the fallback for
    [index_lms.html], written over the copied assets. *)
Definition staged (public : gmap string string) (content configJS : string)
    : gmap string string :=
  let dir := <["data/" +:+ pdfFilename := content]> (copyAssets public) in
  let dir := <["Config.js" := configJS]> dir in
  if existsSync dir "index_lms.html" then dir
  else <["index_lms.html" := indexLmsFallback]> dir.

(** 5) the resource list of the manifest. *)
Definition resourceFiles (dir : gmap string string) : list string :=
  ["player.html"; "index_lms.html"; "Config.js"; "data/" +:+ pdfFilename]
  ++ (if existsSync dir "css/styles.css" then ["css/styles.css"] else [])
  ++ (if existsSync dir "js/pdf.min.js" then ["js/pdf.min.js"] else [])
  ++ (if existsSync dir "js/pdf.worker.min.js" then ["js/pdf.worker.min.js"] else [])
  ++ (if existsSync dir "js/player-viewer.js" then ["js/player-viewer.js"] else []).

(** The headers of the archive. *)
Definition zipHeaders : list (string * string) :=
  [("Content-Type", "application/zip");
   ("Content-Disposition", "attachment; filename=" +:+ dq +:+ "scorm_package.zip" +:+ dq)].

(** A shipped file the loop of step 1 reaches: one of the two pages, or a
    file below [css/] or [js/]. *)
Definition shipped (public : gmap string string) (p : string) : Prop :=
  p = "player.html" \/ p = "index_lms.html"
  \/ (public !! "css" = None /\ exists rest, p = "css/" +:+ rest)
  \/ (public !! "js" = None /\ exists rest, p = "js/" +:+ rest).

(** A path the loop of step 1 can write: one of its four targets, or a
    path below one. *)
Definition reached (p : string) : Prop :=
  exists t, t ∈ copyTargets /\ (p = t \/ exists rest, p = t +:+ "/" +:+ rest).

End Package.

(** ** How a script engine reads the title of [Config.js] *)

Module Script.
Import JS.

Definition backslash : ascii := "092"%char.

(** The text of [Config.js] up to the opening quote of the title. *)
Definition configHead : string :=
  join nl [
    "// Config.js";
    "var Config = {";
    "    // Judul dokumen yang tampil di topbar";
    "    title: "
  ].

(** A double-quoted string literal of JavaScript, read from the character
    after its opening quote: the value of the literal and the text after
    its closing quote. Of the escape sequences only the two the server
    can write are read, a backslash before a double quote and before a
    backslash; [None] stands for every other escape sequence, for a line
    feed or carriage return inside the literal (a syntax error) and for
    a literal that is not closed. *)
Fixpoint readString (s : string) : option (string * string) :=
  match s with
  | EmptyString => None
  | String c rest =>
      if Ascii.eqb c "034"%char then Some (EmptyString, rest)
      else if Ascii.eqb c backslash then
        match rest with
        | String c' rest' =>
            if Ascii.eqb c' "034"%char || Ascii.eqb c' backslash
            then '(v, after) ← readString rest'; Some (String c' v, after)
            else None
        | EmptyString => None
        end
      else if Ascii.eqb c "010"%char || Ascii.eqb c "013"%char then None
      else '(v, after) ← readString rest; Some (String c v, after)
  end.

(** A title without backslash, line feed and carriage return. *)
Fixpoint plain (t : string) : bool :=
  match t with
  | EmptyString => true
  | String c rest =>
      negb (Ascii.eqb c backslash) && negb (Ascii.eqb c "010"%char)
      && negb (Ascii.eqb c "013"%char) && plain rest
  end.

End Script.

(** ** The conversion to PDF (server.js, lines 51-65) *)

Module Convert.
Import JS.

Definition isSlash (c : ascii) : bool := Ascii.eqb c "/"%char.
Definition isDot (c : ascii) : bool := Ascii.eqb c "."%char.

Fixpoint dropWhile (f : ascii -> bool) (l : list ascii) : list ascii :=
  match l with
  | c :: rest => if f c then dropWhile f rest else l
  | [] => []
  end.

Fixpoint takeWhile (f : ascii -> bool) (l : list ascii) : list ascii :=
  match l with
  | c :: rest => if f c then c :: takeWhile f rest else []
  | [] => []
  end.

(** The last portion of a path, read from its end as [path.posix] does:
    the slashes at the end are skipped, and the portion runs back to the
    slash before it. The characters come in reverse. *)
Definition lastPortion (p : string) : list ascii :=
  takeWhile (fun c => negb (isSlash c))
    (dropWhile isSlash (rev (list_ascii_of_string p))).

(** [path.basename(p)] *)
Definition basename (p : string) : string :=
  string_of_list_ascii (rev (lastPortion p)).

(** [path.extname(p)]: from the last dot of the last portion to its end;
    empty when the portion has no dot, when its only dot is its first
    character, and for the portion [..]. *)
Definition extname (p : string) : string :=
  let portion := lastPortion p in
  match dropWhile (fun c => negb (isDot c)) portion with
  | [] => EmptyString
  | _ :: before =>
      match before with
      | [] => EmptyString
      | _ =>
          if String.eqb (basename p) ".." then EmptyString
          else string_of_list_ascii
                 ("."%char :: rev (takeWhile (fun c => negb (isDot c)) portion))
      end
  end.

(** [s.replace(pattern, replacement)] with a string as pattern and a
    replacement without [$]: the first occurrence is replaced, and the
    empty pattern occurs at the start. *)
Fixpoint replaceFirst (pattern replacement s : string) : string :=
  match Server.stripPrefix pattern s with
  | Some rest => replacement +:+ rest
  | None =>
      match s with
      | String c s' => String c (replaceFirst pattern replacement s')
      | EmptyString => EmptyString
      end
  end.

(** How the [soffice] process ends: it cannot be spawned, or it closes
    with an exit code ([null] when a signal ended it) after writing
    [stderr]. *)
Inductive Process :=
| SpawnFailed (err : Error)
| Closed (code : option Z) (stderr : string).

(** [path.basename(inputPath).replace(path.extname(inputPath), ".pdf")] *)
Definition pdfName (inputPath : string) : string :=
  replaceFirst (extname inputPath) ".pdf" (basename inputPath).

(** [convertToPdf(inputPath, outDir)]: what the promise settles to. The
    path [path.join(outDir, name)] is kept as its two arguments. *)
Definition convertToPdf (proc : Process) (inputPath outDir : string)
    : Result (string * string) :=
  match proc with
  | SpawnFailed err => Throw err
  | Closed (Some 0) _ => Ok (outDir, pdfName inputPath)
  | Closed code stderr =>
      Throw (mkError ("soffice exit code "
                      +:+ match code with Some n => pretty n | None => "null" end
                      +:+ " - " +:+ stderr))
  end.

(** A file name: not empty and without a slash. *)
Definition isFileName (name : string) : bool :=
  negb (String.eqb name EmptyString)
  && forallb (fun c => negb (isSlash c)) (list_ascii_of_string name).

Definition noDot (s : string) : bool :=
  forallb (fun c => negb (isDot c)) (list_ascii_of_string s).

Definition noSlash (s : string) : bool :=
  forallb (fun c => negb (isSlash c)) (list_ascii_of_string s).

(** The [filename] callback of the upload storage (lines 40-43):
    [`${uuidv4()}${path.extname(file.originalname) || ""}`]. *)
Definition uploadFilename (uuid originalname : string) : string :=
  uuid +:+ extname originalname.

End Convert.

(** ** The generated sample (tmp/pkg_bcb70ea7-902f-4dcb-b06c-6f272f637248/Config.js) *)

Module Sample.
Import JS.

(** The file, line by line. *)
Definition configJs : string :=
  join nl [
    "// Config.js";
    "var Config = {";
    "    // Judul dokumen yang tampil di topbar";
    "    title: " +:+ dq +:+ "BAWANA SCORM-KIT" +:+ dq +:+ ",";
    EmptyString;
    "    // MODE: masukkan link PPTX publik (A).";
    "    // Contoh: " +:+ dq +:+ "https://example.com/training.pptx" +:+ dq;
    "    // Jika nanti diintegrasikan ke LMS, LMS tinggal mengganti / generate URL ini.";
    "    //pptUrl: " +:+ dq +:+ "https://netpolitanteam.com/demo/ppt/test.pptx" +:+ dq +:+ ",";
    "    pptUrl: null,";
    EmptyString;
    "    // (opsional) fallback ke file PDF statis di folder `data/`";
    "    filename: " +:+ dq +:+ "content.pdf" +:+ dq +:+ ",";
    EmptyString;
    "    // UI config (tidak perlu ubah)";
    "    fontFamily: " +:+ dq +:+ "system-ui, -apple-system, BlinkMacSystemFont, 'Segoe UI', sans-serif" +:+ dq +:+ ",";
    "    fontSize: " +:+ dq +:+ "14px" +:+ dq +:+ ",";
    "    fontColor: " +:+ dq +:+ "#222222" +:+ dq +:+ ",";
    "    bodyBgColor: " +:+ dq +:+ "#ffffff" +:+ dq +:+ ",";
    "    headerBgColor: " +:+ dq +:+ "#555555" +:+ dq +:+ ",";
    "    headerTextColor: " +:+ dq +:+ "#ffffff" +:+ dq +:+ ",";
    "    footerBgColor: " +:+ dq +:+ "#555555" +:+ dq +:+ ",";
    "    footerTextColor: " +:+ dq +:+ "#ffffff" +:+ dq +:+ ",";
    "    buttonBgColor: " +:+ dq +:+ "#777777" +:+ dq +:+ ",";
    "    buttonPrimaryBgColor: " +:+ dq +:+ "#007bff" +:+ dq +:+ ",";
    "    buttonTextColor: " +:+ dq +:+ "#ffffff" +:+ dq +:+ ",";
    "    progressBarColor: " +:+ dq +:+ "#00ff00" +:+ dq +:+ ",";
    EmptyString;
    "    // sidebar default open? (true/false)";
    "    sidebarDefaultOpen: true,";
    EmptyString;
    "    // Lock sequence slides? (true = must go sequentially)";
    "    slideSequenceLocked: true,";
    EmptyString;
    "    // nav button position: 'left' | 'center' | 'right'";
    "    navPosition: " +:+ dq +:+ "right" +:+ dq;
    "};"
  ].

End Sample.

Ltac names := intros; cbv [String.append Server.pdfFilename] in *; congruence.

(** * Properties *)

(** ** Viewport fit *)

Section Division.

Variables prec emax : Z.

Lemma shr_1_nonneg mrs : 0 <= shr_m mrs -> 0 <= shr_m (shr_1 mrs).
Proof.
  destruct mrs as [m r s]; simpl.
  destruct m as [|[p|p|]|[p|p|]]; simpl; lia.
Qed.

Lemma iter_pos_shr_1_nonneg n : forall mrs,
  0 <= shr_m mrs -> 0 <= shr_m (SpecFloat.iter_pos shr_1 n mrs).
Proof.
  induction n as [n IH|n IH|]; intros mrs H; simpl.
  - apply IH, IH, shr_1_nonneg, H.
  - apply IH, IH, H.
  - apply shr_1_nonneg, H.
Qed.

Lemma shr_fexp_nonneg m e l :
  0 <= m -> 0 <= shr_m (fst (shr_fexp prec emax m e l)).
Proof.
  intros H. unfold shr_fexp, shr.
  assert (H0 : 0 <= shr_m (shr_record_of_loc m l)) by (destruct l as [|[]]; exact H).
  destruct (fexp prec emax (Zdigits2 m + e) - e); simpl; auto.
  apply iter_pos_shr_1_nonneg, H0.
Qed.

Lemma round_nearest_even_nonneg m l : 0 <= m -> 0 <= round_nearest_even m l.
Proof.
  intros H. unfold round_nearest_even.
  destruct l as [|[]]; try destruct (Z.even m); lia.
Qed.

(** Rounding a non-negative mantissa never yields [NaN] and never the
    other sign. *)
Lemma binary_round_aux_nonNegative mx ex lx :
  0 <= mx -> Number.nonNegative (binary_round_aux prec emax false mx ex lx) = true.
Proof.
  intros H. unfold binary_round_aux.
  pose proof (shr_fexp_nonneg mx ex lx H) as H1.
  destruct (shr_fexp prec emax mx ex lx) as [mrs' e']. simpl in H1.
  pose proof (shr_fexp_nonneg _ e' loc_Exact
                (round_nearest_even_nonneg _ (loc_of_shr_record mrs') H1)) as H2.
  destruct (shr_fexp prec emax _ e' loc_Exact) as [mrs'' e'']. simpl in H2.
  destruct (shr_m mrs'') as [|m|m]; simpl; try reflexivity.
  - destruct (e'' <=? emax - prec); reflexivity.
  - lia.
Qed.

Lemma SFdiv_core_binary_nonneg m1 e1 m2 e2 :
  0 <= fst (fst (SFdiv_core_binary prec emax (Zpos m1) e1 (Zpos m2) e2)).
Proof.
  unfold SFdiv_core_binary.
  set (s := e1 - e2 - _).
  set (m' := match s with Z0 => _ | Zpos _ => _ | Zneg _ => _ end).
  assert (Hm : 0 <= m').
  { unfold m'. destruct s; try lia. apply Z.shiftl_nonneg. lia. }
  pose proof (Z.div_pos m' (Zpos m2) Hm ltac:(lia)) as Hq.
  unfold Z.div in Hq.
  destruct (Z.div_eucl m' (Zpos m2)) as [q r]. exact Hq.
Qed.

Lemma SFdiv_positive m1 e1 m2 e2 :
  Number.nonNegative
    (SFdiv prec emax (S754_finite false m1 e1) (S754_finite false m2 e2)) = true.
Proof.
  unfold SFdiv.
  pose proof (SFdiv_core_binary_nonneg m1 e1 m2 e2) as H.
  destruct (SFdiv_core_binary prec emax (Zpos m1) e1 (Zpos m2) e2) as [[mz ez] lz].
  simpl in H. apply binary_round_aux_nonNegative, H.
Qed.

End Division.

(** *** Division away from overflow and underflow *)

Lemma digits2_pos_bounds m :
  2 ^ (Zpos (digits2_pos m) - 1) <= Zpos m < 2 ^ Zpos (digits2_pos m).
Proof.
  induction m as [m IH|m IH|]; cbn [digits2_pos].
  - rewrite Pos2Z.inj_succ, (Pos2Z.inj_xI m).
    replace (Z.succ (Zpos (digits2_pos m)) - 1) with (Z.succ (Zpos (digits2_pos m) - 1)) by lia.
    rewrite !Z.pow_succ_r by lia.
    generalize dependent (2 ^ (Zpos (digits2_pos m) - 1)).
    generalize (2 ^ Zpos (digits2_pos m)). intros; lia.
  - rewrite Pos2Z.inj_succ, (Pos2Z.inj_xO m).
    replace (Z.succ (Zpos (digits2_pos m)) - 1) with (Z.succ (Zpos (digits2_pos m) - 1)) by lia.
    rewrite !Z.pow_succ_r by lia.
    generalize dependent (2 ^ (Zpos (digits2_pos m) - 1)).
    generalize (2 ^ Zpos (digits2_pos m)). intros; lia.
  - simpl. lia.
Qed.

Lemma digits2_pos_53_54 m :
  2 ^ 52 <= Zpos m < 2 ^ 54 ->
  Zpos (digits2_pos m) = 53 \/ Zpos (digits2_pos m) = 54.
Proof.
  intros [Hlo Hhi]. destruct (digits2_pos_bounds m) as [H1 H2].
  assert (52 < Zpos (digits2_pos m)).
  { apply (Z.pow_lt_mono_r_iff 2); lia. }
  assert (Zpos (digits2_pos m) - 1 < 54).
  { apply (Z.pow_lt_mono_r_iff 2); lia. }
  lia.
Qed.

Lemma shr_1_half mrs :
  0 < shr_m mrs -> 2 * shr_m (shr_1 mrs) <= shr_m mrs < 2 * shr_m (shr_1 mrs) + 2.
Proof.
  destruct mrs as [m r s]; simpl. destruct m as [|[p|p|]|]; simpl; lia.
Qed.

(** Normalising a mantissa of 53 or 54 bits, away from the subnormals. *)
Lemma shr_fexp_normal m e l :
  2 ^ 52 <= m < 2 ^ 54 -> -1074 <= e ->
  2 ^ 52 <= shr_m (fst (shr_fexp 53 1024 m e l)) < 2 ^ 53
  /\ e <= snd (shr_fexp 53 1024 m e l) <= e + 1.
Proof.
  intros Hm He. destruct m as [|p|p]; try (exfalso; lia).
  unfold shr_fexp, fexp, emin, Zdigits2.
  assert (Hl : shr_m (shr_record_of_loc (Zpos p) l) = Zpos p) by (destruct l as [|[]]; reflexivity).
  destruct (digits2_pos_bounds p) as [H1 H2].
  destruct (digits2_pos_53_54 p Hm) as [Hd|Hd]; rewrite Hd in *.
  - replace (Z.max (53 + e - 53) (3 - 1024 - 53) - e) with 0 by lia.
    cbn [shr fst snd]. rewrite Hl. lia.
  - replace (Z.max (54 + e - 53) (3 - 1024 - 53) - e) with 1 by lia.
    cbn [shr fst snd SpecFloat.iter_pos].
    pose proof (shr_1_half (shr_record_of_loc (Zpos p) l)) as Hh. rewrite Hl in Hh.
    change (2 ^ (54 - 1)) with (2 ^ 53) in H1.
    change (2 ^ 54) with (2 * 2 ^ 53) in H2. change (2 ^ 53) with (2 * 2 ^ 52) in *.
    lia.
Qed.

Lemma round_nearest_even_bounds m l :
  m <= round_nearest_even m l <= m + 1.
Proof. unfold round_nearest_even. destruct l as [|[]]; try destruct (Z.even m); lia. Qed.

Lemma binary_round_aux_normal q e l :
  2 ^ 52 <= q < 2 ^ 54 -> -1074 <= e <= 969 ->
  exists m e', binary_round_aux 53 1024 false q e l = S754_finite false m e'.
Proof.
  intros Hq He. unfold binary_round_aux.
  destruct (shr_fexp_normal q e l Hq ltac:(lia)) as [Hm1 He1].
  destruct (shr_fexp 53 1024 q e l) as [mrs' e1]. cbn [fst snd] in *.
  pose proof (round_nearest_even_bounds (shr_m mrs') (loc_of_shr_record mrs')) as Hr.
  set (m2 := round_nearest_even (shr_m mrs') (loc_of_shr_record mrs')) in *.
  assert (Hm2 : 2 ^ 52 <= m2 < 2 ^ 54).
  { change (2 ^ 54) with (2 * 2 ^ 53). change (2 ^ 53) with (2 * 2 ^ 52) in *. lia. }
  destruct (shr_fexp_normal m2 e1 loc_Exact Hm2 ltac:(lia)) as [Hm3 He3].
  destruct (shr_fexp 53 1024 m2 e1 loc_Exact) as [mrs'' e2]. cbn [fst snd] in *.
  destruct (shr_m mrs'') as [|m|m]; try (exfalso; lia).
  replace (e2 <=? 1024 - 53) with true by (symmetry; apply Z.leb_le; lia).
  eauto.
Qed.

Lemma SFdiv_normal mx ex my ey :
  2 ^ 52 <= Zpos mx < 2 ^ 53 -> 2 ^ 52 <= Zpos my < 2 ^ 53 ->
  -1021 <= ex - ey <= 1022 ->
  exists m e, SFdiv 53 1024 (S754_finite false mx ex) (S754_finite false my ey)
              = S754_finite false m e.
Proof.
  intros Hx Hy He. unfold SFdiv, SFdiv_core_binary, fexp, emin, Zdigits2.
  assert (Hdx : Zpos (digits2_pos mx) = 53).
  { destruct (digits2_pos_bounds mx) as [H1 H2].
    assert (52 < Zpos (digits2_pos mx)) by (apply (Z.pow_lt_mono_r_iff 2); lia).
    assert (Zpos (digits2_pos mx) - 1 < 53) by (apply (Z.pow_lt_mono_r_iff 2); lia). lia. }
  assert (Hdy : Zpos (digits2_pos my) = 53).
  { destruct (digits2_pos_bounds my) as [H1 H2].
    assert (52 < Zpos (digits2_pos my)) by (apply (Z.pow_lt_mono_r_iff 2); lia).
    assert (Zpos (digits2_pos my) - 1 < 53) by (apply (Z.pow_lt_mono_r_iff 2); lia). lia. }
  rewrite Hdx, Hdy.
  replace (Z.min (Z.max (53 + ex - (53 + ey) - 53) (3 - 1024 - 53)) (ex - ey))
    with (ex - ey - 53) by lia.
  replace (ex - ey - (ex - ey - 53)) with 53 by lia.
  cbn [xorb].
  assert (Hq : 2 ^ 52 <= Z.shiftl (Zpos mx) 53 / Zpos my < 2 ^ 54).
  { rewrite Z.shiftl_mul_pow2 by lia. split.
    - apply Z.div_le_lower_bound; [lia|].
      change (2 ^ 53) with (2 * 2 ^ 52) in *. nia.
    - apply Z.div_lt_upper_bound; [lia|].
      change (2 ^ 54) with (2 * 2 ^ 53). change (2 ^ 53) with (2 * 2 ^ 52) in *. nia. }
  unfold Z.div in Hq.
  destruct (Z.div_eucl (Z.shiftl (Zpos mx) 53) (Zpos my)) as [q r].
  apply binary_round_aux_normal; [exact Hq|lia].
Qed.

(** The quotient of two ordinary numbers is a positive finite number. *)
Lemma div_ordinary x y :
  Number.ordinary x = true -> Number.ordinary y = true ->
  Number.positive_finite (Number.div x y) = true.
Proof.
  destruct x as [| | |[] mx ex]; try discriminate.
  destruct y as [| | |[] my ey]; try discriminate.
  unfold Number.ordinary. intros Hx Hy.
  apply andb_true_iff in Hx as [Hx Hx3]. apply andb_true_iff in Hx as [Hx1 Hx2].
  apply andb_true_iff in Hy as [Hy Hy3]. apply andb_true_iff in Hy as [Hy1 Hy2].
  apply Z.eqb_eq in Hx1, Hy1. apply Z.leb_le in Hx2, Hx3, Hy2, Hy3.
  pose proof (digits2_pos_bounds mx) as Bx. pose proof (digits2_pos_bounds my) as By.
  rewrite Hx1 in Bx. rewrite Hy1 in By.
  destruct (SFdiv_normal mx ex my ey Bx By ltac:(lia)) as (m & e & H).
  unfold Number.div, Number.prec, Number.emax. rewrite H. reflexivity.
Qed.

Lemma ordinary_positive_finite x :
  Number.ordinary x = true -> Number.positive_finite x = true.
Proof. destruct x as [| | |[] m e]; try discriminate. reflexivity. Qed.

Lemma ordinary_is_double x : Number.ordinary x = true -> Number.is_double x = true.
Proof.
  destruct x as [| | |[] m e]; try discriminate.
  unfold Number.ordinary. intros H.
  apply andb_true_iff in H as [H H3]. apply andb_true_iff in H as [H1 H2].
  apply Z.eqb_eq in H1. apply Z.leb_le in H2, H3.
  unfold Number.is_double, valid_binary, bounded, canonical_mantissa, fexp, emin,
    Number.prec, Number.emax.
  rewrite H1. apply andb_true_iff. split; [apply Z.eqb_eq|apply Z.leb_le]; lia.
Qed.

Lemma Math_min_positive_finite x y :
  Number.positive_finite x = true -> Number.positive_finite y = true ->
  Number.positive_finite (Number.Math_min x y) = true.
Proof.
  destruct x as [| | |[] mx ex]; try discriminate.
  destruct y as [| | |[] my ey]; try discriminate.
  intros _ _. unfold Number.Math_min. simpl.
  destruct (ex ?= ey); try reflexivity.
  destruct (Pos.compare_cont Eq mx my); reflexivity.
Qed.

(** The quotient of two positive finite numbers is [+0] (underflow), a
    positive finite number or [+Infinity] (overflow). *)
Lemma div_positive x y :
  Number.positive_finite x = true -> Number.positive_finite y = true ->
  Number.nonNegative (Number.div x y) = true.
Proof.
  destruct x as [| | |[] mx ex]; try discriminate.
  destruct y as [| | |[] my ey]; try discriminate.
  intros _ _. apply SFdiv_positive.
Qed.

Lemma Math_min_nonNegative x y :
  Number.nonNegative x = true -> Number.nonNegative y = true ->
  Number.nonNegative (Number.Math_min x y) = true.
Proof.
  intros Hx Hy. unfold Number.Math_min.
  destruct (SFcompare x y) as [[]|] eqn:E.
  - destruct x as [[]| | |], y as [[]| | |]; assumption || discriminate.
  - assumption.
  - assumption.
  - destruct x as [[]|[]| |[]], y as [[]|[]| |[]]; discriminate.
Qed.

(** When the guard does not fire, the scale is the minimum itself. *)
Lemma fitScale_positive_finite vw vh pdfW pdfH :
  Number.positive_finite (Number.Math_min (Number.div vw pdfW) (Number.div vh pdfH)) = true ->
  fitScale vw vh pdfW pdfH = Number.Math_min (Number.div vw pdfW) (Number.div vh pdfH).
Proof.
  unfold fitScale.
  destruct (Number.Math_min _ _) as [| | |[] m e]; try discriminate.
  reflexivity.
Qed.

(** When the guard fires, the scale is [1]. *)
Lemma fitScale_fallback vw vh pdfW pdfH :
  let m := Number.Math_min (Number.div vw pdfW) (Number.div vh pdfH) in
  Number.isFinite m = false \/ Number.le m Number.zero = true ->
  fitScale vw vh pdfW pdfH = Number.one.
Proof.
  intros m [H|H]; unfold fitScale; fold m; rewrite H.
  - reflexivity.
  - rewrite orb_true_r. reflexivity.
Qed.

(** C6, as amended. For positive finite viewport and page dimensions the
    minimum of the two quotients is never [NaN] and never negative; the
    render scale is that minimum whenever it is a positive finite number,
    which it is for all ordinary dimensions, and exactly [1] when the
    quotients have overflowed to [Infinity] or underflowed to [0]. For
    arbitrary inputs, a minimum that is not finite or not positive gives
    the scale [1]. *)
Theorem fitScale_spec vw vh pdfW pdfH :
  Number.positive_finite vw = true -> Number.positive_finite vh = true ->
  Number.positive_finite pdfW = true -> Number.positive_finite pdfH = true ->
  let m := Number.Math_min (Number.div vw pdfW) (Number.div vh pdfH) in
  Number.nonNegative m = true
  /\ (Number.positive_finite m = true -> fitScale vw vh pdfW pdfH = m)
  /\ (Number.ordinary vw = true -> Number.ordinary vh = true ->
      Number.ordinary pdfW = true -> Number.ordinary pdfH = true ->
      Number.positive_finite m = true /\ fitScale vw vh pdfW pdfH = m)
  /\ (Number.positive_finite m = false ->
      (m = Number.zero \/ m = Number.infinity) /\ fitScale vw vh pdfW pdfH = Number.one)
  /\ (forall a b c d,
        let m' := Number.Math_min (Number.div a c) (Number.div b d) in
        Number.isFinite m' = false \/ Number.le m' Number.zero = true ->
        fitScale a b c d = Number.one).
Proof.
  intros Hvw Hvh HW HH m.
  assert (Hm : Number.nonNegative m = true)
    by (apply Math_min_nonNegative; apply div_positive; assumption).
  split; [exact Hm|]. split; [apply fitScale_positive_finite|].
  split; [|split; [|intros a b c d; apply fitScale_fallback]].
  - intros Ovw Ovh OW OH.
    assert (Hpos : Number.positive_finite m = true)
      by (apply Math_min_positive_finite; apply div_ordinary; assumption).
    split; [exact Hpos|apply fitScale_positive_finite, Hpos].
  - intros Hn. unfold fitScale. fold m.
    destruct m as [[]|[]| |[] mm e]; try discriminate; auto.
Qed.

Lemma fitScale_spec_witness :
  fitScale (Number.of_Z 1920) (Number.of_Z 1080) (Number.of_Z 612) (Number.of_Z 792)
  = S754_finite false 6141272219141585 (-52).
Proof.
  exact (proj2 (proj1 (proj2 (proj2
           (fitScale_spec (Number.of_Z 1920) (Number.of_Z 1080)
              (Number.of_Z 612) (Number.of_Z 792)
              eq_refl eq_refl eq_refl eq_refl)))
           eq_refl eq_refl eq_refl eq_refl)).
Defined.

(** C6, as stated, fails: a 1920 x 1080 viewport and a page whose two
    dimensions are the smallest normal double, 2^-1022. Both quotients
    overflow, their minimum is [Infinity], and the scale is [1]. *)
Lemma fitScale_overflow_counterexample :
  ~ (forall vw vh pdfW pdfH,
       Number.is_double vw = true -> Number.is_double vh = true ->
       Number.is_double pdfW = true -> Number.is_double pdfH = true ->
       Number.positive_finite vw = true -> Number.positive_finite vh = true ->
       Number.positive_finite pdfW = true -> Number.positive_finite pdfH = true ->
       fitScale vw vh pdfW pdfH
       = Number.Math_min (Number.div vw pdfW) (Number.div vh pdfH)).
Proof.
  intros H.
  specialize (H (Number.of_Z 1920) (Number.of_Z 1080)
                (S754_finite false 4503599627370496 (-1074))
                (S754_finite false 4503599627370496 (-1074))
                eq_refl eq_refl eq_refl eq_refl eq_refl eq_refl eq_refl eq_refl).
  vm_compute in H. discriminate H.
Qed.

(** ** The package builder *)

Lemma append_cons c s t : String c s +:+ t = String c (s +:+ t).
Proof. reflexivity. Qed.

Lemma append_nil s : EmptyString +:+ s = s.
Proof. reflexivity. Qed.

Lemma append_assoc s t u : (s +:+ t) +:+ u = s +:+ (t +:+ u).
Proof.
  induction s as [|c s IH]; [reflexivity|].
  rewrite !append_cons, IH. reflexivity.
Qed.

Lemma join_cons sep x y l : JS.join sep (x :: y :: l) = x +:+ sep +:+ JS.join sep (y :: l).
Proof. reflexivity. Qed.

Lemma join_firstn_skipn sep n : forall l,
  skipn n l <> [] ->
  JS.join sep l = JS.joined sep (firstn n l) +:+ JS.join sep (skipn n l).
Proof.
  induction n as [|n IH]; intros l H.
  - reflexivity.
  - destruct l as [|x [|y l]]; try (simpl in H; congruence).
    + destruct n; simpl in H; congruence.
    + rewrite join_cons. change (skipn (S n) (x :: y :: l)) with (skipn n (y :: l)).
      change (firstn (S n) (x :: y :: l)) with (x :: firstn n (y :: l)).
      rewrite (IH (y :: l) H). cbn [JS.joined foldr].
      rewrite !append_assoc. reflexivity.
Qed.

Lemma includes_app_r pre s needle :
  JS.includes s needle = true -> JS.includes (pre +:+ s) needle = true.
Proof.
  intros H. induction pre as [|c pre IH].
  - exact H.
  - rewrite append_cons. cbn [JS.includes]. rewrite IH. apply orb_true_r.
Qed.

(** A title that is a string, or falsy, is accepted. *)
Lemma configTitle_Ok cfg :
  JS.toBoolean (JS.get cfg "title") = false \/ (exists t, JS.get cfg "title" = JS.Str t) ->
  exists t, Server.configTitle cfg = JS.Ok t.
Proof.
  unfold Server.configTitle, JS.or. intros [H|[t H]].
  - rewrite H. eexists; reflexivity.
  - rewrite H. destruct (JS.toBoolean (JS.Str t)); eexists; reflexivity.
Qed.

(** Conversely, [generateConfigJS] returns only for such a title. *)
Lemma generateConfigJS_Ok_title cfg pdfFilename out :
  Server.generateConfigJS cfg pdfFilename = JS.Ok out ->
  JS.toBoolean (JS.get cfg "title") = false \/ (exists t, JS.get cfg "title" = JS.Str t).
Proof.
  unfold Server.generateConfigJS, Server.configTitle, JS.or.
  destruct (JS.toBoolean (JS.get cfg "title")) eqn:E; [|left; reflexivity].
  destruct (JS.get cfg "title"); try discriminate.
  right. eexists; reflexivity.
Qed.

(** The text of [Config.js] ends with the lines of the two flags, printed
    by [Boolean]. *)
Lemma generateConfigJS_flagLines cfg pdfFilename t :
  Server.configTitle cfg = JS.Ok t ->
  exists head,
    Server.generateConfigJS cfg pdfFilename
    = JS.Ok (head +:+ JS.join JS.nl
               (Server.flagLines (JS.toBoolean (JS.get cfg "sidebarDefaultOpen"))
                                 (JS.toBoolean (JS.get cfg "slideSequenceLocked")))).
Proof.
  intros Ht. unfold Server.generateConfigJS. rewrite Ht.
  unfold mbind, result_bind, mret, result_ret. cbn [JS.bind].
  rewrite (join_firstn_skipn JS.nl 29); [|discriminate].
  cbn [firstn skipn]. unfold Server.flagLines.
  eexists. reflexivity.
Qed.

(** C1, as amended. For a configuration whose title is a string (or
    absent), [generateConfigJS] returns a text; when the caller has omitted
    [sidebarDefaultOpen] the text ends with the flag lines in which
    [sidebarDefaultOpen] is [false], and likewise for
    [slideSequenceLocked]: an omitted flag is serialized as [false]. *)
Theorem generateConfigJS_omitted_flags cfg pdfFilename :
  JS.toBoolean (JS.get cfg "title") = false \/ (exists t, JS.get cfg "title" = JS.Str t) ->
  exists out,
    Server.generateConfigJS cfg pdfFilename = JS.Ok out
    /\ (JS.get cfg "sidebarDefaultOpen" = JS.Undefined ->
        (exists head,
           out = head +:+ JS.join JS.nl
                   (Server.flagLines false (JS.toBoolean (JS.get cfg "slideSequenceLocked"))))
        /\ JS.includes out "sidebarDefaultOpen: false," = true)
    /\ (JS.get cfg "slideSequenceLocked" = JS.Undefined ->
        (exists head,
           out = head +:+ JS.join JS.nl
                   (Server.flagLines (JS.toBoolean (JS.get cfg "sidebarDefaultOpen")) false))
        /\ JS.includes out "slideSequenceLocked: false," = true).
Proof.
  intros Htitle. destruct (configTitle_Ok cfg Htitle) as [t Ht].
  destruct (generateConfigJS_flagLines cfg pdfFilename t Ht) as [head Hout].
  eexists. split; [exact Hout|]. split; intros Hflag; rewrite Hflag; cbn [JS.toBoolean].
  - split; [exists head; reflexivity|]. apply includes_app_r.
    destruct (JS.toBoolean (JS.get cfg "slideSequenceLocked")); vm_compute; reflexivity.
  - split; [exists head; reflexivity|]. apply includes_app_r.
    destruct (JS.toBoolean (JS.get cfg "sidebarDefaultOpen")); vm_compute; reflexivity.
Qed.

Lemma generateConfigJS_omitted_flags_witness :
  exists out,
    Server.generateConfigJS (JS.Obj {[ "title" := JS.Str "Intro" ]}) "content.pdf" = JS.Ok out
    /\ JS.includes out "sidebarDefaultOpen: false," = true
    /\ JS.includes out "slideSequenceLocked: false," = true.
Proof.
  assert (Htitle : JS.toBoolean (JS.get (JS.Obj {[ "title" := JS.Str "Intro" ]}) "title") = false
                   \/ (exists t, JS.get (JS.Obj {[ "title" := JS.Str "Intro" ]}) "title" = JS.Str t))
    by (right; exists "Intro"; vm_compute; reflexivity).
  destruct (generateConfigJS_omitted_flags (JS.Obj {[ "title" := JS.Str "Intro" ]})
              "content.pdf" Htitle)
    as (out & Hout & Hsidebar & Hlocked).
  exists out. split; [exact Hout|]. split.
  - apply Hsidebar. vm_compute. reflexivity.
  - apply Hlocked. vm_compute. reflexivity.
Defined.

(** C1, as stated, fails on the empty configuration, for either flag: the
    text holds [sidebarDefaultOpen: false] and [slideSequenceLocked: false],
    and nowhere the value [true]. *)
Lemma generateConfigJS_default_counterexample :
  ~ (forall cfg pdfFilename,
       JS.get cfg "sidebarDefaultOpen" = JS.Undefined ->
       exists out, Server.generateConfigJS cfg pdfFilename = JS.Ok out
                   /\ JS.includes out "sidebarDefaultOpen: true" = true)
  /\ ~ (forall cfg pdfFilename,
       JS.get cfg "slideSequenceLocked" = JS.Undefined ->
       exists out, Server.generateConfigJS cfg pdfFilename = JS.Ok out
                   /\ JS.includes out "slideSequenceLocked: true" = true).
Proof.
  split; intros H;
    (destruct (H (JS.Obj ∅) "content.pdf") as (out & Hout & Hin);
       [vm_compute; reflexivity|]);
    vm_compute in Hout; injection Hout as <-;
    vm_compute in Hin; discriminate Hin.
Qed.

(** Whatever the title, the two [<title>] elements of the manifest hold it
    character for character. *)
Lemma generateManifest_title_verbatim pkgId title launchFile resourceFiles :
  exists pre mid post,
    Server.generateManifest pkgId title launchFile resourceFiles
    = pre +:+ ("      <title>" +:+ title +:+ "</title>")
      +:+ mid +:+ ("        <title>" +:+ title +:+ "</title>") +:+ post.
Proof.
  unfold Server.generateManifest.
  rewrite (join_firstn_skipn JS.nl 13); [|discriminate]. cbn [firstn skipn].
  match goal with
  | |- exists pre mid post, ?a +:+ JS.join _ (_ :: ?y :: _ :: ?l) = _ =>
      exists a, (JS.nl +:+ y +:+ JS.nl), (JS.nl +:+ JS.join JS.nl l)
  end.
  rewrite join_cons, join_cons, join_cons, !append_assoc. reflexivity.
Qed.

(** C8. The manifest of a package titled [R&D <Intro>], as the handler
    receives it in [config.title]: the title reaches [generateManifest]
    unchanged and stands in the descriptor as markup, with a bare ampersand
    and an unclosed [<Intro>] tag; the escaped title of the specification
    is nowhere in it. *)
Theorem generateManifest_title_not_escaped :
  let title := "R&D <Intro>" in
  let files := ["player.html"; "index_lms.html"; "Config.js"; "data/content.pdf"] in
  let manifest := Server.generateManifest "pkg_1" title "index_lms.html" files in
  Server.manifestTitle (JS.Obj {[ "title" := JS.Str title ]}) = title
  /\ JS.includes manifest ("<title>" +:+ title +:+ "</title>") = true
  /\ Spec.escapeMarkup title = "R&amp;D &lt;Intro&gt;"
  /\ JS.includes manifest (Spec.escapeMarkup title) = false
  /\ manifest <> Server.generateManifest "pkg_1" (Spec.escapeMarkup title) "index_lms.html" files.
Proof.
  repeat split; try (vm_compute; reflexivity).
  vm_compute. discriminate.
Qed.

(** After [generateConfigJS] has returned, [manifestTitle] is
    [config?.title || "SCORM Package"]. *)
Lemma manifestTitle_or config pdfFilename out :
  Server.generateConfigJS (JS.or config (JS.Obj ∅)) pdfFilename = JS.Ok out ->
  JS.Str (Server.manifestTitle config)
  = JS.or (JS.get config "title") (JS.Str "SCORM Package").
Proof.
  intros H. apply generateConfigJS_Ok_title in H.
  assert (Hget : JS.get (JS.or config (JS.Obj ∅)) "title" = JS.get config "title").
  { unfold JS.or. destruct (JS.toBoolean config) eqn:E; [reflexivity|].
    destruct config; try discriminate; reflexivity. }
  rewrite Hget in H. unfold Server.manifestTitle, JS.or.
  destruct H as [H|[t H]].
  - rewrite H. destruct (JS.get config "title"); try reflexivity; try discriminate.
    simpl in H. apply negb_false_iff in H. rewrite H. reflexivity.
  - rewrite H. simpl. destruct (String.eqb t EmptyString); reflexivity.
Qed.

(** C7. A package request that carries a [pdfUrl], and whose fetch of the
    PDF is rejected, answers with a status outside 200..299 or breaks while
    the body is read, is answered with status 500 and the text of the
    error (for a status, [Failed fetching PDF: ] and the status); no
    archive is streamed, no archive header is set and no cleanup timer is
    started. *)
Theorem postPackage_fetch_failure h reqBody :
  JS.toBoolean (JS.get reqBody "pdfUrl") = true ->
  match Server.fetch h (JS.get reqBody "pdfUrl") with
  | Server.FetchRejected _ => True
  | Server.FetchResponse status body =>
      Server.ok status = false \/ exists e, body = JS.Throw e
  end ->
  let r := Server.postPackage h reqBody in
  Server.status r = 500
  /\ Server.archiveStreamed r = false
  /\ Server.headers r = []
  /\ Server.cleanupAfterMs r = None
  /\ exists err,
       Server.download (Server.fetch h (JS.get reqBody "pdfUrl")) = JS.Throw err
       /\ Server.body r = Server.Text ("Package generation error: " +:+ JS.messageOr err)
       /\ (forall status body,
             Server.fetch h (JS.get reqBody "pdfUrl") = Server.FetchResponse status body ->
             Server.ok status = false ->
             JS.messageOr err = "Failed fetching PDF: " +:+ pretty status).
Proof.
  intros Hurl Hfetch r. subst r. unfold Server.postPackage.
  destruct reqBody; try discriminate Hurl.
  rewrite Hurl. cbn [negb]. unfold Server.stagePackage.
  assert (Herr : exists err,
             Server.download (Server.fetch h (JS.get (JS.Obj fields) "pdfUrl")) = JS.Throw err
             /\ (forall status body,
                   Server.fetch h (JS.get (JS.Obj fields) "pdfUrl")
                   = Server.FetchResponse status body ->
                   Server.ok status = false ->
                   JS.messageOr err = "Failed fetching PDF: " +:+ pretty status)).
  { destruct (Server.fetch h _) as [e|status body]; simpl.
    - exists e. split; [reflexivity|]. intros ? ? [=].
    - destruct (Server.ok status) eqn:Hok.
      + destruct Hfetch as [[=]|[e ->]]. exists e. split; [reflexivity|].
        intros ? ? [= <- _] Hbad. rewrite Hok in Hbad. discriminate Hbad.
      + eexists. split; [reflexivity|]. intros ? ? [= <- _] _. reflexivity. }
  destruct Herr as (err & Hd & Hmsg). rewrite Hd.
  repeat split. exists err. repeat split. exact Hmsg.
Qed.

Lemma postPackage_fetch_failure_witness :
  let h := {| Server.uuidv4 := "0b9c";
              Server.publicDir := {[ "player.html" := "<html></html>" ]};
              Server.fetch := fun _ => Server.FetchResponse 404 (JS.Ok "Not Found") |} in
  let r := Server.postPackage h (JS.Obj {[ "pdfUrl" := JS.Str "https://example.com/a.pdf" ]}) in
  Server.status r = 500
  /\ Server.archiveStreamed r = false
  /\ Server.body r = Server.Text "Package generation error: Failed fetching PDF: 404".
Proof.
  intros h r.
  assert (Hurl : JS.toBoolean (JS.get (JS.Obj {[ "pdfUrl" := JS.Str "https://example.com/a.pdf" ]})
                                 "pdfUrl") = true) by (vm_compute; reflexivity).
  destruct (postPackage_fetch_failure h _ Hurl (or_introl eq_refl))
    as (Hs & Ha & _ & _ & err & _ & Hb & Hmsg).
  split; [exact Hs|]. split; [exact Ha|].
  fold r in Hb. rewrite Hb, (Hmsg 404 (JS.Ok "Not Found") eq_refl eq_refl). reflexivity.
Defined.

(** ** The player engine *)

Section ViewerFacts.
Import Viewer.

(** [renderPage] leaves the document, the page counter and the bitmap
    alone. *)
Lemma renderPage_frame p s :
  pdfDoc (renderPage p s) = pdfDoc s
  /\ currentPage (renderPage p s) = currentPage s
  /\ totalPages (renderPage p s) = totalPages s
  /\ visitedPages (renderPage p s) = visitedPages s
  /\ scormAPI (renderPage p s) = scormAPI s.
Proof.
  unfold renderPage.
  destruct (negb (loaded s) || isRendering s); [auto|].
  destruct (currPage s =? p); auto.
Qed.

Lemma currentPage_renderPage p s : currentPage (renderPage p s) = currentPage s.
Proof. apply renderPage_frame. Qed.

Lemma totalPages_renderPage p s : totalPages (renderPage p s) = totalPages s.
Proof. apply renderPage_frame. Qed.

Lemma pdfDoc_renderPage p s : pdfDoc (renderPage p s) = pdfDoc s.
Proof. apply renderPage_frame. Qed.

(** A call that passes the two guards. *)
Lemma renderPage_fresh p s :
  loaded s = true -> isRendering s = false -> currPage s <> p ->
  renderPage p s
  = schedule (AwaitPage p)
      (emit (GetPage p) (set_isRendering true (set_currPage p s))).
Proof.
  intros Hdoc Hbusy Hcur. unfold renderPage.
  rewrite Hdoc, Hbusy. apply Z.eqb_neq in Hcur. rewrite Hcur. reflexivity.
Qed.

(** A call that one of the guards stops. *)
Lemma renderPage_suppressed p s :
  loaded s = false \/ isRendering s = true \/ currPage s = p ->
  renderPage p s = s.
Proof.
  unfold renderPage. intros [H|[H|H]].
  - rewrite H. reflexivity.
  - rewrite H, orb_true_r. reflexivity.
  - destruct (negb (loaded s) || isRendering s); [reflexivity|].
    apply Z.eqb_eq in H. rewrite H. reflexivity.
Qed.

Lemma next_unloaded s : pdfDoc s = None -> next s = s.
Proof. intros H. unfold next, loaded. rewrite H. reflexivity. Qed.

Lemma prev_unloaded s : pdfDoc s = None -> prev s = s.
Proof. intros H. unfold prev, loaded. rewrite H. reflexivity. Qed.

(** No document is loaded when the script starts, nor after
    [playerViewer.destroy()]. *)
Lemma unloaded_initial_destroy s : pdfDoc initial = None /\ pdfDoc (destroy s) = None.
Proof. split; reflexivity. Qed.

(** C10. With no document loaded, [renderPage(p)], [next()] and [prev()]
    return the state they were called in: no variable changes, no promise
    is registered and nothing is requested. *)
Theorem no_document_noop s p :
  pdfDoc s = None ->
  renderPage p s = s /\ next s = s /\ prev s = s.
Proof.
  intros H. split; [|split].
  - apply renderPage_suppressed. left. unfold loaded. rewrite H. reflexivity.
  - apply next_unloaded, H.
  - apply prev_unloaded, H.
Qed.

Lemma no_document_noop_witness :
  renderPage 3 initial = initial /\ next initial = initial /\ prev initial = initial.
Proof. apply (no_document_noop initial 3). reflexivity. Defined.

Lemma next_loaded s :
  loaded s = true ->
  next s = if currentPage s <? totalPages s
           then renderPage (currentPage s + 1) (set_currentPage (currentPage s + 1) s)
           else s.
Proof. intros H. unfold next. rewrite H. reflexivity. Qed.

Lemma prev_loaded s :
  loaded s = true ->
  prev s = if 1 <? currentPage s
           then renderPage (currentPage s - 1) (set_currentPage (currentPage s - 1) s)
           else s.
Proof. intros H. unfold prev. rewrite H. reflexivity. Qed.

Lemma next_in_range s :
  loaded s = true -> 1 <= currentPage s <= totalPages s ->
  1 <= currentPage (next s) <= totalPages (next s).
Proof.
  intros Hdoc Hrange. rewrite next_loaded by exact Hdoc.
  destruct (Z.ltb_spec (currentPage s) (totalPages s)); [|exact Hrange].
  rewrite currentPage_renderPage, totalPages_renderPage. simpl. lia.
Qed.

Lemma prev_in_range s :
  loaded s = true -> 1 <= currentPage s <= totalPages s ->
  1 <= currentPage (prev s) <= totalPages (prev s).
Proof.
  intros Hdoc Hrange. rewrite prev_loaded by exact Hdoc.
  destruct (Z.ltb_spec 1 (currentPage s)); [|exact Hrange].
  rewrite currentPage_renderPage, totalPages_renderPage. simpl. lia.
Qed.

(** C5. With a document loaded and [currentPage] within [1, totalPages]:
    [prev()] on page 1 and [next()] on the last page return the state
    unchanged; elsewhere they move [currentPage] by one and call
    [renderPage] on the new page; in every case [currentPage] stays
    within [1, totalPages]. *)
Theorem next_prev_clamp s :
  loaded s = true ->
  1 <= currentPage s <= totalPages s ->
  (currentPage s = 1 -> prev s = s)
  /\ (currentPage s = totalPages s -> next s = s)
  /\ (1 < currentPage s ->
      prev s = renderPage (currentPage s - 1) (set_currentPage (currentPage s - 1) s)
      /\ currentPage (prev s) = currentPage s - 1)
  /\ (currentPage s < totalPages s ->
      next s = renderPage (currentPage s + 1) (set_currentPage (currentPage s + 1) s)
      /\ currentPage (next s) = currentPage s + 1)
  /\ 1 <= currentPage (prev s) <= totalPages (prev s)
  /\ 1 <= currentPage (next s) <= totalPages (next s).
Proof.
  intros Hdoc Hrange.
  split; [|split; [|split; [|split; [|split]]]].
  - intros H. rewrite prev_loaded by exact Hdoc.
    destruct (Z.ltb_spec 1 (currentPage s)); [lia|reflexivity].
  - intros H. rewrite next_loaded by exact Hdoc.
    destruct (Z.ltb_spec (currentPage s) (totalPages s)); [lia|reflexivity].
  - intros H. rewrite prev_loaded by exact Hdoc.
    destruct (Z.ltb_spec 1 (currentPage s)); [|lia].
    split; [reflexivity|apply currentPage_renderPage].
  - intros H. rewrite next_loaded by exact Hdoc.
    destruct (Z.ltb_spec (currentPage s) (totalPages s)); [|lia].
    split; [reflexivity|apply currentPage_renderPage].
  - apply prev_in_range; assumption.
  - apply next_in_range; assumption.
Qed.

Lemma next_prev_clamp_witness :
  let s := set_totalPages 5 (set_currentPage 5 (set_pdfDoc (Some {| numPages := 5 |}) initial)) in
  next s = s /\ currentPage (prev s) = 4.
Proof.
  intros s.
  destruct (next_prev_clamp s eq_refl ltac:(simpl; lia))
    as (_ & Hnext & Hprev & _).
  split; [apply Hnext; reflexivity|apply Hprev; simpl; lia].
Defined.

(** *** The progress string *)

Lemma append_empty_r s : s +:+ EmptyString = s.
Proof.
  induction s as [|c s IH]; [reflexivity|].
  rewrite append_cons, IH. reflexivity.
Qed.

Lemma join_empty_cons x l :
  JS.join EmptyString (x :: l) = x +:+ JS.join EmptyString l.
Proof.
  destruct l as [|y l].
  - symmetry. apply append_empty_r.
  - reflexivity.
Qed.

Lemma encodeVisited_cons (v : bool) a :
  encodeVisited (Some v :: a)
  = String (if v then "1" else "0")%char (encodeVisited a).
Proof.
  unfold encodeVisited. rewrite map_cons, join_empty_cons.
  destruct v; reflexivity.
Qed.

Lemma encodeVisited_length (b : list bool) :
  String.length (encodeVisited (Some <$> b)) = length b.
Proof.
  induction b as [|v b IH]; [reflexivity|].
  rewrite fmap_cons, encodeVisited_cons. simpl. rewrite IH. reflexivity.
Qed.

Lemma encodeVisited_chars (b : list bool) :
  map (fun c => Some (Ascii.eqb c "1"%char)) (list_ascii_of_string (encodeVisited (Some <$> b)))
  = Some <$> b.
Proof.
  induction b as [|v b IH]; [reflexivity|].
  rewrite fmap_cons, encodeVisited_cons. cbn [list_ascii_of_string map].
  rewrite IH. destruct v; reflexivity.
Qed.

(** C3. Encoding a bitmap of booleans and decoding the string with the
    length of the bitmap as page count gives the bitmap back. *)
Theorem decode_encode (b : list bool) :
  decodeVisited (encodeVisited (Some <$> b)) (length b) = Some <$> b.
Proof.
  unfold decodeVisited.
  rewrite encodeVisited_length, Nat.eqb_refl, encodeVisited_chars.
  destruct b as [|v b]; [reflexivity|].
  rewrite fmap_cons, encodeVisited_cons. reflexivity.
Qed.

Lemma visitedPages_renderPage p s : visitedPages (renderPage p s) = visitedPages s.
Proof. apply renderPage_frame. Qed.

(** The bitmap a session starts from is the decoded suspend data. *)
Lemma documentResolved_visitedPages pdf s :
  visitedPages (documentResolved pdf s)
  = decodeVisited (getSCORMValue "cmi.suspend_data" "cmi.suspend_data" s) (numPages pdf).
Proof.
  unfold documentResolved. rewrite visitedPages_renderPage.
  destruct (parseInt _) as [l|]; [|reflexivity].
  match goal with |- context [if ?c then _ else _] => destruct c end; reflexivity.
Qed.

(** C4. A persisted string whose length is not the page count decodes to
    the all-false bitmap of that many pages, and so does the suspend data
    a session reads when the document has loaded; nothing is raised. *)
Theorem decode_length_mismatch suspend n :
  String.length suspend <> n ->
  decodeVisited suspend n = replicate n (Some false)
  /\ length (decodeVisited suspend n) = n
  /\ (forall pdf s,
        numPages pdf = n ->
        getSCORMValue "cmi.suspend_data" "cmi.suspend_data" s = suspend ->
        visitedPages (documentResolved pdf s) = replicate n (Some false)).
Proof.
  intros H.
  assert (Hd : decodeVisited suspend n = replicate n (Some false)).
  { unfold decodeVisited. apply Nat.eqb_neq in H. rewrite H, andb_false_r. reflexivity. }
  split; [exact Hd|]. split.
  - rewrite Hd. apply length_replicate.
  - intros pdf s Hn Hs. rewrite documentResolved_visitedPages, Hs, Hn. exact Hd.
Qed.

Lemma decode_length_mismatch_witness :
  decodeVisited "1101" 5 = [Some false; Some false; Some false; Some false; Some false]
  /\ decodeVisited EmptyString 2 = [Some false; Some false].
Proof.
  split.
  - apply (decode_length_mismatch "1101" 5). simpl. lia.
  - apply (decode_length_mismatch EmptyString 2). simpl. lia.
Defined.

(** *** One render at a time *)

Lemma count_emit f e s :
  count f (emit e s) = (count f s + if f e then 1 else 0)%nat.
Proof.
  unfold count, emit. simpl. rewrite List.filter_app, List.length_app.
  simpl. destruct (f e); reflexivity.
Qed.

Lemma count_settle f id s : count f (settle id s) = count f s.
Proof. reflexivity. Qed.

Lemma count_schedule f j s : count f (schedule j s) = count f s.
Proof. reflexivity. Qed.

Lemma setSCORMValue_frame a b v s :
  effects (setSCORMValue a b v s) = effects s
  /\ currPage (setSCORMValue a b v s) = currPage s
  /\ pdfDoc (setSCORMValue a b v s) = pdfDoc s
  /\ inflight (setSCORMValue a b v s) = inflight s
  /\ isRendering (setSCORMValue a b v s) = isRendering s.
Proof. unfold setSCORMValue. destruct (scormAPI s); simpl; auto. Qed.

Lemma commitSCORM_frame s :
  effects (commitSCORM s) = effects s
  /\ currPage (commitSCORM s) = currPage s
  /\ pdfDoc (commitSCORM s) = pdfDoc s
  /\ inflight (commitSCORM s) = inflight s
  /\ isRendering (commitSCORM s) = isRendering s.
Proof. unfold commitSCORM. destruct (scormAPI s); simpl; auto. Qed.

Lemma renderResolved_frame p s :
  effects (renderResolved p s) = effects s
  /\ currPage (renderResolved p s) = currPage s
  /\ pdfDoc (renderResolved p s) = pdfDoc s
  /\ inflight (renderResolved p s) = inflight s
  /\ isRendering (renderResolved p s) = false.
Proof.
  unfold renderResolved.
  repeat match goal with
         | |- context [commitSCORM ?t] =>
             destruct (commitSCORM_frame t) as (-> & -> & -> & -> & ->)
         | |- context [setSCORMValue ?a ?b ?v ?t] =>
             destruct (setSCORMValue_frame a b v t) as (-> & -> & -> & -> & ->)
         end.
  destruct (negb (truthy (arrayGet (visitedPages (set_isRendering false s)) (p - 1))));
    simpl; auto.
Qed.

Lemma pageResolved_count f p page win s :
  count f (pageResolved p page win s)
  = (count f s
     + (if f (ResizeCanvas
                (width (getViewport page
                   (fitScale (numberOr (innerWidth win) (clientWidth win))
                             (numberOr (innerHeight win) (clientHeight win))
                             (width (getViewport page Number.one))
                             (height (getViewport page Number.one)))))
                (height (getViewport page
                   (fitScale (numberOr (innerWidth win) (clientWidth win))
                             (numberOr (innerHeight win) (clientHeight win))
                             (width (getViewport page Number.one))
                             (height (getViewport page Number.one))))))
        then 1 else 0)
     + (if f ClearRect then 1 else 0)
     + (if f (Raster p
                (fitScale (numberOr (innerWidth win) (clientWidth win))
                          (numberOr (innerHeight win) (clientHeight win))
                          (width (getViewport page Number.one))
                          (height (getViewport page Number.one))))
        then 1 else 0))%nat.
Proof.
  unfold pageResolved.
  change (count f (schedule ?j ?t)) with (count f t).
  rewrite !count_emit. reflexivity.
Qed.

(** The settlement of a render promise leaves [currPage] and the
    document alone and asks for no page. *)
Lemma settlement_frame ev s s' :
  isSettlement ev = true -> deliver ev s = Some s' ->
  currPage s' = currPage s /\ pdfDoc s' = pdfDoc s
  /\ count isPageFetch s' = count isPageFetch s.
Proof.
  destruct ev; try discriminate; intros _; simpl;
    destruct (inflight s !! id) as [[]|]; try discriminate;
    intros [= <-].
  - split; [reflexivity|]. split; [reflexivity|].
    rewrite pageResolved_count, count_settle. simpl. lia.
  - auto.
  - destruct (renderResolved_frame pageNumber (settle id s)) as (He & Hc & Hd & _).
    unfold count. rewrite He, Hc, Hd. auto.
  - auto.
Qed.

Lemma settlements_frame evs : forall s s',
  forallb isSettlement evs = true -> run evs s = Some s' ->
  currPage s' = currPage s /\ pdfDoc s' = pdfDoc s
  /\ count isPageFetch s' = count isPageFetch s.
Proof.
  induction evs as [|ev evs IH]; intros s s' Hall Hrun.
  - injection Hrun as <-. auto.
  - simpl in Hall. apply andb_true_iff in Hall as [Hev Hall].
    simpl in Hrun. destruct (deliver ev s) as [s1|] eqn:E; [|discriminate].
    simpl in Hrun.
    destruct (settlement_frame ev s s1 Hev E) as (H1 & H2 & H3).
    destruct (IH s1 s' Hall Hrun) as (H4 & H5 & H6).
    rewrite H4, H5, H6. auto.
Qed.

Lemma renderFailed_settle id s :
  inflight (renderFailed (settle id s)) = delete id (inflight s)
  /\ isRendering (renderFailed (settle id s)) = false
  /\ (forall f, count f (renderFailed (settle id s)) = count f s).
Proof. repeat split. Qed.

Lemma renderResolved_settle p id s :
  inflight (renderResolved p (settle id s)) = delete id (inflight s)
  /\ isRendering (renderResolved p (settle id s)) = false
  /\ (forall f, count f (renderResolved p (settle id s)) = count f s).
Proof.
  destruct (renderResolved_frame p (settle id s)) as (He & _ & _ & Hi & Hb).
  unfold count. rewrite He, Hi, Hb. repeat split.
Qed.

Lemma pageResolved_settle p page win id s :
  inflight (pageResolved p page win (settle id s))
  = <[nextJob s := AwaitRender p]> (delete id (inflight s))
  /\ isRendering (pageResolved p page win (settle id s)) = isRendering s
  /\ count isResize (pageResolved p page win (settle id s)) = S (count isResize s)
  /\ count isRaster (pageResolved p page win (settle id s)) = S (count isRaster s).
Proof.
  rewrite !pageResolved_count, !count_settle. repeat split; simpl; lia.
Qed.

Lemma effects_pageResolved p page win s :
  effects (pageResolved p page win s) = effects s ++ renderWork p page win.
Proof.
  unfold pageResolved, renderWork. cbn. rewrite <- !app_assoc. reflexivity.
Qed.

Lemma effects_renderResolved p s : effects (renderResolved p s) = effects s.
Proof. apply renderResolved_frame. Qed.

(** One settlement in the course of the render. *)
Lemma renderCourse_deliver p base a ev s s' :
  renderCourse p base a s -> isSettlement ev = true -> deliver ev s = Some s' ->
  renderCourse p base (a || isPageResolved ev) s'.
Proof.
  intros Hc Hev Hd. destruct a; cbn [renderCourse orb] in *.
  - destruct Hc as (page & win & He & [(id0 & Hin & Hbusy)|(Hin & _)]);
      destruct ev; try discriminate Hev; cbn [deliver] in Hd; rewrite Hin in Hd;
      try (rewrite lookup_empty in Hd; discriminate Hd);
      destruct ({[id0 := _]} !! id) as [j|] eqn:E; try discriminate Hd;
      apply lookup_singleton_Some in E as [<- <-]; try discriminate Hd;
      injection Hd as <-; exists page, win.
    + destruct (renderResolved_settle p id0 s) as (Hi & Hb & _).
      rewrite effects_renderResolved. split; [exact He|]. right.
      rewrite Hi, Hb, Hin, delete_singleton_eq. auto.
    + split; [exact He|]. right.
      destruct (renderFailed_settle id0 s) as (Hi & Hb & _).
      rewrite Hi, Hb, Hin, delete_singleton_eq. auto.
  - destruct Hc as (He & [(id0 & Hin & Hbusy)|(Hin & _)]);
      destruct ev; try discriminate Hev; cbn [deliver] in Hd; rewrite Hin in Hd;
      try (rewrite lookup_empty in Hd; discriminate Hd);
      destruct ({[id0 := _]} !! id) as [j|] eqn:E; try discriminate Hd;
      apply lookup_singleton_Some in E as [<- <-]; try discriminate Hd;
      injection Hd as <-; cbn [isPageResolved renderCourse].
    + exists page, win. rewrite effects_pageResolved.
      split; [cbn [effects settle set_inflight]; rewrite He; reflexivity|]. left.
      exists (nextJob s).
      destruct (pageResolved_settle p page win id0 s) as (Hi & Hb & _).
      rewrite Hi, Hb, Hin, delete_singleton_eq, insert_empty. auto.
    + split; [exact He|]. right.
      destruct (renderFailed_settle id0 s) as (Hi & Hb & _).
      rewrite Hi, Hb, Hin, delete_singleton_eq. auto.
Qed.

Lemma renderCourse_run p base evs : forall a s s',
  renderCourse p base a s -> forallb isSettlement evs = true -> run evs s = Some s' ->
  renderCourse p base (a || pageArrived evs) s'.
Proof.
  induction evs as [|ev evs IH]; intros a s s' Hc Hall Hrun.
  - injection Hrun as <-. cbn. rewrite orb_false_r. exact Hc.
  - cbn [forallb] in Hall. apply andb_true_iff in Hall as [Hev Hall].
    cbn [run] in Hrun. destruct (deliver ev s) as [s1|] eqn:E; [|discriminate].
    cbn [mbind option_bind] in Hrun.
    pose proof (IH _ s1 s' (renderCourse_deliver p base a ev s s1 Hc Hev E) Hall Hrun) as H.
    unfold pageArrived. cbn [existsb]. rewrite orb_assoc. exact H.
Qed.

(** The work counted in a list of requests. *)
Lemma count_effects f s s' l :
  effects s' = effects s ++ l ->
  count f s' = (count f s + length (List.filter f l))%nat.
Proof.
  intros H. unfold count. rewrite H, List.filter_app, List.length_app. reflexivity.
Qed.

Lemma renderPage_fresh_count f p s :
  loaded s = true -> isRendering s = false -> currPage s <> p ->
  count f (renderPage p s) = (count f s + if f (GetPage p) then 1 else 0)%nat.
Proof.
  intros. rewrite renderPage_fresh, count_schedule, count_emit by assumption.
  reflexivity.
Qed.

Lemma renderPage_count_le f p s : (count f (renderPage p s) <= S (count f s))%nat.
Proof.
  unfold renderPage.
  destruct (negb (loaded s) || isRendering s); [lia|].
  destruct (currPage s =? p); [lia|].
  rewrite count_schedule, count_emit.
  change (count f (set_isRendering true (set_currPage p s))) with (count f s).
  destruct (f (GetPage p)); lia.
Qed.

(** Calling twice with nothing in between is calling once. *)
Lemma renderPage_idempotent p s : renderPage p (renderPage p s) = renderPage p s.
Proof.
  destruct (loaded s) eqn:Hdoc; [|apply renderPage_suppressed; left;
    rewrite renderPage_suppressed by (left; exact Hdoc); exact Hdoc].
  destruct (isRendering s) eqn:Hbusy; [apply renderPage_suppressed; right; left;
    rewrite renderPage_suppressed by (right; left; exact Hbusy); exact Hbusy|].
  destruct (Z.eq_dec (currPage s) p) as [Hcur|Hcur].
  - rewrite (renderPage_suppressed p s) by (right; right; exact Hcur).
    apply renderPage_suppressed. right; right; exact Hcur.
  - apply renderPage_suppressed. right; left.
    rewrite renderPage_fresh by assumption. reflexivity.
Qed.

(** C2, as amended. Two calls of [renderPage(p)] with nothing in between
    leave the state of the first call. When a guard stops the first call
    (no document, a render in flight, or [p] the page last requested),
    neither call changes the state and no work is done. When the first
    call passes the guards and only settlements of render promises come
    between and after the two calls, the second call returns at once,
    with [currPage] equal to [p], and the page is fetched exactly once;
    when moreover no other promise was pending at the first call, the
    requests made are exactly that fetch followed, if the page has
    arrived, by the work on it (one canvas resize, one clear, one raster
    of page [p] at the fitted scale), and they are that fetch alone, with
    no resize and no raster, if the page has not arrived or its fetch has
    failed. *)
Theorem renderPage_twice p s :
  renderPage p (renderPage p s) = renderPage p s
  /\ (loaded s = false \/ isRendering s = true \/ currPage s = p ->
      renderPage p (renderPage p s) = s)
  /\ (forall evs evs' s2 s3,
        loaded s = true -> isRendering s = false -> currPage s <> p ->
        forallb isSettlement evs = true ->
        run evs (renderPage p s) = Some s2 ->
        forallb isSettlement evs' = true ->
        run evs' (renderPage p s2) = Some s3 ->
        renderPage p s2 = s2
        /\ currPage s2 = p
        /\ count isPageFetch s3 = S (count isPageFetch s)
        /\ (inflight s = ∅ ->
            (pageArrived (evs ++ evs') = true ->
             (exists page win,
                effects s3 = effects s ++ GetPage p :: renderWork p page win)
             /\ count isResize s3 = S (count isResize s)
             /\ count isRaster s3 = S (count isRaster s))
            /\ (pageArrived (evs ++ evs') = false ->
                effects s3 = effects s ++ [GetPage p]
                /\ count isResize s3 = count isResize s
                /\ count isRaster s3 = count isRaster s))).
Proof.
  split; [apply renderPage_idempotent|]. split.
  - intros H. rewrite !(renderPage_suppressed p s H). reflexivity.
  - intros evs evs' s2 s3 Hdoc Hbusy Hcur Hall Hrun Hall' Hrun'.
    destruct (settlements_frame evs _ s2 Hall Hrun) as (Hc & _ & Hf).
    rewrite renderPage_fresh_count in Hf by assumption.
    rewrite renderPage_fresh in Hc by assumption.
    change (currPage s2 = p) in Hc. cbn [isPageFetch] in Hf.
    assert (Hnoop : renderPage p s2 = s2)
      by (apply renderPage_suppressed; right; right; exact Hc).
    rewrite Hnoop in Hrun'.
    destruct (settlements_frame evs' _ s3 Hall' Hrun') as (_ & _ & Hf').
    split; [exact Hnoop|]. split; [exact Hc|]. split; [lia|].
    intros Hempty.
    assert (Hone : renderCourse p (effects s ++ [GetPage p]) false (renderPage p s)).
    { rewrite renderPage_fresh by assumption. split; [reflexivity|]. left.
      exists (nextJob s).
      change (inflight (schedule ?j ?t)) with (<[nextJob s := j]> (inflight s)).
      rewrite Hempty, insert_empty. auto. }
    pose proof (renderCourse_run _ _ evs _ _ s2 Hone Hall Hrun) as Hone2.
    pose proof (renderCourse_run _ _ evs' _ _ s3 Hone2 Hall' Hrun') as Hone3.
    cbn [orb] in Hone3.
    assert (Harr : pageArrived (evs ++ evs') = pageArrived evs || pageArrived evs')
      by apply existsb_app.
    rewrite <- Harr in Hone3. split; intros Ha; rewrite Ha in Hone3.
    + destruct Hone3 as (page & win & He & _).
      rewrite <- app_assoc in He. cbn [app] in He.
      split; [exists page, win; exact He|].
      rewrite !(count_effects _ s s3 _ He). cbn. split; lia.
    + destruct Hone3 as (He & _).
      split; [exact He|].
      rewrite !(count_effects _ s s3 _ He). cbn. split; lia.
Qed.

Lemma deliver_PageResolved id page win p s :
  inflight s !! id = Some (AwaitPage p) ->
  deliver (PageResolved id page win) s = Some (pageResolved p page win (settle id s)).
Proof. intros H. unfold deliver. rewrite H. reflexivity. Qed.

Lemma deliver_PageRejected id p s :
  inflight s !! id = Some (AwaitPage p) ->
  deliver (PageRejected id) s = Some (renderFailed (settle id s)).
Proof. intros H. unfold deliver. rewrite H. reflexivity. Qed.

Lemma deliver_RenderResolved id p s :
  inflight s !! id = Some (AwaitRender p) ->
  deliver (RenderResolved id) s = Some (renderResolved p (settle id s)).
Proof. intros H. unfold deliver. rewrite H. reflexivity. Qed.

Lemma deliver_RenderRejected id p s :
  inflight s !! id = Some (AwaitRender p) ->
  deliver (RenderRejected id) s = Some (renderFailed (settle id s)).
Proof. intros H. unfold deliver. rewrite H. reflexivity. Qed.

(** C9. A render of page [p] that passes the guards and fails, while the
    page is fetched or while it is rastered, leaves [isRendering] false,
    [currPage] equal to [p] and the bitmap as it was; [renderPage(p)]
    called next returns at once. *)
Theorem render_failure_blocks_retry p s page win :
  loaded s = true -> isRendering s = false -> currPage s <> p ->
  let id := nextJob s in
  (exists s2,
     deliver (PageRejected id) (renderPage p s) = Some s2
     /\ isRendering s2 = false /\ currPage s2 = p
     /\ visitedPages s2 = visitedPages s
     /\ renderPage p s2 = s2)
  /\ (exists s2,
        run [PageResolved id page win; RenderRejected (S id)] (renderPage p s) = Some s2
        /\ isRendering s2 = false /\ currPage s2 = p
        /\ visitedPages s2 = visitedPages s
        /\ renderPage p s2 = s2).
Proof.
  intros Hdoc Hbusy Hcur id.
  pose proof (renderPage_fresh p s Hdoc Hbusy Hcur) as Hr.
  assert (Hl : inflight (renderPage p s) !! id = Some (AwaitPage p))
    by (rewrite Hr; apply lookup_insert_eq).
  split.
  - exists (renderFailed (settle id (renderPage p s))). split.
    + apply (deliver_PageRejected id p), Hl.
    + rewrite Hr. repeat split.
      apply renderPage_suppressed. right; right; reflexivity.
  - set (s1 := pageResolved p page win (settle id (renderPage p s))).
    assert (Hl1 : inflight s1 !! S id = Some (AwaitRender p))
      by (subst s1; rewrite Hr; apply lookup_insert_eq).
    exists (renderFailed (settle (S id) s1)). split.
    + cbn [run]. rewrite (deliver_PageResolved id page win p _ Hl). fold s1.
      cbn [mbind option_bind]. rewrite (deliver_RenderRejected (S id) p _ Hl1).
      reflexivity.
    + subst s1. rewrite Hr. repeat split.
      apply renderPage_suppressed. right; right; reflexivity.
Qed.

Lemma renderPage_twice_witness :
  let page := {| getViewport := fun scale =>
                   {| width := SFmul Number.prec Number.emax (Number.of_Z 612) scale;
                      height := SFmul Number.prec Number.emax (Number.of_Z 792) scale |} |} in
  let win := {| innerWidth := Number.of_Z 1920; innerHeight := Number.of_Z 1080;
                clientWidth := Number.of_Z 1920; clientHeight := Number.of_Z 1080 |} in
  let s := set_totalPages 5 (set_pdfDoc (Some {| numPages := 5 |}) initial) in
  let s2 := pageResolved 2 page win (settle 0 (renderPage 2 s)) in
  let s3 := renderResolved 2 (settle 1 s2) in
  run [PageResolved 0 page win] (renderPage 2 s) = Some s2
  /\ renderPage 2 s2 = s2
  /\ run [RenderResolved 1] (renderPage 2 s2) = Some s3
  /\ count isPageFetch s3 = 1%nat
  /\ count isResize s3 = 1%nat
  /\ count isRaster s3 = 1%nat.
Proof.
  intros page win s s2 s3.
  assert (Hrun : run [PageResolved 0 page win] (renderPage 2 s) = Some s2)
    by (vm_compute; reflexivity).
  assert (Hrun' : run [RenderResolved 1] (renderPage 2 s2) = Some s3)
    by (vm_compute; reflexivity).
  destruct (renderPage_twice 2 s) as (_ & _ & H).
  destruct (H [PageResolved 0 page win] [RenderResolved 1] s2 s3
              eq_refl eq_refl ltac:(simpl; lia) eq_refl Hrun eq_refl Hrun')
    as (Hnoop & _ & Hfetch & Hwork).
  destruct (Hwork eq_refl) as ((_ & Hresize & Hraster) & _); [reflexivity|].
  exact (conj Hrun (conj Hnoop (conj Hrun' (conj Hfetch (conj Hresize Hraster))))).
Defined.

(** C2, as stated, fails in two ways. With a document loaded, nothing in
    flight and [p] the page last requested, the two calls fetch nothing;
    and when the first call renders and the fetch of the page is
    rejected, the render has settled without any raster. *)
Lemma renderPage_twice_counterexample :
  ~ (forall p s,
       loaded s = true -> isRendering s = false ->
       count isPageFetch (renderPage p (renderPage p s)) = S (count isPageFetch s))
  /\ ~ (forall p s evs s3,
          loaded s = true -> isRendering s = false -> currPage s <> p ->
          inflight s = ∅ ->
          forallb isSettlement evs = true ->
          run evs (renderPage p (renderPage p s)) = Some s3 ->
          inflight s3 = ∅ ->
          count isRaster s3 = S (count isRaster s)).
Proof.
  split; intros H.
  - pose (s := set_currPage 2 (set_totalPages 5 (set_pdfDoc (Some {| numPages := 5 |}) initial))).
    pose proof (H 2 s eq_refl eq_refl) as Hc. vm_compute in Hc. discriminate Hc.
  - pose (s := set_totalPages 5 (set_pdfDoc (Some {| numPages := 5 |}) initial)).
    assert (Hcur : currPage s <> 2) by (simpl; lia).
    assert (Hin : inflight s = ∅) by reflexivity.
    assert (Hrun : run [PageRejected 0] (renderPage 2 (renderPage 2 s))
                   = Some (renderFailed (settle 0 (renderPage 2 s))))
      by (vm_compute; reflexivity).
    assert (Hout : inflight (renderFailed (settle 0 (renderPage 2 s))) = ∅)
      by (vm_compute; reflexivity).
    pose proof (H 2 s [PageRejected 0] _ eq_refl eq_refl Hcur Hin eq_refl Hrun Hout) as Hc.
    vm_compute in Hc. discriminate Hc.
Qed.

Lemma render_failure_blocks_retry_witness :
  let s := set_totalPages 5 (set_pdfDoc (Some {| numPages := 5 |}) initial) in
  exists s2,
    deliver (PageRejected 0) (renderPage 2 s) = Some s2
    /\ isRendering s2 = false /\ currPage s2 = 2
    /\ renderPage 2 s2 = s2.
Proof.
  intros s.
  destruct (render_failure_blocks_retry 2 s
              {| getViewport := fun _ => {| width := Number.one; height := Number.one |} |}
              {| innerWidth := Number.one; innerHeight := Number.one;
                 clientWidth := Number.one; clientHeight := Number.one |}
              eq_refl eq_refl ltac:(simpl; lia))
    as ((s2 & Hd & Hb & Hc & _ & Hn) & _).
  exists s2. exact (conj Hd (conj Hb (conj Hc Hn))).
Defined.

(** *** [currentPage] in every state the engine can reach *)

Lemma setSCORMValue_session a b v s :
  pdfDoc (setSCORMValue a b v s) = pdfDoc s
  /\ currentPage (setSCORMValue a b v s) = currentPage s
  /\ totalPages (setSCORMValue a b v s) = totalPages s.
Proof. unfold setSCORMValue. destruct (scormAPI s); auto. Qed.

Lemma commitSCORM_session s :
  pdfDoc (commitSCORM s) = pdfDoc s
  /\ currentPage (commitSCORM s) = currentPage s
  /\ totalPages (commitSCORM s) = totalPages s.
Proof. unfold commitSCORM. destruct (scormAPI s); auto. Qed.

Lemma renderResolved_session p s :
  pdfDoc (renderResolved p s) = pdfDoc s
  /\ currentPage (renderResolved p s) = currentPage s
  /\ totalPages (renderResolved p s) = totalPages s.
Proof.
  unfold renderResolved.
  repeat match goal with
         | |- context [commitSCORM ?t] =>
             destruct (commitSCORM_session t) as (-> & -> & ->)
         | |- context [setSCORMValue ?a ?b ?v ?t] =>
             destruct (setSCORMValue_session a b v t) as (-> & -> & ->)
         end.
  destruct (negb (truthy (arrayGet (visitedPages (set_isRendering false s)) (p - 1))));
    auto.
Qed.

Lemma startViewerWithPdf_session pdfUrl found s :
  (pdfDoc (startViewerWithPdf pdfUrl found s) = pdfDoc s
   /\ currentPage (startViewerWithPdf pdfUrl found s) = currentPage s
   /\ totalPages (startViewerWithPdf pdfUrl found s) = totalPages s)
  \/ pdfDoc (startViewerWithPdf pdfUrl found s) = None.
Proof.
  unfold startViewerWithPdf.
  destruct pdfUrl as [url|]; [|left; auto].
  destruct (String.eqb url EmptyString); [left; auto|].
  right. unfold initSCORM. destruct found as [[v api]|]; reflexivity.
Qed.

Lemma documentResolved_session pdf s :
  (1 <= numPages pdf)%nat ->
  pdfDoc (documentResolved pdf s) = Some pdf
  /\ totalPages (documentResolved pdf s) = Z.of_nat (numPages pdf)
  /\ 1 <= currentPage (documentResolved pdf s) <= Z.of_nat (numPages pdf).
Proof.
  intros Hn. unfold documentResolved.
  rewrite pdfDoc_renderPage, totalPages_renderPage, currentPage_renderPage.
  destruct (parseInt _) as [l|].
  - match goal with |- context [if ?c then _ else _] => destruct c eqn:E end.
    + apply andb_true_iff in E as [E1%Z.leb_le E2%Z.leb_le].
      cbn in E2 |- *. repeat split; lia.
    + cbn. repeat split; lia.
  - cbn. repeat split; lia.
Qed.

Lemma deliver_currentPage_in_range ev s s' :
  documentHasPages ev ->
  (loaded s = true -> 1 <= currentPage s <= totalPages s) ->
  deliver ev s = Some s' ->
  loaded s' = true -> 1 <= currentPage s' <= totalPages s'.
Proof.
  intros Hwf Hinv Hd. unfold loaded in *.
  destruct ev; unfold deliver in Hd;
    try (destruct (inflight s !! id) as [[]|]; try discriminate Hd);
    injection Hd as <-.
  - destruct (startViewerWithPdf_session pdfUrl found s) as [(-> & -> & ->) | ->];
      [exact Hinv|discriminate].
  - destruct (documentResolved_session pdf (settle id s) Hwf) as (_ & -> & H).
    intros _. exact H.
  - exact Hinv.
  - exact Hinv.
  - exact Hinv.
  - destruct (renderResolved_session pageNumber (settle id s)) as (-> & -> & ->).
    exact Hinv.
  - exact Hinv.
  - destruct (pdfDoc s) eqn:E.
    + intros _. apply next_in_range; [unfold loaded; rewrite E; reflexivity|].
      apply Hinv. reflexivity.
    + rewrite (next_unloaded s E), E. discriminate.
  - destruct (pdfDoc s) eqn:E.
    + intros _. apply prev_in_range; [unfold loaded; rewrite E; reflexivity|].
      apply Hinv. reflexivity.
    + rewrite (prev_unloaded s E), E. discriminate.
  - discriminate.
  - unfold resize.
    destruct (loaded s && negb (currentPage s =? 0)); [|exact Hinv].
    rewrite pdfDoc_renderPage, totalPages_renderPage, currentPage_renderPage.
    exact Hinv.
  - unfold terminateSCORM. destruct (scormAPI s); exact Hinv.
Qed.

(** Whatever the host does, as long as a document has a page, a loaded
    document comes with [currentPage] within [1, totalPages]. *)
Lemma run_currentPage_in_range evs : forall s s',
  Forall documentHasPages evs ->
  (loaded s = true -> 1 <= currentPage s <= totalPages s) ->
  run evs s = Some s' ->
  loaded s' = true -> 1 <= currentPage s' <= totalPages s'.
Proof.
  induction evs as [|ev evs IH]; intros s s' Hwf Hinv Hrun.
  - injection Hrun as <-. exact Hinv.
  - apply Forall_cons in Hwf as [Hev Hwf].
    simpl in Hrun. destruct (deliver ev s) as [s1|] eqn:E; [|discriminate].
    exact (IH s1 s' Hwf (deliver_currentPage_in_range ev s s1 Hev Hinv E) Hrun).
Qed.

Lemma reachable_currentPage_in_range evs s :
  Forall documentHasPages evs ->
  run evs initial = Some s ->
  loaded s = true -> 1 <= currentPage s <= totalPages s.
Proof.
  intros Hwf. apply (run_currentPage_in_range evs initial s Hwf). discriminate.
Qed.

End ViewerFacts.

(** * Further properties *)

(** ** More on the viewport fit *)

Lemma fitScale_usable wrapperW wrapperH pdfW pdfH :
  Number.positive_finite (fitScale wrapperW wrapperH pdfW pdfH) = true.
Proof.
  unfold fitScale.
  destruct (Number.Math_min _ _) as [[]|[]| |[] m e]; reflexivity.
Qed.

(** X1. Whatever the four numbers are (zeros, negative numbers,
    infinities and NaN included), the scale [renderPage] hands to
    [page.getViewport] is a finite number greater than zero: it is the
    smaller of the two quotients, or 1. *)
Theorem fitScale_always_usable wrapperW wrapperH pdfW pdfH :
  Number.positive_finite (fitScale wrapperW wrapperH pdfW pdfH) = true
  /\ (fitScale wrapperW wrapperH pdfW pdfH
      = Number.Math_min (Number.div wrapperW pdfW) (Number.div wrapperH pdfH)
      \/ fitScale wrapperW wrapperH pdfW pdfH = Number.one).
Proof.
  split; [apply fitScale_usable|]. unfold fitScale.
  destruct (negb _ || _); auto.
Qed.

Section ViewerProgress.
Import Viewer Session.

(** *** Page numbers as the LMS stores them *)

Lemma digit_pretty_N_char d :
  (d < 10)%N -> digit (pretty_N_char d) = Some (Z.of_N d).
Proof.
  intros H.
  assert (d = 0 \/ d = 1 \/ d = 2 \/ d = 3 \/ d = 4 \/ d = 5 \/ d = 6 \/ d = 7
          \/ d = 8 \/ d = 9)%N as Hd by lia.
  repeat (destruct Hd as [->|Hd]; [reflexivity|]). subst d. reflexivity.
Qed.

(** The digits [String(n)] writes in front of [s] are read back as [n]. *)
Lemma digits_pretty_N_go x :
  exists k, forall acc s,
    digits acc (pretty_N_go x s) = digits (acc * k + Z.of_N x) s.
Proof.
  induction (N.lt_wf_0 x) as [x _ IH].
  destruct (N.eq_dec x 0%N) as [->|Hx].
  - exists 1. intros acc s. rewrite pretty_N_go_0. f_equal. lia.
  - destruct (IH (x / 10)%N) as [k Hk]; [apply N.div_lt; lia|].
    exists (10 * k). intros acc s.
    rewrite pretty_N_go_step by lia. rewrite Hk. cbn [digits].
    rewrite digit_pretty_N_char by (apply N.mod_lt; lia).
    f_equal. pose proof (N.div_mod x 10%N ltac:(lia)) as Hdm.
    rewrite Hdm at 3. rewrite N2Z.inj_add, N2Z.inj_mul. change (Z.of_N 10) with 10. lia.
Qed.

Lemma pretty_N_go_head x s :
  (0 < x)%N ->
  exists d rest, (d < 10)%N /\ pretty_N_go x s = String (pretty_N_char d) rest.
Proof.
  revert s. induction (N.lt_wf_0 x) as [x _ IH]. intros s Hx.
  rewrite pretty_N_go_step by exact Hx.
  destruct (N.eq_dec (x / 10)%N 0%N) as [E|E].
  - rewrite E, pretty_N_go_0. exists (x mod 10)%N, s.
    split; [apply N.mod_lt; lia|reflexivity].
  - apply IH; [apply N.div_lt; lia|apply N.neq_0_lt_0, E].
Qed.

(** [parseInt] on a string that starts with a digit. *)
Lemma parseInt_unsigned c rest :
  is_Some (digit c) ->
  parseInt (String c rest) = Some (digits 0 (String c rest)).
Proof.
  intros [d Hd]. unfold parseInt.
  assert (Hw : isWhiteSpace c = false).
  { destruct c as [[] [] [] [] [] [] [] []]; try reflexivity; vm_compute in Hd; discriminate Hd. }
  cbn [trimStart]. rewrite Hw.
  destruct c as [[] [] [] [] [] [] [] []]; try (vm_compute in Hd; discriminate Hd);
    cbn [startsWithDigit]; rewrite Hd;
    (rewrite bool_decide_true by (eexists; reflexivity));
    f_equal; apply Z.mul_1_l.
Qed.

Lemma parseInt_pretty_pos p : parseInt (pretty (Z.pos p)) = Some (Z.pos p).
Proof.
  change (pretty (Z.pos p)) with (pretty_N_go (N.pos p) EmptyString).
  destruct (pretty_N_go_head (N.pos p) EmptyString ltac:(lia)) as (d & rest & Hd & E).
  rewrite E, parseInt_unsigned by (rewrite digit_pretty_N_char by exact Hd; eexists; reflexivity).
  rewrite <- E. destruct (digits_pretty_N_go (N.pos p)) as [k Hk].
  rewrite Hk. reflexivity.
Qed.

(** [parseInt(String(n), 10)] is [n]. *)
Lemma parseInt_pretty (n : Z) : parseInt (pretty n) = Some n.
Proof.
  destruct n as [|p|p].
  - reflexivity.
  - apply parseInt_pretty_pos.
  - change (pretty (Z.neg p)) with ("-" +:+ pretty_N_go (N.pos p) EmptyString).
    rewrite append_cons, append_nil.
    destruct (pretty_N_go_head (N.pos p) EmptyString ltac:(lia)) as (d & rest & Hd & E).
    unfold parseInt. cbn [trimStart].
    change (isWhiteSpace "-") with false. cbv iota.
    rewrite E. cbn [startsWithDigit].
    rewrite digit_pretty_N_char by exact Hd.
    rewrite bool_decide_true by (eexists; reflexivity).
    rewrite <- E. destruct (digits_pretty_N_go (N.pos p)) as [k Hk].
    rewrite Hk. reflexivity.
Qed.

(** *** The store of the LMS *)

Lemma getSCORMValue_frame_renderPage a b p s :
  getSCORMValue a b (renderPage p s) = getSCORMValue a b s.
Proof.
  unfold renderPage.
  destruct (negb (loaded s) || isRendering s); [reflexivity|].
  destruct (currPage s =? p); reflexivity.
Qed.

(** X11. Outside an LMS the helpers do nothing: reads give the empty string,
    writes, commits and the final call leave the state as it is, and a
    document that loads starts on page 1 with no page visited. *)
Theorem standalone_session s :
  scormAPI s = None ->
  (forall a b, getSCORMValue a b s = EmptyString)
  /\ (forall a b v, setSCORMValue a b v s = s)
  /\ commitSCORM s = s
  /\ terminateSCORM s = s
  /\ (forall pdf,
        currentPage (documentResolved pdf s) = 1
        /\ visitedPages (documentResolved pdf s) = replicate (numPages pdf) (Some false)).
Proof.
  intros H.
  assert (Hget : forall a b t, scormAPI t = None -> getSCORMValue a b t = EmptyString)
    by (intros a b t Ht; unfold getSCORMValue; rewrite Ht; reflexivity).
  split; [intros a b; apply Hget, H|].
  split; [intros a b v; unfold setSCORMValue; rewrite H; reflexivity|].
  split; [unfold commitSCORM; rewrite H; reflexivity|].
  split; [unfold terminateSCORM; rewrite H; reflexivity|].
  intros pdf. split.
  - unfold documentResolved. rewrite currentPage_renderPage.
    rewrite (Hget "cmi.core.lesson_location" "cmi.location") by exact H.
    reflexivity.
  - rewrite documentResolved_visitedPages, Hget by exact H. reflexivity.
Qed.

Lemma standalone_session_witness :
  currentPage (documentResolved {| numPages := 3 |} initial) = 1
  /\ visitedPages (documentResolved {| numPages := 3 |} initial)
     = [Some false; Some false; Some false].
Proof.
  destruct (standalone_session initial eq_refl) as (_ & _ & _ & _ & H).
  exact (H {| numPages := 3 |}).
Defined.

(** *** Progress saved by a render and restored by a load *)

Lemma decodeVisited_encodeVisited (b : list bool) n :
  length b = n ->
  decodeVisited (encodeVisited (Some <$> b)) n = Some <$> b.
Proof.
  intros <-. unfold decodeVisited.
  rewrite encodeVisited_length, Nat.eqb_refl, encodeVisited_chars.
  destruct b as [|v b]; [reflexivity|].
  rewrite fmap_cons, encodeVisited_cons. reflexivity.
Qed.

Lemma setSCORMValue_Some a b v s api :
  scormAPI s = Some api ->
  setSCORMValue a b v s
  = set_scormAPI (Some {| cmi := <[elementName s a b := v]> (cmi api);
                          initialized := initialized api; commits := commits api;
                          finished := finished api |}) s.
Proof. intros H. unfold setSCORMValue. rewrite H. reflexivity. Qed.

Lemma commitSCORM_Some s api :
  scormAPI s = Some api ->
  commitSCORM s
  = set_scormAPI (Some {| cmi := cmi api; initialized := initialized api;
                          commits := S (commits api); finished := finished api |}) s.
Proof. intros H. unfold commitSCORM. rewrite H. reflexivity. Qed.

Lemma visitedPages_setSCORMValue a b v s :
  visitedPages (setSCORMValue a b v s) = visitedPages s.
Proof. unfold setSCORMValue. destruct (scormAPI s); reflexivity. Qed.

Lemma visitedPages_commitSCORM s : visitedPages (commitSCORM s) = visitedPages s.
Proof. unfold commitSCORM. destruct (scormAPI s); reflexivity. Qed.

(** The bitmap after the callback of a completed render. *)
Lemma visitedPages_renderResolved p s :
  visitedPages (renderResolved p s)
  = if negb (truthy (arrayGet (visitedPages s) (p - 1)))
    then arraySet (visitedPages s) (p - 1) true
    else visitedPages s.
Proof.
  unfold renderResolved.
  rewrite visitedPages_commitSCORM, !visitedPages_setSCORMValue.
  change (visitedPages (set_isRendering false s)) with (visitedPages s).
  destruct (negb (truthy (arrayGet (visitedPages s) (p - 1)))); reflexivity.
Qed.

(** The same on a bitmap without holes and a page of the document. *)
Lemma renderResolved_visitedPages p s (b : list bool) :
  visitedPages s = Some <$> b ->
  1 <= p <= Z.of_nat (length b) ->
  visitedPages (renderResolved p s) = Some <$> <[Z.to_nat (p - 1) := true]> b.
Proof.
  intros Hb Hp.
  rewrite visitedPages_renderResolved, Hb. unfold arrayGet, arraySet.
  destruct (Z.ltb_spec (p - 1) 0) as [|_]; [lia|].
  rewrite length_fmap.
  destruct (Nat.ltb_spec (Z.to_nat (p - 1)) (length b)) as [Hlt|]; [|lia].
  rewrite list_lookup_fmap.
  destruct (lookup_lt_is_Some_2 b _ Hlt) as [v Hl]. rewrite Hl. cbn.
  destruct v; cbn.
  - rewrite list_insert_id by exact Hl. reflexivity.
  - symmetry. apply list_fmap_insert.
Qed.

(** What the callback of a completed render leaves in the LMS. *)
Lemma renderResolved_scormAPI p s api :
  scormAPI s = Some api ->
  scormAPI (renderResolved p s)
  = Some {| cmi := <[elementName s "cmi.core.lesson_location" "cmi.location" := pretty p]>
                     (<[elementName s "cmi.suspend_data" "cmi.suspend_data"
                        := encodeVisited (visitedPages (renderResolved p s))]> (cmi api));
            initialized := initialized api;
            commits := S (commits api);
            finished := finished api |}.
Proof.
  intros H. rewrite visitedPages_renderResolved. unfold renderResolved.
  set (s1 := if negb (truthy (arrayGet (visitedPages (set_isRendering false s)) (p - 1)))
             then set_visitedPages (arraySet (visitedPages (set_isRendering false s)) (p - 1) true)
                    (set_isRendering false s)
             else set_isRendering false s).
  assert (H1 : scormAPI s1 = Some api /\ scormVersion s1 = scormVersion s
               /\ visitedPages s1
                  = if negb (truthy (arrayGet (visitedPages s) (p - 1)))
                    then arraySet (visitedPages s) (p - 1) true
                    else visitedPages s).
  { subst s1. change (visitedPages (set_isRendering false s)) with (visitedPages s).
    destruct (negb (truthy (arrayGet (visitedPages s) (p - 1)))); auto. }
  destruct H1 as (Ha & Hv & Hvp).
  rewrite (setSCORMValue_Some _ _ _ s1 api Ha).
  erewrite setSCORMValue_Some by reflexivity.
  erewrite commitSCORM_Some by reflexivity.
  unfold elementName. cbn. rewrite Hv, Hvp. reflexivity.
Qed.

Lemma deliver_DocumentResolved id pdf s :
  inflight s !! id = Some AwaitDocument ->
  deliver (DocumentResolved id pdf) s = Some (documentResolved pdf (settle id s)).
Proof. intros H. unfold deliver. rewrite H. reflexivity. Qed.

(** The state a valid call of [startViewerWithPdf] returns in. *)
Lemma startViewerWithPdf_valid url found s :
  url <> EmptyString ->
  let s' := startViewerWithPdf (Some url) found s in
  pdfDoc s' = None /\ currentPage s' = 1 /\ totalPages s' = 0
  /\ isRendering s' = false /\ currPage s' = -1 /\ visitedPages s' = []
  /\ lastPdfUrl s' = Some url
  /\ scormAPI s' = (fun '(_, api) => {| cmi := cmi api; initialized := true;
                                        commits := commits api;
                                        finished := finished api |}) <$> found
  /\ scormVersion s' = match found with Some (v, _) => Some v | None => scormVersion s end
  /\ inflight s' = <[nextJob s := AwaitDocument]> (inflight s)
  /\ nextJob s' = S (nextJob s)
  /\ effects s' = effects (destroyPdfDoc s) ++ [ClearRect; GetDocument url].
Proof.
  intros Hurl. unfold startViewerWithPdf.
  apply String.eqb_neq in Hurl. rewrite Hurl.
  unfold destroyPdfDoc.
  destruct found as [[v api]|]; destruct (loaded s); cbn;
    rewrite <- ?app_assoc; repeat split; reflexivity.
Qed.

(** X9. What a completed render of page [p] saves is what the next
    load of a document of the same length restores: with an API object,
    a bitmap without holes and [p] a page of the document, the callback
    commits once, and a later [startViewerWithPdf] that meets the same
    data opens with the bitmap of the earlier session, page [p] marked,
    on page [p], and asks for that page. *)
Theorem progress_round_trip v api (b : list bool) p s t url pdf :
  scormAPI s = Some api -> scormVersion s = Some v ->
  visitedPages s = Some <$> b ->
  1 <= p <= Z.of_nat (length b) ->
  url <> EmptyString ->
  numPages pdf = length b ->
  exists api',
    scormAPI (renderResolved p s) = Some api'
    /\ commits api' = S (commits api)
    /\ exists t',
         run [Start (Some url) (Some (v, api')); DocumentResolved (nextJob t) pdf] t = Some t'
         /\ visitedPages t' = Some <$> <[Z.to_nat (p - 1) := true]> b
         /\ currentPage t' = p
         /\ totalPages t' = Z.of_nat (length b)
         /\ last (effects t') = Some (GetPage p).
Proof.
  intros Hapi Hv Hb Hp Hurl Hn.
  eexists. split; [apply renderResolved_scormAPI, Hapi|]. split; [reflexivity|].
  rewrite (renderResolved_visitedPages p s b Hb Hp).
  set (b' := <[Z.to_nat (p - 1) := true]> b).
  assert (Hlen : length b' = numPages pdf) by (subst b'; rewrite length_insert; auto).
  match goal with |- context [Start _ (Some (v, ?a))] => set (api' := a) end.
  set (t1 := startViewerWithPdf (Some url) (Some (v, api')) t).
  destruct (startViewerWithPdf_valid url (Some (v, api')) t Hurl)
    as (Hd1 & Hc1 & Ht1 & Hr1 & Hcp1 & Hvp1 & Hl1 & Ha1 & Hv1 & Hi1 & Hn1 & He1).
  fold t1 in Hd1, Hc1, Ht1, Hr1, Hcp1, Hvp1, Hl1, Ha1, Hv1, Hi1, Hn1, He1.
  exists (documentResolved pdf (settle (nextJob t) t1)).
  assert (Hsd : getSCORMValue "cmi.suspend_data" "cmi.suspend_data" (settle (nextJob t) t1)
                = encodeVisited (Some <$> b')).
  { unfold getSCORMValue, elementName.
    change (scormAPI (settle (nextJob t) t1)) with (scormAPI t1).
    change (scormVersion (settle (nextJob t) t1)) with (scormVersion t1).
    rewrite Ha1, Hv1. cbn. subst api'. cbn. unfold elementName. rewrite Hv.
    destruct v; (rewrite lookup_insert_ne by discriminate);
      rewrite lookup_insert_eq; reflexivity. }
  assert (Hloc : getSCORMValue "cmi.core.lesson_location" "cmi.location" (settle (nextJob t) t1)
                 = pretty p).
  { unfold getSCORMValue, elementName.
    change (scormAPI (settle (nextJob t) t1)) with (scormAPI t1).
    change (scormVersion (settle (nextJob t) t1)) with (scormVersion t1).
    rewrite Ha1, Hv1. cbn. subst api'. cbn. unfold elementName. rewrite Hv.
    destruct v; rewrite lookup_insert_eq; reflexivity. }
  split.
  - cbn [run]. change (deliver (Start (Some url) (Some (v, api'))) t) with (Some t1).
    cbn [mbind option_bind].
    rewrite (deliver_DocumentResolved (nextJob t) pdf t1)
      by (rewrite Hi1; apply lookup_insert_eq).
    reflexivity.
  - split.
    { rewrite documentResolved_visitedPages, Hsd.
      apply decodeVisited_encodeVisited, Hlen. }
    unfold documentResolved.
    rewrite currentPage_renderPage, totalPages_renderPage.
    change (getSCORMValue "cmi.core.lesson_location" "cmi.location" (set_visitedPages ?x (set_totalPages ?y (set_pdfDoc ?z ?u))))
      with (getSCORMValue "cmi.core.lesson_location" "cmi.location" u).
    rewrite Hloc, parseInt_pretty.
    cbn [totalPages set_visitedPages set_totalPages].
    assert (Hin : (1 <=? p) && (p <=? Z.of_nat (numPages pdf)) = true).
    { apply andb_true_iff. split; [apply Z.leb_le|apply Z.leb_le]; lia. }
    rewrite Hin. cbn [currentPage set_currentPage totalPages set_visitedPages set_totalPages].
    split; [reflexivity|]. split; [rewrite Hn; reflexivity|].
    rewrite renderPage_fresh.
    + cbn [effects schedule emit set_nextJob set_inflight set_effects].
      apply last_snoc.
    + reflexivity.
    + exact Hr1.
    + change (currPage t1 <> p). rewrite Hcp1. lia.
Qed.

End ViewerProgress.

Section ViewerSessions.
Import Viewer Session.

(** *** Pages stay visited *)

Lemma arrayGet_arraySet_same a i v : 0 <= i -> arrayGet (arraySet a i v) i = Some v.
Proof.
  intros Hi. unfold arrayGet, arraySet.
  destruct (Z.ltb_spec i 0) as [|_]; [lia|].
  destruct (Nat.ltb_spec (Z.to_nat i) (length a)) as [Hlt|Hge].
  - rewrite list_lookup_insert_eq by exact Hlt. reflexivity.
  - rewrite lookup_app_r by exact Hge.
    rewrite lookup_app_r by (rewrite length_replicate; lia).
    rewrite length_replicate, Nat.sub_diag. reflexivity.
Qed.

Lemma arrayGet_arraySet_true a i j :
  arrayGet a j = Some true -> arrayGet (arraySet a i true) j = Some true.
Proof.
  unfold arrayGet, arraySet. intros H.
  destruct (Z.ltb_spec j 0) as [|Hj]; [discriminate|].
  destruct (Z.ltb_spec i 0) as [|Hi]; [exact H|].
  destruct (a !! Z.to_nat j) as [x|] eqn:E; [|discriminate].
  destruct (Nat.ltb_spec (Z.to_nat i) (length a)) as [Hlt|Hge].
  - destruct (Nat.eq_dec (Z.to_nat i) (Z.to_nat j)) as [Heq|Hne].
    + rewrite Heq, list_lookup_insert_eq by (rewrite <- Heq; exact Hlt). reflexivity.
    + rewrite list_lookup_insert_ne by exact Hne. rewrite E. exact H.
  - rewrite lookup_app_l by (apply lookup_lt_Some in E; exact E).
    rewrite E. exact H.
Qed.

Lemma visitedPages_renderResolved_mono p s j :
  arrayGet (visitedPages s) j = Some true ->
  arrayGet (visitedPages (renderResolved p s)) j = Some true.
Proof.
  intros H. rewrite visitedPages_renderResolved.
  destruct (negb (truthy (arrayGet (visitedPages s) (p - 1)))); [|exact H].
  apply arrayGet_arraySet_true, H.
Qed.

Lemma visitedPages_renderResolved_marks p s :
  1 <= p -> arrayGet (visitedPages (renderResolved p s)) (p - 1) = Some true.
Proof.
  intros Hp. rewrite visitedPages_renderResolved.
  destruct (arrayGet (visitedPages s) (p - 1)) as [[]|] eqn:E; cbn.
  - exact E.
  - apply arrayGet_arraySet_same. lia.
  - apply arrayGet_arraySet_same. lia.
Qed.

Lemma visitedPages_resize s : visitedPages (resize s) = visitedPages s.
Proof.
  unfold resize. destruct (loaded s && negb (currentPage s =? 0)); [|reflexivity].
  rewrite visitedPages_renderPage. reflexivity.
Qed.

Lemma visitedPages_next s : visitedPages (next s) = visitedPages s.
Proof.
  unfold next. destruct (negb (loaded s)); [reflexivity|].
  destruct (currentPage s <? totalPages s); [|reflexivity].
  rewrite visitedPages_renderPage. reflexivity.
Qed.

Lemma visitedPages_prev s : visitedPages (prev s) = visitedPages s.
Proof.
  unfold prev. destruct (negb (loaded s)); [reflexivity|].
  destruct (1 <? currentPage s); [|reflexivity].
  rewrite visitedPages_renderPage. reflexivity.
Qed.

Lemma visitedPages_deliver_mono ev s s' j :
  isLoad ev = false -> deliver ev s = Some s' ->
  arrayGet (visitedPages s) j = Some true ->
  arrayGet (visitedPages s') j = Some true.
Proof.
  intros Hev Hd H.
  destruct ev; try discriminate Hev; unfold deliver in Hd;
    try (destruct (inflight s !! id) as [[]|]; try discriminate Hd);
    injection Hd as <-.
  - exact H.
  - exact H.
  - exact H.
  - apply visitedPages_renderResolved_mono. exact H.
  - exact H.
  - rewrite visitedPages_next. exact H.
  - rewrite visitedPages_prev. exact H.
  - unfold destroy, destroyPdfDoc. destruct (loaded s); exact H.
  - rewrite visitedPages_resize. exact H.
  - unfold terminateSCORM. destruct (scormAPI s); exact H.
Qed.

Lemma visitedPages_run_mono evs : forall s s' j,
  forallb (fun ev => negb (isLoad ev)) evs = true -> run evs s = Some s' ->
  arrayGet (visitedPages s) j = Some true ->
  arrayGet (visitedPages s') j = Some true.
Proof.
  induction evs as [|ev evs IH]; intros s s' j Hall Hrun H.
  - injection Hrun as <-. exact H.
  - cbn [forallb] in Hall. apply andb_true_iff in Hall as [Hev Hall].
    apply negb_true_iff in Hev.
    cbn [run] in Hrun. destruct (deliver ev s) as [s1|] eqn:E; [|discriminate].
    cbn [mbind option_bind] in Hrun.
    exact (IH s1 s' j Hall Hrun (visitedPages_deliver_mono ev s s1 j Hev E H)).
Qed.

(** X8. A page whose render has completed is marked visited, and a
    page marked visited stays so through every later event up to the
    next load: renders that fail or complete, navigation, resizes, the
    teardown. *)
Theorem visited_until_next_load id p evs s s' :
  inflight s !! id = Some (AwaitRender p) ->
  1 <= p ->
  forallb (fun ev => negb (isLoad ev)) evs = true ->
  run (RenderResolved id :: evs) s = Some s' ->
  arrayGet (visitedPages s') (p - 1) = Some true
  /\ (forall j, arrayGet (visitedPages s) j = Some true ->
                arrayGet (visitedPages s') j = Some true).
Proof.
  intros Hjob Hp Hall Hrun.
  cbn [run] in Hrun. rewrite (deliver_RenderResolved id p s Hjob) in Hrun.
  cbn [mbind option_bind] in Hrun.
  split.
  - apply (visitedPages_run_mono evs _ s' _ Hall Hrun).
    apply visitedPages_renderResolved_marks, Hp.
  - intros j H. apply (visitedPages_run_mono evs _ s' _ Hall Hrun).
    apply visitedPages_renderResolved_mono. exact H.
Qed.

(** *** What [getState] can report *)

Lemma next_session s : pdfDoc (next s) = pdfDoc s /\ totalPages (next s) = totalPages s.
Proof.
  unfold next. destruct (negb (loaded s)); [auto|].
  destruct (currentPage s <? totalPages s); [|auto].
  rewrite pdfDoc_renderPage, totalPages_renderPage. auto.
Qed.

Lemma prev_session s : pdfDoc (prev s) = pdfDoc s /\ totalPages (prev s) = totalPages s.
Proof.
  unfold prev. destruct (negb (loaded s)); [auto|].
  destruct (1 <? currentPage s); [|auto].
  rewrite pdfDoc_renderPage, totalPages_renderPage. auto.
Qed.

Lemma next_lower_bound s : 1 <= currentPage s -> 1 <= currentPage (next s).
Proof.
  intros H. unfold next. destruct (negb (loaded s)); [exact H|].
  destruct (currentPage s <? totalPages s); [|exact H].
  rewrite currentPage_renderPage. cbn. lia.
Qed.

Lemma prev_lower_bound s : 1 <= currentPage s -> 1 <= currentPage (prev s).
Proof.
  intros H. unfold prev. destruct (negb (loaded s)); [exact H|].
  destruct (Z.ltb_spec 1 (currentPage s)); [|exact H].
  rewrite currentPage_renderPage. cbn. lia.
Qed.

Lemma consistent_ext s s' :
  pdfDoc s' = pdfDoc s -> totalPages s' = totalPages s -> currentPage s' = currentPage s ->
  consistent s -> consistent s'.
Proof. unfold consistent. intros -> -> ->. auto. Qed.

Lemma consistent_deliver ev s s' :
  documentHasPages ev -> consistent s -> deliver ev s = Some s' -> consistent s'.
Proof.
  intros Hwf Hinv Hd.
  destruct ev; unfold deliver in Hd;
    try (destruct (inflight s !! id) as [[]|]; try discriminate Hd);
    injection Hd as <-.
  - unfold startViewerWithPdf.
    destruct pdfUrl as [url|]; [|exact Hinv].
    destruct (String.eqb url EmptyString); [exact Hinv|].
    split; [|intros d Hdoc; exfalso];
      unfold initSCORM in *; destruct found as [[v api]|]; cbn in *; try lia; discriminate.
  - destruct (documentResolved_session pdf (settle id s) Hwf) as (Hdoc & Ht & Hc).
    split; [lia|]. intros d Hd. rewrite Hdoc in Hd. injection Hd as <-.
    split; [exact Ht|]. rewrite Ht. lia.
  - exact Hinv.
  - exact Hinv.
  - exact Hinv.
  - destruct (renderResolved_session pageNumber (settle id s)) as (H1 & H2 & H3).
    exact (consistent_ext s _ H1 H3 H2 Hinv).
  - exact Hinv.
  - destruct Hinv as [Hlo Hdoc]. destruct (next_session s) as [H1 H2].
    split; [apply next_lower_bound, Hlo|].
    intros d Hd. rewrite H1 in Hd. destruct (Hdoc d Hd) as [Ht Hc].
    rewrite H2. split; [exact Ht|].
    assert (Hl : loaded s = true) by (unfold loaded; rewrite Hd; reflexivity).
    pose proof (next_in_range s Hl ltac:(lia)) as Hr. rewrite H2 in Hr. lia.
  - destruct Hinv as [Hlo Hdoc]. destruct (prev_session s) as [H1 H2].
    split; [apply prev_lower_bound, Hlo|].
    intros d Hd. rewrite H1 in Hd. destruct (Hdoc d Hd) as [Ht Hc].
    rewrite H2. split; [exact Ht|].
    assert (Hl : loaded s = true) by (unfold loaded; rewrite Hd; reflexivity).
    pose proof (prev_in_range s Hl ltac:(lia)) as Hr. rewrite H2 in Hr. lia.
  - destruct Hinv as [Hlo _]. split.
    + unfold destroy, destroyPdfDoc. destruct (loaded s); exact Hlo.
    + intros d Hd. unfold destroy, destroyPdfDoc in Hd. destruct (loaded s); discriminate Hd.
  - unfold resize. destruct (loaded s && negb (currentPage s =? 0)); [|exact Hinv].
    apply (consistent_ext s); [| | |exact Hinv].
    + rewrite pdfDoc_renderPage. reflexivity.
    + rewrite totalPages_renderPage. reflexivity.
    + rewrite currentPage_renderPage. reflexivity.
  - unfold terminateSCORM. destruct (scormAPI s); exact Hinv.
Qed.

Lemma consistent_run evs : forall s s',
  Forall documentHasPages evs -> consistent s -> run evs s = Some s' -> consistent s'.
Proof.
  induction evs as [|ev evs IH]; intros s s' Hwf Hinv Hrun.
  - injection Hrun as <-. exact Hinv.
  - apply Forall_cons in Hwf as [Hev Hwf].
    cbn [run] in Hrun. destruct (deliver ev s) as [s1|] eqn:E; [|discriminate].
    exact (IH s1 s' Hwf (consistent_deliver ev s s1 Hev Hinv E) Hrun).
Qed.

(** X7. In every state the engine reaches from the load of the
    script, [getState()] reports a page counter of at least 1; when it
    reports a loaded document, [totalPages] is the page count of that
    document and [currentPage] is at most [totalPages]. *)
Theorem getState_consistent evs s :
  Forall documentHasPages evs ->
  run evs initial = Some s ->
  1 <= stateCurrentPage (getState s)
  /\ (pdfLoaded (getState s) = true ->
      stateCurrentPage (getState s) <= stateTotalPages (getState s)
      /\ exists d, pdfDoc s = Some d
                   /\ stateTotalPages (getState s) = Z.of_nat (numPages d)).
Proof.
  intros Hwf Hrun.
  assert (Hinit : consistent initial) by (split; [cbn; lia|discriminate]).
  destruct (consistent_run evs initial s Hwf Hinit Hrun) as [Hlo Hdoc].
  split; [exact Hlo|]. unfold getState, loaded. cbn.
  destruct (pdfDoc s) as [d|]; [|discriminate]. intros _.
  destruct (Hdoc d eq_refl) as [Ht Hc]. split; [exact Hc|].
  exists d. auto.
Qed.

(** *** The scale of every raster *)

Lemma effects_renderPage p s :
  exists l, effects (renderPage p s) = effects s ++ l /\ Forall usable l.
Proof.
  unfold renderPage.
  destruct (negb (loaded s) || isRendering s);
    [exists []; rewrite app_nil_r; auto|].
  destruct (currPage s =? p); [exists []; rewrite app_nil_r; auto|].
  exists [GetPage p]. split; [reflexivity|]. repeat constructor.
Qed.

Lemma effects_destroyPdfDoc s :
  exists l, effects (destroyPdfDoc s) = effects s ++ l /\ Forall usable l.
Proof.
  unfold destroyPdfDoc. destruct (loaded s).
  - exists [DestroyDocument]. split; [reflexivity|]. repeat constructor.
  - exists []. rewrite app_nil_r. auto.
Qed.

Lemma effects_deliver ev s s' :
  deliver ev s = Some s' ->
  exists l, effects s' = effects s ++ l /\ Forall usable l.
Proof.
  intros Hd.
  destruct ev; unfold deliver in Hd;
    try (destruct (inflight s !! id) as [[]|]; try discriminate Hd);
    injection Hd as <-.
  - unfold startViewerWithPdf.
    destruct pdfUrl as [url|];
      [|exists [ClearRect; FillText "Failed to load PDF."]; cbn; rewrite <- app_assoc;
        split; [reflexivity|repeat constructor]].
    destruct (String.eqb url EmptyString);
      [exists [ClearRect; FillText "Failed to load PDF."]; cbn; rewrite <- app_assoc;
        split; [reflexivity|repeat constructor]|].
    destruct (effects_destroyPdfDoc s) as (l & Hl & Hu).
    exists (l ++ [ClearRect; GetDocument url]). split.
    + unfold initSCORM. destruct found as [[v api]|]; cbn -[destroyPdfDoc];
        rewrite Hl, <- !app_assoc; reflexivity.
    + apply Forall_app. split; [exact Hu|repeat constructor].
  - unfold documentResolved.
    match goal with |- context [renderPage ?p ?t] =>
      destruct (effects_renderPage p t) as (l & Hl & Hu); rewrite Hl end.
    exists l. split; [|exact Hu].
    destruct (parseInt _) as [l0|]; [|reflexivity].
    match goal with |- context [if ?c then _ else _] => destruct c end; reflexivity.
  - exists [ClearRect; FillText "Failed to load PDF."]. cbn. rewrite <- app_assoc.
    split; [reflexivity|repeat constructor].
  - eexists. split.
    + unfold pageResolved. cbn. rewrite <- !app_assoc. reflexivity.
    + repeat constructor. apply fitScale_usable.
  - exists []. rewrite app_nil_r. auto.
  - exists []. rewrite app_nil_r.
    destruct (renderResolved_frame pageNumber (settle id s)) as (-> & _). auto.
  - exists []. rewrite app_nil_r. auto.
  - unfold next. destruct (negb (loaded s)); [exists []; rewrite app_nil_r; auto|].
    destruct (currentPage s <? totalPages s); [|exists []; rewrite app_nil_r; auto].
    exact (effects_renderPage _ (set_currentPage (currentPage s + 1) s)).
  - unfold prev. destruct (negb (loaded s)); [exists []; rewrite app_nil_r; auto|].
    destruct (1 <? currentPage s); [|exists []; rewrite app_nil_r; auto].
    exact (effects_renderPage _ (set_currentPage (currentPage s - 1) s)).
  - destruct (effects_destroyPdfDoc s) as (l & Hl & Hu).
    exists (l ++ [ClearRect]). split.
    + unfold destroy, clearCanvas, emit. cbn -[destroyPdfDoc].
      rewrite Hl, <- app_assoc. reflexivity.
    + apply Forall_app. split; [exact Hu|repeat constructor].
  - unfold resize. destruct (loaded s && negb (currentPage s =? 0));
      [|exists []; rewrite app_nil_r; auto].
    exact (effects_renderPage _ (set_currPage (-1) s)).
  - exists []. rewrite app_nil_r. unfold terminateSCORM. destruct (scormAPI s); auto.
Qed.

Lemma effects_run evs : forall s s',
  run evs s = Some s' ->
  exists l, effects s' = effects s ++ l /\ Forall usable l.
Proof.
  induction evs as [|ev evs IH]; intros s s' Hrun.
  - injection Hrun as <-. exists []. rewrite app_nil_r. auto.
  - cbn [run] in Hrun. destruct (deliver ev s) as [s1|] eqn:E; [|discriminate].
    cbn [mbind option_bind] in Hrun.
    destruct (effects_deliver ev s s1 E) as (l1 & H1 & Hu1).
    destruct (IH s1 s' Hrun) as (l2 & H2 & Hu2).
    exists (l1 ++ l2). split.
    + rewrite H2, H1, app_assoc. reflexivity.
    + apply Forall_app. auto.
Qed.

(** X2. Every raster the engine asks of pdf.js, in any course of
    events and whatever the window and the page report as their sizes,
    is at a finite scale greater than zero. *)
Theorem every_raster_usable evs s s' p scale :
  run evs s = Some s' ->
  Forall usable (effects s) ->
  In (Raster p scale) (effects s') ->
  Number.positive_finite scale = true.
Proof.
  intros Hrun Hs Hin. destruct (effects_run evs s s' Hrun) as (l & Hl & Hu).
  assert (Hall : Forall usable (effects s')) by (rewrite Hl; apply Forall_app; auto).
  exact (proj1 (List.Forall_forall usable (effects s')) Hall (Raster p scale) Hin).
Qed.

(** *** One render at a time *)

Lemma oneAtATime_ext s s' :
  inflight s' = inflight s -> nextJob s' = nextJob s -> isRendering s' = isRendering s ->
  oneAtATime s -> oneAtATime s'.
Proof. unfold oneAtATime. intros -> -> ->. auto. Qed.

Lemma oneAtATime_renderPage p s : oneAtATime s -> oneAtATime (renderPage p s).
Proof.
  intros Hinv. unfold renderPage.
  destruct (negb (loaded s)); [exact Hinv|]. cbn [orb].
  destruct (isRendering s) eqn:Hbusy; [exact Hinv|].
  destruct (currPage s =? p); [exact Hinv|].
  destruct Hinv as [Hfresh [[_ Hnone]|[Hb _]]]; [|congruence].
  split.
  - intros id j. cbn. intros [[<- _]|[_ H]]%lookup_insert_Some; [lia|].
    apply Hfresh in H. lia.
  - right. split; [reflexivity|].
    exists (nextJob s), (AwaitPage p). cbn. split; [apply lookup_insert_eq|].
    split; [reflexivity|].
    intros id' j' [[<- _]|[_ H]]%lookup_insert_Some Hp; [reflexivity|].
    rewrite (Hnone id' j' H) in Hp. discriminate.
Qed.

(** A promise that is not of [renderPage] settles. *)
Lemma oneAtATime_settle_other id s :
  inflight s !! id = Some AwaitDocument -> oneAtATime s -> oneAtATime (settle id s).
Proof.
  intros Hjob [Hfresh Hcase]. split.
  - intros id' j. cbn. intros [_ H]%lookup_delete_Some. exact (Hfresh id' j H).
  - destruct Hcase as [[Hb Hnone]|(Hb & id0 & j0 & Hl & Hp & Huniq)].
    + left. split; [exact Hb|].
      intros id' j. cbn. intros [_ H]%lookup_delete_Some. exact (Hnone id' j H).
    + right. split; [exact Hb|]. exists id0, j0. cbn. split.
      * apply lookup_delete_Some. split; [|exact Hl].
        intros <-. rewrite Hjob in Hl. injection Hl as <-. discriminate.
      * split; [exact Hp|].
        intros id' j' [_ H]%lookup_delete_Some. exact (Huniq id' j' H).
Qed.

(** The promise of [renderPage] that is pending settles for good. *)
Lemma oneAtATime_settle_render id j s s' :
  inflight s !! id = Some j -> renderPending j = true ->
  inflight s' = delete id (inflight s) -> nextJob s' = nextJob s ->
  isRendering s' = false ->
  oneAtATime s -> oneAtATime s'.
Proof.
  intros Hjob Hpend Hin Hnext Hbusy [Hfresh Hcase]. split.
  - intros id' j'. rewrite Hin, Hnext. intros [_ H]%lookup_delete_Some.
    exact (Hfresh id' j' H).
  - left. split; [exact Hbusy|].
    intros id' j'. rewrite Hin. intros [Hne H]%lookup_delete_Some.
    destruct Hcase as [[_ Hnone]|(_ & id0 & j0 & _ & _ & Huniq)].
    + exact (Hnone id' j' H).
    + destruct (renderPending j') eqn:E; [|reflexivity].
      exfalso. apply Hne.
      rewrite (Huniq id' j' H E). exact (Huniq id j Hjob Hpend).
Qed.

(** The page has arrived and the raster is awaited. *)
Lemma oneAtATime_pageResolved id p page win s :
  inflight s !! id = Some (AwaitPage p) ->
  oneAtATime s -> oneAtATime (pageResolved p page win (settle id s)).
Proof.
  intros Hjob [Hfresh Hcase].
  destruct Hcase as [[_ Hnone]|(Hb & id0 & j0 & Hl & Hp & Huniq)];
    [specialize (Hnone id _ Hjob); discriminate|].
  assert (Hin : inflight (pageResolved p page win (settle id s))
                = <[nextJob s := AwaitRender p]> (delete id (inflight s))) by reflexivity.
  assert (Hnext : nextJob (pageResolved p page win (settle id s)) = S (nextJob s))
    by reflexivity.
  assert (Hbusy : isRendering (pageResolved p page win (settle id s)) = isRendering s)
    by reflexivity.
  unfold oneAtATime. rewrite Hin, Hnext, Hbusy. split.
  - intros id' j' [[<- _]|[_ [_ H]%lookup_delete_Some]]%lookup_insert_Some; [lia|].
    apply Hfresh in H. lia.
  - right. split; [exact Hb|].
    exists (nextJob s), (AwaitRender p). split; [apply lookup_insert_eq|].
    split; [reflexivity|].
    intros id' j' [[<- _]|[_ [Hne H]%lookup_delete_Some]]%lookup_insert_Some Hp';
      [reflexivity|].
    exfalso. apply Hne.
    rewrite (Huniq id' j' H Hp'). exact (Huniq id _ Hjob eq_refl).
Qed.

Lemma renderResolved_jobs p s :
  inflight (renderResolved p s) = inflight s
  /\ nextJob (renderResolved p s) = nextJob s
  /\ isRendering (renderResolved p s) = false.
Proof.
  destruct (renderResolved_frame p s) as (_ & _ & _ & Hi & Hb).
  split; [exact Hi|]. split; [|exact Hb].
  unfold renderResolved, commitSCORM, setSCORMValue.
  repeat match goal with
         | |- context [match scormAPI ?t with _ => _ end] => destruct (scormAPI t)
         | |- context [if ?c then _ else _] => destruct c
         end; reflexivity.
Qed.

Lemma oneAtATime_deliver ev s s' :
  isStart ev = false -> oneAtATime s -> deliver ev s = Some s' -> oneAtATime s'.
Proof.
  intros Hev Hinv Hd.
  destruct ev; try discriminate Hev; unfold deliver in Hd.
  - destruct (inflight s !! id) as [[]|] eqn:Hjob; try discriminate Hd.
    injection Hd as <-. unfold documentResolved.
    apply oneAtATime_renderPage.
    apply (oneAtATime_ext (settle id s)); [| | |apply oneAtATime_settle_other; assumption];
      destruct (parseInt _) as [l|]; try reflexivity;
      match goal with |- context [if ?c then _ else _] => destruct c end; reflexivity.
  - destruct (inflight s !! id) as [[]|] eqn:Hjob; try discriminate Hd.
    injection Hd as <-.
    apply (oneAtATime_ext (settle id s)); [reflexivity..|].
    apply oneAtATime_settle_other; assumption.
  - destruct (inflight s !! id) as [[]|] eqn:Hjob; try discriminate Hd.
    injection Hd as <-. apply oneAtATime_pageResolved; assumption.
  - destruct (inflight s !! id) as [[]|] eqn:Hjob; try discriminate Hd.
    injection Hd as <-.
    exact (oneAtATime_settle_render id _ s (renderFailed (settle id s)) Hjob eq_refl eq_refl eq_refl eq_refl Hinv).
  - destruct (inflight s !! id) as [[]|] eqn:Hjob; try discriminate Hd.
    injection Hd as <-.
    destruct (renderResolved_jobs pageNumber (settle id s)) as (Hi & Hn & Hb).
    exact (oneAtATime_settle_render id _ s _ Hjob eq_refl Hi Hn Hb Hinv).
  - destruct (inflight s !! id) as [[]|] eqn:Hjob; try discriminate Hd.
    injection Hd as <-.
    exact (oneAtATime_settle_render id _ s (renderFailed (settle id s)) Hjob eq_refl eq_refl eq_refl eq_refl Hinv).
  - injection Hd as <-. unfold next.
    destruct (negb (loaded s)); [exact Hinv|].
    destruct (currentPage s <? totalPages s); [|exact Hinv].
    apply oneAtATime_renderPage. exact Hinv.
  - injection Hd as <-. unfold prev.
    destruct (negb (loaded s)); [exact Hinv|].
    destruct (1 <? currentPage s); [|exact Hinv].
    apply oneAtATime_renderPage. exact Hinv.
  - injection Hd as <-.
    apply (oneAtATime_ext s); [| | |exact Hinv];
      unfold destroy, destroyPdfDoc; destruct (loaded s); reflexivity.
  - injection Hd as <-. unfold resize.
    destruct (loaded s && negb (currentPage s =? 0)); [|exact Hinv].
    apply oneAtATime_renderPage. exact Hinv.
  - injection Hd as <-.
    apply (oneAtATime_ext s); [| | |exact Hinv];
      unfold terminateSCORM; destruct (scormAPI s); reflexivity.
Qed.

Lemma oneAtATime_run evs : forall s s',
  forallb (fun ev => negb (isStart ev)) evs = true ->
  oneAtATime s -> run evs s = Some s' -> oneAtATime s'.
Proof.
  induction evs as [|ev evs IH]; intros s s' Hall Hinv Hrun.
  - injection Hrun as <-. exact Hinv.
  - cbn [forallb] in Hall. apply andb_true_iff in Hall as [Hev Hall].
    apply negb_true_iff in Hev.
    cbn [run] in Hrun. destruct (deliver ev s) as [s1|] eqn:E; [|discriminate].
    cbn [mbind option_bind] in Hrun.
    exact (IH s1 s' Hall (oneAtATime_deliver ev s s1 Hev Hinv E) Hrun).
Qed.

(** A call of [startViewerWithPdf] made while no promise of [renderPage]
    is pending. *)
Lemma oneAtATime_start pdfUrl found s :
  (forall id j, inflight s !! id = Some j -> (id < nextJob s)%nat) ->
  (forall id j, inflight s !! id = Some j -> renderPending j = false) ->
  isRendering s = false ->
  oneAtATime (startViewerWithPdf pdfUrl found s).
Proof.
  intros Hfresh Hnone Hbusy.
  assert (Hs : oneAtATime s) by (split; [exact Hfresh|left; auto]).
  unfold startViewerWithPdf.
  destruct pdfUrl as [url|]; [|exact Hs].
  destruct (String.eqb url EmptyString); [exact Hs|].
  assert (Hin : forall t, inflight (initSCORM found t) = inflight t
                          /\ nextJob (initSCORM found t) = nextJob t
                          /\ isRendering (initSCORM found t) = isRendering t)
    by (intros t; unfold initSCORM; destruct found as [[v api]|]; auto).
  unfold schedule, emit.
  match goal with |- context [initSCORM found ?t] =>
    destruct (Hin t) as (Hi & Hn & Hb); set (t1 := initSCORM found t) in * end.
  assert (Hi' : inflight t1 = inflight s)
    by (rewrite Hi; unfold destroyPdfDoc; destruct (loaded s); reflexivity).
  assert (Hn' : nextJob t1 = nextJob s)
    by (rewrite Hn; unfold destroyPdfDoc; destruct (loaded s); reflexivity).
  clearbody t1. cbn in Hb. split.
  - intros id j. cbn. rewrite Hi', Hn'.
    intros [[<- _]|[_ H]]%lookup_insert_Some; [lia|]. apply Hfresh in H. lia.
  - left. cbn. rewrite Hi', Hn'. split; [exact Hb|].
    intros id j [[_ <-]|[_ H]]%lookup_insert_Some; [reflexivity|].
    exact (Hnone id j H).
Qed.

(** X3. From the load of the script through one call of
    [startViewerWithPdf] and whatever follows it other than a second
    call (promises settling either way, navigation, resizes, the
    teardown): at most one promise of [renderPage] is pending,
    [isRendering] is true exactly when one is, and no identifier of a
    promise is reused. *)
Theorem one_render_at_a_time pdfUrl found evs s :
  forallb (fun ev => negb (isStart ev)) evs = true ->
  run (Start pdfUrl found :: evs) initial = Some s ->
  oneAtATime s.
Proof.
  intros Hall Hrun. cbn [run] in Hrun.
  change (deliver (Start pdfUrl found) initial)
    with (Some (startViewerWithPdf pdfUrl found initial)) in Hrun.
  cbn [mbind option_bind] in Hrun.
  apply (oneAtATime_run evs (startViewerWithPdf pdfUrl found initial) s Hall); [|exact Hrun].
  apply oneAtATime_start; [| |reflexivity];
    intros id j H; cbn in H; rewrite lookup_empty in H; discriminate H.
Qed.

(** *** Navigation while a render is in flight *)

Lemma run_app evs1 : forall evs2 s,
  run (evs1 ++ evs2) s = s1 ← run evs1 s; run evs2 s1.
Proof.
  induction evs1 as [|ev evs1 IH]; intros evs2 s; [reflexivity|].
  cbn [app run]. destruct (deliver ev s) as [s1|]; [|reflexivity].
  cbn [mbind option_bind]. apply IH.
Qed.

Lemma paging_busy ev s s' :
  isRendering s = true -> isPaging ev = true -> deliver ev s = Some s' ->
  isRendering s' = true /\ inflight s' = inflight s /\ nextJob s' = nextJob s
  /\ effects s' = effects s /\ visitedPages s' = visitedPages s
  /\ pdfDoc s' = pdfDoc s.
Proof.
  intros Hbusy Hev Hd.
  assert (Hr : forall p t, isRendering t = true -> renderPage p t = t)
    by (intros p t Ht; apply renderPage_suppressed; right; left; exact Ht).
  destruct ev; try discriminate Hev; injection Hd as <-.
  - unfold next. destruct (negb (loaded s)); [auto 10|].
    destruct (currentPage s <? totalPages s); [|auto 10].
    rewrite Hr by exact Hbusy. auto 10.
  - unfold prev. destruct (negb (loaded s)); [auto 10|].
    destruct (1 <? currentPage s); [|auto 10].
    rewrite Hr by exact Hbusy. auto 10.
  - unfold resize. destruct (loaded s && negb (currentPage s =? 0)); [|auto 10].
    rewrite Hr by exact Hbusy. auto 10.
Qed.

Lemma paging_busy_run evs : forall s s',
  isRendering s = true -> forallb isPaging evs = true -> run evs s = Some s' ->
  isRendering s' = true /\ inflight s' = inflight s /\ nextJob s' = nextJob s
  /\ effects s' = effects s /\ visitedPages s' = visitedPages s
  /\ pdfDoc s' = pdfDoc s.
Proof.
  induction evs as [|ev evs IH]; intros s s' Hbusy Hall Hrun.
  - injection Hrun as <-. auto 10.
  - cbn [forallb] in Hall. apply andb_true_iff in Hall as [Hev Hall].
    cbn [run] in Hrun. destruct (deliver ev s) as [s1|] eqn:E; [|discriminate].
    cbn [mbind option_bind] in Hrun.
    destruct (paging_busy ev s s1 Hbusy Hev E) as (H1 & H2 & H3 & H4 & H5 & H6).
    destruct (IH s1 s' H1 Hall Hrun) as (K1 & K2 & K3 & K4 & K5 & K6).
    rewrite K2, K3, K4, K5, K6. auto 10.
Qed.

(** X4. Calls of [next()], [prev()] and the resize listener that
    arrive while a render is in flight are not queued: they register no
    promise and request nothing, although [next()] has moved the page
    counter; and when the render in flight then settles, still no page
    has been fetched for them. *)
Theorem busy_navigation_is_dropped navs settlements s s' :
  isRendering s = true ->
  forallb isPaging navs = true ->
  forallb isSettlement settlements = true ->
  run (navs ++ settlements) s = Some s' ->
  (exists s1,
     run navs s = Some s1
     /\ inflight s1 = inflight s /\ effects s1 = effects s /\ isRendering s1 = true
     /\ run settlements s1 = Some s')
  /\ count isPageFetch s' = count isPageFetch s
  /\ (loaded s = true -> currentPage s < totalPages s ->
      currentPage (next s) = currentPage s + 1 /\ effects (next s) = effects s).
Proof.
  intros Hbusy Hnavs Hset Hrun. rewrite run_app in Hrun.
  destruct (run navs s) as [s1|] eqn:E; [|discriminate]. cbn [mbind option_bind] in Hrun.
  destruct (paging_busy_run navs s s1 Hbusy Hnavs E) as (H1 & H2 & _ & H4 & _).
  destruct (settlements_frame settlements s1 s' Hset Hrun) as (_ & _ & Hf).
  split; [exists s1; auto 10|]. split.
  - rewrite Hf. unfold count. rewrite H4. reflexivity.
  - intros Hdoc Hlt. rewrite next_loaded by exact Hdoc.
    apply Z.ltb_lt in Hlt. rewrite Hlt.
    rewrite renderPage_suppressed by (right; left; exact Hbusy). auto.
Qed.

(** *** The resize listener *)

(** X5. With a document loaded, no render in flight and the page
    counter at 1 or more, the resize listener asks for the current page
    again whatever page was rendered last: one page is fetched, also in
    the state a failed render leaves, in which [renderPage(currentPage)]
    returns at once. *)
Theorem resize_fetches_again s :
  loaded s = true -> isRendering s = false -> 1 <= currentPage s ->
  resize s
  = schedule (AwaitPage (currentPage s))
      (emit (GetPage (currentPage s))
         (set_isRendering true (set_currPage (currentPage s) s)))
  /\ count isPageFetch (resize s) = S (count isPageFetch s)
  /\ (currPage s = currentPage s ->
      renderPage (currentPage s) s = s
      /\ count isPageFetch (renderPage (currentPage s) s) = count isPageFetch s).
Proof.
  intros Hdoc Hbusy Hcur.
  assert (Hr : resize s
               = schedule (AwaitPage (currentPage s))
                   (emit (GetPage (currentPage s))
                      (set_isRendering true (set_currPage (currentPage s) s)))).
  { unfold resize. rewrite Hdoc.
    destruct (Z.eqb_spec (currentPage s) 0) as [|_]; [lia|]. cbn [negb andb].
    rewrite renderPage_fresh; [reflexivity|exact Hdoc|exact Hbusy|cbn; lia]. }
  split; [exact Hr|]. split.
  - rewrite Hr, count_schedule, count_emit. cbn [isPageFetch].
    change (count isPageFetch (set_isRendering true (set_currPage (currentPage s) s)))
      with (count isPageFetch s). lia.
  - intros Heq.
    assert (Hn : renderPage (currentPage s) s = s)
      by (apply renderPage_suppressed; right; right; exact Heq).
    rewrite Hn. auto.
Qed.

(** *** After the teardown *)

Lemma destroyed_paging ev s :
  pdfDoc s = None -> isNavigation ev = true ->
  exists s', deliver ev s = Some s'
             /\ pdfDoc s' = None /\ inflight s' = inflight s
             /\ count isPageFetch s' = count isPageFetch s
             /\ count isDestroyDocument s' = count isDestroyDocument s.
Proof.
  intros Hdoc Hev.
  destruct ev; try discriminate Hev; eexists; (split; [reflexivity|]).
  - rewrite next_unloaded by exact Hdoc. auto.
  - rewrite prev_unloaded by exact Hdoc. auto.
  - unfold destroy, destroyPdfDoc, clearCanvas, loaded. rewrite Hdoc.
    rewrite !count_emit. cbn [isPageFetch isDestroyDocument].
    rewrite !Nat.add_0_r. auto.
  - unfold resize, loaded. rewrite Hdoc. auto.
Qed.

(** X6. [playerViewer.destroy()] releases the document it finds,
    once; whatever calls of [next()], [prev()], [destroy()] and the
    resize listener follow, no document is loaded, no page is fetched
    and nothing is released a second time. *)
Theorem destroy_is_final evs : forall s s',
  forallb isNavigation evs = true ->
  run (Destroy :: evs) s = Some s' ->
  pdfDoc s' = None
  /\ count isPageFetch s' = count isPageFetch s
  /\ count isDestroyDocument s'
     = (count isDestroyDocument s + if loaded s then 1 else 0)%nat.
Proof.
  intros s s' Hall Hrun. cbn [run] in Hrun.
  change (deliver Destroy s) with (Some (destroy s)) in Hrun.
  cbn [mbind option_bind] in Hrun.
  assert (H0 : pdfDoc (destroy s) = None
               /\ count isPageFetch (destroy s) = count isPageFetch s
               /\ count isDestroyDocument (destroy s)
                  = (count isDestroyDocument s + if loaded s then 1 else 0)%nat).
  { unfold destroy, destroyPdfDoc, clearCanvas.
    destruct (loaded s); rewrite !count_emit;
      change (count isPageFetch (set_pdfDoc None ?t)) with (count isPageFetch t);
      change (count isDestroyDocument (set_pdfDoc None ?t)) with (count isDestroyDocument t);
      rewrite ?count_emit; cbn [isPageFetch isDestroyDocument];
      (split; [reflexivity|split; lia]). }
  revert Hrun H0. generalize (destroy s) as t.
  induction evs as [|ev evs IH]; intros t Hrun H0.
  - injection Hrun as <-. exact H0.
  - cbn [forallb] in Hall. apply andb_true_iff in Hall as [Hev Hall].
    destruct H0 as (Hd & Hf & Hr).
    destruct (destroyed_paging ev t Hd Hev) as (t' & Ht & Hd' & _ & Hf' & Hr').
    cbn [run] in Hrun. rewrite Ht in Hrun. cbn [mbind option_bind] in Hrun.
    apply (IH Hall t' Hrun). rewrite Hd', Hf', Hr'. auto.
Qed.

(** *** A load that has been superseded *)

Lemma documentResolved_frame pdf s :
  pdfDoc (documentResolved pdf s) = Some pdf
  /\ totalPages (documentResolved pdf s) = Z.of_nat (numPages pdf)
  /\ lastPdfUrl (documentResolved pdf s) = lastPdfUrl s
  /\ count isDestroyDocument (documentResolved pdf s) = count isDestroyDocument s
  /\ (forall id, id <> nextJob s ->
                 inflight (documentResolved pdf s) !! id = inflight s !! id)
  /\ (nextJob s <= nextJob (documentResolved pdf s))%nat.
Proof.
  unfold documentResolved.
  set (t := match parseInt _ with Some l => _ | None => _ end).
  assert (Ht : pdfDoc t = Some pdf /\ totalPages t = Z.of_nat (numPages pdf)
               /\ lastPdfUrl t = lastPdfUrl s /\ effects t = effects s
               /\ inflight t = inflight s /\ nextJob t = nextJob s).
  { subst t. destruct (parseInt _) as [l|]; [|auto 10].
    match goal with |- context [if ?c then _ else _] => destruct c end; auto 10. }
  destruct Ht as (H1 & H2 & H3 & H4 & H5 & H6). clearbody t.
  rewrite pdfDoc_renderPage, totalPages_renderPage.
  split; [exact H1|]. split; [exact H2|].
  unfold renderPage.
  destruct (negb (loaded t) || isRendering t);
    [rewrite H3, H5, H6; unfold count; rewrite H4; auto 10|].
  destruct (currPage t =? currentPage t);
    [rewrite H3, H5, H6; unfold count; rewrite H4; auto 10|].
  split; [exact H3|]. split.
  - rewrite count_schedule, count_emit. cbn [isDestroyDocument].
    unfold count. cbn. rewrite H4. lia.
  - split.
    + intros id Hid. cbn. rewrite H6, H5. apply lookup_insert_ne. congruence.
    + cbn. lia.
Qed.

Lemma deliver_Start pdfUrl found s :
  deliver (Start pdfUrl found) s = Some (startViewerWithPdf pdfUrl found s).
Proof. reflexivity. Qed.

(** A document arrives: what changes and what does not. *)
Lemma documentResolved_settle pdf id s :
  pdfDoc (documentResolved pdf (settle id s)) = Some pdf
  /\ totalPages (documentResolved pdf (settle id s)) = Z.of_nat (numPages pdf)
  /\ lastPdfUrl (documentResolved pdf (settle id s)) = lastPdfUrl s
  /\ count isDestroyDocument (documentResolved pdf (settle id s))
     = count isDestroyDocument s
  /\ (forall id', id' <> nextJob s -> id' <> id ->
                  inflight (documentResolved pdf (settle id s)) !! id' = inflight s !! id').
Proof.
  destruct (documentResolved_frame pdf (settle id s)) as (H1 & H2 & H3 & H4 & H5 & _).
  split; [exact H1|]. split; [exact H2|]. split; [exact H3|]. split; [exact H4|].
  intros id' Hn Hid. rewrite (H5 id' Hn). cbn. apply lookup_delete_ne. congruence.
Qed.

Lemma count_startViewerWithPdf url found s :
  url <> EmptyString ->
  count isDestroyDocument (startViewerWithPdf (Some url) found s)
  = (count isDestroyDocument s + if loaded s then 1 else 0)%nat.
Proof.
  intros Hurl.
  destruct (startViewerWithPdf_valid url found s Hurl)
    as (_ & _ & _ & _ & _ & _ & _ & _ & _ & _ & _ & He).
  cbv zeta in He. unfold count. rewrite He. unfold destroyPdfDoc.
  destruct (loaded s); cbn [effects set_pdfDoc emit set_effects];
    rewrite !List.filter_app, !List.length_app; cbn; lia.
Qed.

Lemma run_two_loads urlA urlB foundA foundB pdfA pdfB s s1 s2 s3 :
  s1 = startViewerWithPdf (Some urlA) foundA s ->
  s2 = startViewerWithPdf (Some urlB) foundB s1 ->
  inflight s2 !! S (nextJob s) = Some AwaitDocument ->
  s3 = documentResolved pdfB (settle (S (nextJob s)) s2) ->
  inflight s3 !! nextJob s = Some AwaitDocument ->
  run [Start (Some urlA) foundA; Start (Some urlB) foundB;
       DocumentResolved (S (nextJob s)) pdfB; DocumentResolved (nextJob s) pdfA] s
  = Some (documentResolved pdfA (settle (nextJob s) s3)).
Proof.
  intros E1 E2 Hj2 E3 Hj3.
  change (run [Start (Some urlA) foundA; Start (Some urlB) foundB;
               DocumentResolved (S (nextJob s)) pdfB; DocumentResolved (nextJob s) pdfA] s)
    with (t1 ← deliver (Start (Some urlA) foundA) s;
          t2 ← deliver (Start (Some urlB) foundB) t1;
          t3 ← deliver (DocumentResolved (S (nextJob s)) pdfB) t2;
          t4 ← deliver (DocumentResolved (nextJob s) pdfA) t3; Some t4).
  rewrite deliver_Start, <- E1. cbn [mbind option_bind].
  rewrite deliver_Start, <- E2. cbn [mbind option_bind].
  rewrite (deliver_DocumentResolved _ pdfB s2 Hj2), <- E3. cbn [mbind option_bind].
  rewrite (deliver_DocumentResolved _ pdfA s3 Hj3). reflexivity.
Qed.

(** X12. A second call of [startViewerWithPdf] does not cancel
    the load the first call has started. When the first document arrives
    after the second, it replaces it: the engine ends with the document
    of the first call while [lastPdfUrl] names the second, and the
    document it replaces is not released. *)
Theorem superseded_load_wins urlA urlB foundA foundB pdfA pdfB s :
  urlA <> EmptyString -> urlB <> EmptyString ->
  exists s',
    run [Start (Some urlA) foundA; Start (Some urlB) foundB;
         DocumentResolved (S (nextJob s)) pdfB; DocumentResolved (nextJob s) pdfA] s
    = Some s'
    /\ pdfDoc s' = Some pdfA
    /\ totalPages s' = Z.of_nat (numPages pdfA)
    /\ lastPdfUrl s' = Some urlB
    /\ count isDestroyDocument s'
       = (count isDestroyDocument s + if loaded s then 1 else 0)%nat.
Proof.
  intros HA HB.
  pose proof (count_startViewerWithPdf urlA foundA s HA) as Hc1.
  destruct (startViewerWithPdf_valid urlA foundA s HA)
    as (Hd1 & _ & _ & _ & _ & _ & _ & _ & _ & Hi1 & Hn1 & _).
  cbv zeta in Hd1, Hi1, Hn1.
  remember (startViewerWithPdf (Some urlA) foundA s) as s1 eqn:E1.
  pose proof (count_startViewerWithPdf urlB foundB s1 HB) as Hc2.
  destruct (startViewerWithPdf_valid urlB foundB s1 HB)
    as (_ & _ & _ & _ & _ & _ & Hl2 & _ & _ & Hi2 & Hn2 & _).
  cbv zeta in Hl2, Hi2, Hn2.
  remember (startViewerWithPdf (Some urlB) foundB s1) as s2 eqn:E2.
  assert (Hj2 : inflight s2 !! S (nextJob s) = Some AwaitDocument)
    by (rewrite Hi2, Hn1; apply lookup_insert_eq).
  destruct (documentResolved_settle pdfB (S (nextJob s)) s2) as (_ & _ & Hl3 & Hc3 & Hi3).
  remember (documentResolved pdfB (settle (S (nextJob s)) s2)) as s3 eqn:E3.
  assert (Hj3 : inflight s3 !! nextJob s = Some AwaitDocument).
  { rewrite Hi3 by (rewrite ?Hn2, ?Hn1; lia).
    rewrite Hi2, Hn1, lookup_insert_ne by lia.
    rewrite Hi1. apply lookup_insert_eq. }
  destruct (documentResolved_settle pdfA (nextJob s) s3) as (Hd4 & Ht4 & Hl4 & Hc4 & _).
  exists (documentResolved pdfA (settle (nextJob s) s3)).
  split; [|split; [exact Hd4|split; [exact Ht4|split]]].
  - exact (run_two_loads urlA urlB foundA foundB pdfA pdfB s s1 s2 s3 E1 E2 Hj2 E3 Hj3).
  - rewrite Hl4, Hl3. exact Hl2.
  - assert (Hf : loaded s1 = false) by (unfold loaded; rewrite Hd1; reflexivity).
    rewrite Hc4, Hc3, Hc2, Hc1, Hf. lia.
Qed.

End ViewerSessions.

(** ** The search for the SCORM API *)

Section FrameSearch.
Import Viewer Frames.

Lemma search_offers ancestors win n r :
  offers win = Some r -> search ancestors win n = Some r.
Proof.
  destruct win as [[a|] [a'|]|]; try discriminate; destruct ancestors; auto.
Qed.

Lemma search_found ancestors : forall win n r,
  search ancestors win n = Some r ->
  exists k w, (k <= n)%nat
              /\ (forall j, (j < k)%nat -> (win :: ancestors) !! j = Some (SameOrigin None None))
              /\ (win :: ancestors) !! k = Some w /\ offers w = Some r.
Proof.
  induction ancestors as [|parent rest IH]; intros win n r H.
  - exists 0%nat, win. split; [lia|]. split; [intros j Hj; lia|]. split; [reflexivity|].
    destruct win as [[a|] [a'|]|]; try discriminate H; exact H.
  - destruct win as [[a|] [a'|]|]; try discriminate H.
    + exists 0%nat, (SameOrigin (Some a) (Some a')).
      split; [lia|]. split; [intros j Hj; lia|]. auto.
    + exists 0%nat, (SameOrigin (Some a) None).
      split; [lia|]. split; [intros j Hj; lia|]. auto.
    + exists 0%nat, (SameOrigin None (Some a')).
      split; [lia|]. split; [intros j Hj; lia|]. auto.
    + destruct n as [|n]; [discriminate H|]. cbn [search] in H.
      destruct (IH parent n r H) as (k & w & Hk & Hbefore & Hw & Ho).
      exists (S k), w. split; [lia|]. split; [|auto].
      intros [|j] Hj; [reflexivity|]. apply Hbefore. lia.
Qed.

Lemma search_complete k : forall ancestors win n w r,
  (k <= n)%nat ->
  (forall j, (j < k)%nat -> (win :: ancestors) !! j = Some (SameOrigin None None)) ->
  (win :: ancestors) !! k = Some w -> offers w = Some r ->
  search ancestors win n = Some r.
Proof.
  induction k as [|k IH]; intros ancestors win n w r Hk Hbefore Hw Ho.
  - injection Hw as <-. apply search_offers, Ho.
  - pose proof (Hbefore 0%nat ltac:(lia)) as H0. injection H0 as ->.
    destruct ancestors as [|parent rest]; [discriminate Hw|].
    destruct n as [|n]; [lia|]. cbn [search].
    apply (IH rest parent n w r); [lia| |exact Hw|exact Ho].
    intros j Hj. apply (Hbefore (S j)). lia.
Qed.

(** X13. [findAPI] returns the API of the nearest window, counted from
    the window of the player up through its parents, that has [API] or
    [API_1484_11], with [API] (SCORM 1.2) first when a window has both;
    it does so exactly when that window is at most 500 parents up and
    every window before it can be read and has neither. In every other
    case (no window has an API, the API is further up, a window of
    another origin comes first) it returns [null]. *)
Theorem findAPI_nearest win ancestors r :
  findAPI win ancestors = Some r
  <-> exists k w,
        (k <= 500)%nat
        /\ (forall j, (j < k)%nat -> (win :: ancestors) !! j = Some (SameOrigin None None))
        /\ (win :: ancestors) !! k = Some w
        /\ offers w = Some r.
Proof.
  unfold findAPI. split.
  - apply search_found.
  - intros (k & w & Hk & Hbefore & Hw & Ho).
    exact (search_complete k ancestors win maxAttempts w r Hk Hbefore Hw Ho).
Qed.

End FrameSearch.

(** ** The progress string, whatever the LMS holds *)

Section ProgressString.
Import Viewer.

Lemma list_ascii_of_string_lookup s : forall i,
  list_ascii_of_string s !! i = String.get i s.
Proof.
  induction s as [|c s IH]; intros [|i]; try reflexivity. apply IH.
Qed.

Lemma list_ascii_of_string_length s :
  length (list_ascii_of_string s) = String.length s.
Proof. induction s as [|c s IH]; [reflexivity|]. cbn. rewrite IH. reflexivity. Qed.

(** X10. Whatever string the LMS holds, the bitmap a load starts
    from has one element for each page and no hole; page [i + 1] is
    marked exactly when the string has as many characters as the
    document has pages and its character [i] is ["1"]. Every other
    character reads as not visited. *)
Theorem decodeVisited_total suspend n :
  length (decodeVisited suspend n) = n
  /\ forall i, (i < n)%nat ->
       decodeVisited suspend n !! i
       = Some (Some (bool_decide (String.length suspend = n
                                  /\ String.get i suspend = Some "1"%char))).
Proof.
  unfold decodeVisited.
  destruct (Nat.eqb_spec (String.length suspend) n) as [Hlen|Hlen].
  - destruct suspend as [|c0 rest0] eqn:Es.
    + cbn in Hlen. subst n. cbn. split; [reflexivity|]. intros i Hi. lia.
    + rewrite <- Es in *. assert (Hne : String.eqb suspend EmptyString = false)
        by (rewrite Es; reflexivity).
      rewrite Hne. cbn [negb andb]. split.
      * rewrite length_map, list_ascii_of_string_length. exact Hlen.
      * intros i Hi. 
        rewrite (list_lookup_fmap (fun c => Some (Ascii.eqb c "1"%char))).
        rewrite list_ascii_of_string_lookup.
        destruct (String.get i suspend) as [c|] eqn:Ec.
        -- cbn. f_equal. f_equal.
           destruct (Ascii.eqb_spec c "1"%char) as [->|Hc].
           ++ symmetry. apply bool_decide_eq_true. auto.
           ++ symmetry. apply bool_decide_eq_false. intros [_ [= E]]. auto.
        -- exfalso. clear Es Hne.
           assert (Hnone : forall s j, String.get j s = None -> (String.length s <= j)%nat).
           { clear. induction s as [|c s IH]; intros [|j] H; cbn in *; try lia; try discriminate.
             apply IH in H. lia. }
           apply Hnone in Ec. lia.
  - rewrite andb_false_r. split; [apply length_replicate|].
    intros i Hi. rewrite lookup_replicate_2 by exact Hi.
    f_equal. f_equal. symmetry. apply bool_decide_eq_false. intros [E _]. auto.
Qed.

End ProgressString.

(** ** The archive of [POST /package] *)

Section PackageArchive.
Import JS Server Package.

Lemma stripPrefix_Some p : forall k rest,
  stripPrefix p k = Some rest <-> k = p +:+ rest.
Proof.
  induction p as [|a p IH]; intros k rest.
  - cbn. rewrite append_nil. split; [intros [= ->]; reflexivity|intros ->; reflexivity].
  - destruct k as [|b k]; cbn [stripPrefix]; rewrite append_cons.
    + split; discriminate.
    + destruct (Ascii.eqb_spec a b) as [->|Hne].
      * rewrite IH. split; [intros ->; reflexivity|intros [= ->]; reflexivity].
      * split; [discriminate|intros [= E _]; congruence].
Qed.

Lemma append_inj_l p : forall s t, p +:+ s = p +:+ t -> s = t.
Proof.
  induction p as [|a p IH]; intros s t H; [exact H|].
  rewrite !append_cons in H. injection H as H. apply IH, H.
Qed.

(** [existsSync]: the path is a file, or a file lies below it. *)
Lemma existsSync_true dir p :
  existsSync dir p = true
  <-> is_Some (dir !! p) \/ exists rest c, dir !! (p +:+ "/" +:+ rest) = Some c.
Proof.
  unfold existsSync. rewrite orb_true_iff, !bool_decide_eq_true.
  apply or_iff_compat_l. rewrite Exists_exists. split.
  - intros (k & Hin & [rest Hk]).
    apply stripPrefix_Some in Hk. rewrite append_assoc in Hk. subst k.
    apply list_elem_of_fmap in Hin as ([k' c] & Hk & Hin). cbn in Hk. subst k'.
    apply elem_of_map_to_list in Hin. exists rest, c. exact Hin.
  - intros (rest & c & H). exists (p +:+ "/" +:+ rest). split.
    + apply list_elem_of_fmap. exists (p +:+ "/" +:+ rest, c). split; [reflexivity|].
      apply elem_of_map_to_list. exact H.
    + exists rest. apply stripPrefix_Some. rewrite append_assoc. reflexivity.
Qed.

Lemma existsSync_insert dir k v p :
  existsSync dir p = true -> existsSync (<[k := v]> dir) p = true.
Proof.
  rewrite !existsSync_true. intros [H|(rest & c & H)].
  - left. apply lookup_insert_is_Some'. right. exact H.
  - right. destruct (decide (k = p +:+ "/" +:+ rest)) as [->|Hne].
    + exists rest, v. apply lookup_insert_eq.
    + exists rest, c. rewrite lookup_insert_ne by exact Hne. exact H.
Qed.

Lemma existsSync_lookup dir p c : dir !! p = Some c -> existsSync dir p = true.
Proof. intros H. apply existsSync_true. left. eexists; exact H. Qed.

(** What a copy writes comes from the source, at the same place below
    the destination; the rest of the staging directory is untouched. *)
Lemma copyRecursive_lookup from src dst to k c :
  copyRecursive from src dst to !! k = Some c ->
  to !! k = Some c
  \/ (k = dst /\ from !! src = Some c)
  \/ exists rest, k = dst +:+ "/" +:+ rest /\ from !! (src +:+ "/" +:+ rest) = Some c.
Proof.
  unfold copyRecursive. destruct (from !! src) as [content|] eqn:Esrc.
  - intros [[<- <-]|[_ H]]%lookup_insert_Some; [right; left; auto|left; exact H].
  - revert k c.
    apply (map_fold_weak_ind
             (fun r m => forall k c, r !! k = Some c ->
                 to !! k = Some c
                 \/ (k = dst /\ None = Some c)
                 \/ exists rest, k = dst +:+ "/" +:+ rest
                                 /\ m !! (src +:+ "/" +:+ rest) = Some c)).
    + intros k c H. left. exact H.
    + intros i x m r Hi IH k c H.
      assert (Hold : r !! k = Some c ->
                to !! k = Some c
                \/ (k = dst /\ None = Some c)
                \/ exists rest, k = dst +:+ "/" +:+ rest
                                /\ <[i := x]> m !! (src +:+ "/" +:+ rest) = Some c).
      { intros Hr. destruct (IH k c Hr) as [H1|[H1|(rest & -> & H1)]]; auto.
        right; right. exists rest. split; [reflexivity|].
        rewrite lookup_insert_ne by (intros ->; congruence). exact H1. }
      destruct (stripPrefix (src +:+ "/") i) as [rest|] eqn:E; [|exact (Hold H)].
      apply lookup_insert_Some in H as [[<- <-]|[_ H]]; [|exact (Hold H)].
      right; right. exists rest. split; [reflexivity|].
      apply stripPrefix_Some in E. rewrite append_assoc in E. rewrite <- E.
      apply lookup_insert_eq.
Qed.

(** A copy of a directory brings every file below it. *)
Lemma copyRecursive_directory from src dst to rest c :
  from !! src = None ->
  from !! (src +:+ "/" +:+ rest) = Some c ->
  copyRecursive from src dst to !! (dst +:+ "/" +:+ rest) = Some c.
Proof.
  intros Esrc. unfold copyRecursive. rewrite Esrc. revert rest c.
  apply (map_fold_weak_ind
           (fun r m => forall rest c, m !! (src +:+ "/" +:+ rest) = Some c ->
                                      r !! (dst +:+ "/" +:+ rest) = Some c)).
  - intros rest c H. rewrite lookup_empty in H. discriminate H.
  - intros i x m r Hi IH rest c H.
    apply lookup_insert_Some in H as [[-> <-]|[Hne H]].
    + assert (E : stripPrefix (src +:+ "/") (src +:+ "/" +:+ rest) = Some rest)
        by (apply stripPrefix_Some; rewrite append_assoc; reflexivity).
      rewrite E. apply lookup_insert_eq.
    + specialize (IH rest c H).
      destruct (stripPrefix (src +:+ "/") i) as [rest'|] eqn:E; [|exact IH].
      apply stripPrefix_Some in E. rewrite append_assoc in E.
      rewrite lookup_insert_ne; [exact IH|].
      intros Heq. apply append_inj_l in Heq. apply append_inj_l in Heq.
      apply Hne. rewrite E, Heq. reflexivity.
Qed.

(** A copy leaves alone what is neither the destination nor below it. *)
Lemma copyRecursive_other from src dst to k :
  k <> dst -> (forall rest, k <> dst +:+ "/" +:+ rest) ->
  copyRecursive from src dst to !! k = to !! k.
Proof.
  intros Hk Hbelow. unfold copyRecursive.
  destruct (from !! src) as [content|]; [apply lookup_insert_ne; congruence|].
  apply (map_fold_weak_ind (fun r (_ : gmap string string) => r !! k = to !! k));
    [reflexivity|].
  intros i x m r _ IH.
  destruct (stripPrefix (src +:+ "/") i) as [rest|]; [|exact IH].
  rewrite lookup_insert_ne; [exact IH|]. intros E. exact (Hbelow rest (eq_sym E)).
Qed.

Lemma copyRecursive_file from src dst to c :
  from !! src = Some c -> copyRecursive from src dst to !! dst = Some c.
Proof. intros H. unfold copyRecursive. rewrite H. apply lookup_insert_eq. Qed.

(** The four steps of the loop. *)
Lemma copyAssets_steps public :
  copyAssets public
  = let step dir t := if existsSync public t then copyRecursive public t t dir else dir in
    step (step (step (step ∅ "player.html") "index_lms.html") "css") "js".
Proof. reflexivity. Qed.

(** Every staged asset is a shipped file, at the same path, and the
    path is one the loop reaches. *)
Lemma copyAssets_origin public k c :
  copyAssets public !! k = Some c -> public !! k = Some c /\ reached k.
Proof.
  rewrite copyAssets_steps. cbv beta zeta.
  assert (Hstep : forall t dir,
            t ∈ copyTargets ->
            (forall k c, dir !! k = Some c -> public !! k = Some c /\ reached k) ->
            forall k c,
              (if existsSync public t then copyRecursive public t t dir else dir) !! k = Some c ->
              public !! k = Some c /\ reached k).
  { intros t dir Ht Hdir k' c' H. destruct (existsSync public t); [|exact (Hdir k' c' H)].
    apply copyRecursive_lookup in H as [H|[[-> H]|(rest & -> & H)]]; [auto| |].
    - split; [exact H|]. exists t. auto.
    - split; [exact H|]. exists t. split; [exact Ht|]. right. exists rest. reflexivity. }
  revert k c.
  apply Hstep; [unfold copyTargets; rewrite !elem_of_cons; auto 10|].
  apply Hstep; [unfold copyTargets; rewrite !elem_of_cons; auto 10|].
  apply Hstep; [unfold copyTargets; rewrite !elem_of_cons; auto 10|].
  apply Hstep; [unfold copyTargets; rewrite !elem_of_cons; auto 10|].
  intros k c H. rewrite lookup_empty in H. discriminate H.
Qed.

(** Every shipped page, style sheet and script is staged as it is. *)
Lemma copyAssets_shipped public p c :
  shipped public p -> public !! p = Some c -> copyAssets public !! p = Some c.
Proof.
  intros Hp Hc. rewrite copyAssets_steps. cbv beta zeta.
  destruct Hp as [->|[->|[[Hdir [rest ->]]|[Hdir [rest ->]]]]].
  - rewrite (existsSync_lookup public "player.html" c Hc).
    match goal with |- context [if ?b then _ else _] => destruct b end;
      [rewrite copyRecursive_other by names|];
      (match goal with |- context [if ?b then _ else _] => destruct b end;
       [rewrite copyRecursive_other by names|]);
      (match goal with |- context [if ?b then _ else _] => destruct b end;
       [rewrite copyRecursive_other by names|]);
      apply copyRecursive_file, Hc.
  - rewrite (existsSync_lookup public "index_lms.html" c Hc).
    match goal with |- context [if ?b then _ else _] => destruct b end;
      [rewrite copyRecursive_other by names|];
      (match goal with |- context [if ?b then _ else _] => destruct b end;
       [rewrite copyRecursive_other by names|]);
      apply copyRecursive_file, Hc.
  - assert (He : existsSync public "css" = true).
    { apply existsSync_true. right. exists rest, c.
      rewrite <- Hc. f_equal. }
    rewrite He.
    match goal with |- context [if ?b then _ else _] => destruct b end;
      [rewrite copyRecursive_other by names|];
      change ("css/" +:+ rest) with ("css" +:+ "/" +:+ rest);
      apply copyRecursive_directory; assumption.
  - assert (He : existsSync public "js" = true).
    { apply existsSync_true. right. exists rest, c.
      rewrite <- Hc. f_equal. }
    rewrite He.
    change ("js/" +:+ rest) with ("js" +:+ "/" +:+ rest);
      apply copyRecursive_directory; assumption.
Qed.

(** The body of the [try] block when the download and [generateConfigJS]
    succeed. *)
Lemma stagePackage_Ok h pdfUrl config content configJS :
  download (fetch h pdfUrl) = Ok content ->
  generateConfigJS (or config (Obj ∅)) pdfFilename = Ok configJS ->
  stagePackage h pdfUrl config
  = Ok (<["imsmanifest.xml" :=
            generateManifest ("pkg_" +:+ uuidv4 h) (manifestTitle config) "index_lms.html"
              (resourceFiles (staged (publicDir h) content configJS))]>
          (staged (publicDir h) content configJS)).
Proof.
  intros Hd Hc. unfold stagePackage. rewrite Hd.
  unfold mbind, result_bind, mret, result_ret. cbn [bind]. rewrite Hc. cbn [bind].
  reflexivity.
Qed.

Lemma stagePackage_inv h pdfUrl config dir :
  stagePackage h pdfUrl config = Ok dir ->
  exists content configJS,
    download (fetch h pdfUrl) = Ok content
    /\ generateConfigJS (or config (Obj ∅)) pdfFilename = Ok configJS
    /\ dir = <["imsmanifest.xml" :=
                generateManifest ("pkg_" +:+ uuidv4 h) (manifestTitle config) "index_lms.html"
                  (resourceFiles (staged (publicDir h) content configJS))]>
              (staged (publicDir h) content configJS).
Proof.
  intros H.
  destruct (download (fetch h pdfUrl)) as [content|e] eqn:Hd;
    [|unfold stagePackage in H; rewrite Hd in H; discriminate H].
  destruct (generateConfigJS (or config (Obj ∅)) pdfFilename) as [configJS|e] eqn:Hc;
    [|unfold stagePackage in H; rewrite Hd in H;
      unfold mbind, result_bind in H; cbn [bind] in H; rewrite Hc in H; discriminate H].
  rewrite (stagePackage_Ok h pdfUrl config content configJS Hd Hc) in H.
  injection H as <-. exists content, configJS. auto.
Qed.

Lemma get_or_empty config k : get (or config (Obj ∅)) k = get config k.
Proof.
  unfold or. destruct (toBoolean config) eqn:E; [reflexivity|].
  destruct config; try discriminate; reflexivity.
Qed.

(** The files the handler writes itself. *)
Lemma staged_generated public content configJS :
  staged public content configJS !! "data/content.pdf" = Some content
  /\ staged public content configJS !! "Config.js" = Some configJS
  /\ existsSync (staged public content configJS) "index_lms.html" = true.
Proof.
  unfold staged. cbv zeta.
  destruct (existsSync _ "index_lms.html") eqn:E.
  - split; [|split; [|exact E]].
    + rewrite lookup_insert_ne by names. apply lookup_insert_eq.
    + apply lookup_insert_eq.
  - split; [|split].
    + rewrite lookup_insert_ne by names. rewrite lookup_insert_ne by names.
      apply lookup_insert_eq.
    + rewrite lookup_insert_ne by names. apply lookup_insert_eq.
    + apply (existsSync_lookup _ _ indexLmsFallback), lookup_insert_eq.
Qed.

Lemma copyAssets_index public :
  existsSync public "index_lms.html" = true ->
  existsSync (copyAssets public) "index_lms.html" = true.
Proof.
  intros He.
  destruct (public !! "index_lms.html") as [c|] eqn:Hfile.
  - apply (existsSync_lookup _ _ c), copyAssets_shipped; [right; left; reflexivity|exact Hfile].
  - pose proof He as Hb.
    apply existsSync_true in Hb as [[c Hc]|(rest & c & Hc)]; [congruence|].
    apply existsSync_true. right. exists rest, c.
    rewrite copyAssets_steps. cbv beta zeta. rewrite He.
    match goal with |- context [if ?b then _ else _] => destruct b end;
      [rewrite copyRecursive_other by names|];
      (match goal with |- context [if ?b then _ else _] => destruct b end;
       [rewrite copyRecursive_other by names|]);
      apply copyRecursive_directory; assumption.
Qed.

(** Where a staged file comes from. *)
Lemma staged_origin public content configJS k c :
  staged public content configJS !! k = Some c ->
  k = "data/content.pdf" \/ k = "Config.js"
  \/ (k = "index_lms.html" /\ c = indexLmsFallback
      /\ existsSync public "index_lms.html" = false)
  \/ (public !! k = Some c /\ reached k).
Proof.
  unfold staged. cbv zeta. intros H.
  assert (Hbase : forall k c,
            <["Config.js" := configJS]>
              (<["data/" +:+ pdfFilename := content]> (copyAssets public)) !! k = Some c ->
            k = "data/content.pdf" \/ k = "Config.js"
            \/ (public !! k = Some c /\ reached k)).
  { intros k' c' [[<- _]|[_ [[<- _]|[_ H']]%lookup_insert_Some]]%lookup_insert_Some; auto.
    right; right. apply copyAssets_origin, H'. }
  destruct (existsSync _ "index_lms.html") eqn:E.
  - destruct (Hbase k c H) as [?|[?|?]]; auto.
  - apply lookup_insert_Some in H as [[<- <-]|[_ H]].
    + right; right; left. split; [reflexivity|]. split; [reflexivity|].
      destruct (existsSync public "index_lms.html") eqn:Ep; [|reflexivity].
      rewrite <- E. symmetry. do 2 apply existsSync_insert.
      apply copyAssets_index, Ep.
    + destruct (Hbase k c H) as [?|[?|?]]; auto.
Qed.

Lemma postPackage_Ok h reqBody dir :
  toBoolean (get reqBody "pdfUrl") = true ->
  stagePackage h (get reqBody "pdfUrl") (get reqBody "config") = Ok dir ->
  postPackage h reqBody
  = {| status := 200; headers := zipHeaders; body := Archive dir;
       cleanupAfterMs := Some 300000 |}.
Proof.
  intros Hurl Hs. unfold postPackage.
  destruct reqBody; try discriminate Hurl.
  rewrite Hurl, Hs. reflexivity.
Qed.

(** X15. A package request with a [pdfUrl] whose download succeeds
    and a title that is a string or absent is answered with status 200,
    the two headers of a zip attachment and a cleanup after five
    minutes. The archive holds the downloaded bytes as
    [data/content.pdf], the generated [Config.js] and the manifest as
    [imsmanifest.xml]; the launch file [index_lms.html] the manifest
    names is in it, the shipped one when [public/] has it and the
    generated page otherwise. *)
Theorem postPackage_archive h reqBody content :
  toBoolean (get reqBody "pdfUrl") = true ->
  download (fetch h (get reqBody "pdfUrl")) = Ok content ->
  toBoolean (get (get reqBody "config") "title") = false
    \/ (exists t, get (get reqBody "config") "title" = Str t) ->
  exists configJS dir files,
    generateConfigJS (or (get reqBody "config") (Obj ∅)) pdfFilename = Ok configJS
    /\ postPackage h reqBody
       = {| status := 200; headers := zipHeaders; body := Archive dir;
            cleanupAfterMs := Some (5 * 60 * 1000) |}
    /\ dir !! "data/content.pdf" = Some content
    /\ dir !! "Config.js" = Some configJS
    /\ dir !! "imsmanifest.xml"
       = Some (generateManifest ("pkg_" +:+ uuidv4 h)
                 (manifestTitle (get reqBody "config")) "index_lms.html" files)
    /\ existsSync dir "index_lms.html" = true
    /\ (forall c, publicDir h !! "index_lms.html" = Some c ->
                  dir !! "index_lms.html" = Some c)
    /\ (existsSync (publicDir h) "index_lms.html" = false ->
        dir !! "index_lms.html" = Some indexLmsFallback).
Proof.
  intros Hurl Hd Htitle.
  assert (Ht : exists t, configTitle (or (get reqBody "config") (Obj ∅)) = Ok t)
    by (apply configTitle_Ok; rewrite get_or_empty; exact Htitle).
  destruct Ht as [t Ht].
  assert (Hc : exists configJS,
             generateConfigJS (or (get reqBody "config") (Obj ∅)) pdfFilename = Ok configJS).
  { unfold generateConfigJS. rewrite Ht. eexists. reflexivity. }
  destruct Hc as [configJS Hc].
  pose proof (stagePackage_Ok h _ _ content configJS Hd Hc) as Hs.
  destruct (staged_generated (publicDir h) content configJS) as (Hpdf & Hcfg & Hidx).
  eexists configJS, _, _. split; [exact Hc|].
  split; [exact (postPackage_Ok h reqBody _ Hurl Hs)|].
  split; [rewrite lookup_insert_ne by names; exact Hpdf|].
  split; [rewrite lookup_insert_ne by names; exact Hcfg|].
  split; [apply lookup_insert_eq|].
  split; [apply existsSync_insert, Hidx|].
  split.
  - intros c Hfile. rewrite lookup_insert_ne by names.
    assert (Hcopy : copyAssets (publicDir h) !! "index_lms.html" = Some c)
      by (apply copyAssets_shipped; [right; left; reflexivity|exact Hfile]).
    unfold staged. cbv zeta.
    assert (He : existsSync
                   (<["Config.js" := configJS]>
                      (<["data/" +:+ pdfFilename := content]> (copyAssets (publicDir h))))
                   "index_lms.html" = true)
      by (do 2 apply existsSync_insert; apply (existsSync_lookup _ _ c), Hcopy).
    rewrite He. rewrite lookup_insert_ne by names. rewrite lookup_insert_ne by names.
    exact Hcopy.
  - intros Hno. rewrite lookup_insert_ne by names.
    apply existsSync_true in Hidx as [[c Hl]|(rest & c & Hl)].
    + destruct (staged_origin _ _ _ _ _ Hl) as [E|[E|[(_ & -> & _)|[Hp _]]]];
        [discriminate E|discriminate E|exact Hl|].
      rewrite (existsSync_lookup _ _ _ Hp) in Hno. discriminate Hno.
    + destruct (staged_origin _ _ _ _ _ Hl) as [E|[E|[(E & _)|[Hp _]]]];
        [cbv [String.append] in E; discriminate E..|].
      assert (He : existsSync (publicDir h) "index_lms.html" = true)
        by (apply existsSync_true; right; eauto).
      rewrite He in Hno. discriminate Hno.
Qed.

(** X16. Every page, style sheet and script shipped under
    [public/] that the copy loop reaches is in the archive unchanged; and
    every file of the archive is one of the four the handler writes
    ([data/content.pdf], [Config.js], [imsmanifest.xml], the generated
    [index_lms.html]) or a file of [public/] at the same path with the
    same content, which is [player.html], [index_lms.html], [css], [js]
    or lies below one of them: no other file of [public/] is packed. *)
Theorem archive_assets h pdfUrl config dir :
  stagePackage h pdfUrl config = Ok dir ->
  (forall p c, shipped (publicDir h) p -> publicDir h !! p = Some c -> dir !! p = Some c)
  /\ (forall p c, dir !! p = Some c ->
        p = "imsmanifest.xml" \/ p = "data/content.pdf" \/ p = "Config.js"
        \/ (p = "index_lms.html" /\ c = indexLmsFallback)
        \/ (publicDir h !! p = Some c /\ reached p)).
Proof.
  intros (content & configJS & _ & _ & ->)%stagePackage_inv. split.
  - intros p c Hp Hc.
    assert (Hcopy : copyAssets (publicDir h) !! p = Some c)
      by (apply copyAssets_shipped; assumption).
    assert (Hnames : p <> "imsmanifest.xml" /\ p <> "Config.js"
                     /\ p <> "data/" +:+ pdfFilename)
      by (destruct Hp as [->|[->|[[_ [rest ->]]|[_ [rest ->]]]]]; repeat split; names).
    destruct Hnames as (N1 & N2 & N3).
    rewrite lookup_insert_ne by congruence. unfold staged. cbv zeta.
    destruct (existsSync _ "index_lms.html") eqn:E.
    + rewrite lookup_insert_ne by congruence. rewrite lookup_insert_ne by congruence.
      exact Hcopy.
    + destruct (decide (p = "index_lms.html")) as [->|N4].
      * exfalso.
        assert (He : existsSync
                       (<["Config.js" := configJS]>
                          (<["data/" +:+ pdfFilename := content]> (copyAssets (publicDir h))))
                       "index_lms.html" = true)
          by (do 2 apply existsSync_insert; apply (existsSync_lookup _ _ c), Hcopy).
        rewrite He in E. discriminate E.
      * rewrite lookup_insert_ne by congruence. rewrite lookup_insert_ne by congruence.
        rewrite lookup_insert_ne by congruence. exact Hcopy.
  - intros p c [[<- _]|[_ H]]%lookup_insert_Some; [auto|].
    destruct (staged_origin _ _ _ _ _ H) as [?|[?|[(? & ? & _)|?]]]; auto 10.
Qed.

(** X17. The manifest lists [player.html], [index_lms.html],
    [Config.js] and [data/content.pdf] and whichever of the four known
    style sheets and scripts are staged, in that order. Every file it
    lists other than [player.html] is in the archive; [player.html] is
    listed whether it is there or not, and it is not when [public/] has
    none. *)
Theorem manifest_resources h pdfUrl config dir :
  stagePackage h pdfUrl config = Ok dir ->
  exists files,
    dir !! "imsmanifest.xml"
    = Some (generateManifest ("pkg_" +:+ uuidv4 h) (manifestTitle config)
              "index_lms.html" files)
    /\ take 4 files = ["player.html"; "index_lms.html"; "Config.js"; "data/content.pdf"]
    /\ (forall f, f ∈ files -> f = "player.html" \/ existsSync dir f = true)
    /\ (existsSync (publicDir h) "player.html" = false ->
        existsSync dir "player.html" = false).
Proof.
  intros (content & configJS & _ & _ & ->)%stagePackage_inv.
  eexists. split; [apply lookup_insert_eq|]. split; [reflexivity|].
  destruct (staged_generated (publicDir h) content configJS) as (Hpdf & Hcfg & Hidx).
  split.
  - intros f Hf. unfold resourceFiles in Hf.
    assert (Hopt : forall x (b : bool),
              (b = true -> existsSync (staged (publicDir h) content configJS) x = true) ->
              f ∈ (if b then [x] else []) ->
              existsSync (<["imsmanifest.xml" :=
                              generateManifest ("pkg_" +:+ uuidv4 h) (manifestTitle config)
                                "index_lms.html"
                                (resourceFiles (staged (publicDir h) content configJS))]>
                            (staged (publicDir h) content configJS)) f = true).
    { intros x [] Hx Hin; [|apply elem_of_nil in Hin; destruct Hin].
      apply list_elem_of_singleton in Hin as ->. apply existsSync_insert, Hx. reflexivity. }
    apply elem_of_app in Hf as [Hf|Hf].
    + apply elem_of_cons in Hf as [->|Hf]; [left; reflexivity|]. right.
      apply existsSync_insert.
      apply elem_of_cons in Hf as [->|Hf]; [exact Hidx|].
      apply elem_of_cons in Hf as [->|Hf]; [exact (existsSync_lookup _ _ _ Hcfg)|].
      apply list_elem_of_singleton in Hf as ->. exact (existsSync_lookup _ _ _ Hpdf).
    + right.
      apply elem_of_app in Hf as [Hf|Hf]; [exact (Hopt _ _ (fun E => E) Hf)|].
      apply elem_of_app in Hf as [Hf|Hf]; [exact (Hopt _ _ (fun E => E) Hf)|].
      apply elem_of_app in Hf as [Hf|Hf]; [exact (Hopt _ _ (fun E => E) Hf)|].
      exact (Hopt _ _ (fun E => E) Hf).
  - intros Hno.
    destruct (existsSync (<["imsmanifest.xml" := _]> _) "player.html") eqn:E; [|reflexivity].
    exfalso.
    assert (Hin : forall k c,
              <["imsmanifest.xml" :=
                  generateManifest ("pkg_" +:+ uuidv4 h) (manifestTitle config) "index_lms.html"
                    (resourceFiles (staged (publicDir h) content configJS))]>
                (staged (publicDir h) content configJS) !! k = Some c ->
              k = "imsmanifest.xml" \/ k = "data/content.pdf" \/ k = "Config.js"
              \/ k = "index_lms.html" \/ publicDir h !! k = Some c).
    { intros k c [[<- _]|[_ H]]%lookup_insert_Some; [auto|].
      destruct (staged_origin _ _ _ _ _ H) as [?|[?|[(? & _)|[? _]]]]; auto 10. }
    apply existsSync_true in E as [[c Hl]|(rest & c & Hl)];
      apply Hin in Hl as [E|[E|[E|[E|Hp]]]];
      try (cbv [String.append] in E; discriminate E).
    + rewrite (existsSync_lookup _ _ _ Hp) in Hno. discriminate Hno.
    + assert (He : existsSync (publicDir h) "player.html" = true)
        by (apply existsSync_true; right; eauto).
      rewrite He in Hno. discriminate Hno.
Qed.

Lemma configTitle_Throw cfg :
  toBoolean (get cfg "title") = true ->
  (forall t, get cfg "title" <> Str t) ->
  exists err, configTitle cfg = Throw err /\ name err = "TypeError".
Proof.
  intros Htruthy Hnot. unfold configTitle, or. rewrite Htruthy.
  destruct (get cfg "title") as [| | | |t| |];
    try (exfalso; exact (Hnot t eq_refl)); eexists; split; reflexivity.
Qed.

(** X18. A package request whose title is neither a string nor falsy
    (a number, [true], an array, an object) fails after the PDF has been
    downloaded: status 500 with the text of a [TypeError], no archive,
    no header and no cleanup of what has been staged. *)
Theorem postPackage_title_not_a_string h reqBody content :
  toBoolean (get reqBody "pdfUrl") = true ->
  download (fetch h (get reqBody "pdfUrl")) = Ok content ->
  toBoolean (get (get reqBody "config") "title") = true ->
  (forall t, get (get reqBody "config") "title" <> Str t) ->
  let r := postPackage h reqBody in
  status r = 500
  /\ archiveStreamed r = false
  /\ headers r = []
  /\ cleanupAfterMs r = None
  /\ exists err, name err = "TypeError"
                 /\ body r = Text ("Package generation error: " +:+ messageOr err).
Proof.
  intros Hurl Hd Htruthy Hnot r.
  destruct (configTitle_Throw (or (get reqBody "config") (Obj ∅))) as (err & Herr & Hname);
    [rewrite get_or_empty; exact Htruthy|rewrite get_or_empty; exact Hnot|].
  assert (Hs : stagePackage h (get reqBody "pdfUrl") (get reqBody "config") = Throw err).
  { unfold stagePackage. rewrite Hd. unfold mbind, result_bind. cbn [bind].
    unfold generateConfigJS. rewrite Herr. reflexivity. }
  subst r. unfold postPackage.
  destruct reqBody; try discriminate Hurl.
  rewrite Hurl, Hs. cbn. repeat split. exists err. split; [exact Hname|reflexivity].
Qed.

(** X14. The handler answers 200, 400 or 500. It streams an archive
    exactly when it answers 200, and only then does it leave a cleanup
    timer; it answers 400, with the text [Missing pdfUrl] and before
    anything is fetched, exactly when the body is an object without a
    truthy [pdfUrl]; and whatever it answers with 500 starts with
    [Package generation error: ]. *)
Theorem postPackage_status h reqBody :
  let r := postPackage h reqBody in
  (status r = 200 \/ status r = 400 \/ status r = 500)
  /\ (archiveStreamed r = true <-> status r = 200)
  /\ (is_Some (cleanupAfterMs r) <-> status r = 200)
  /\ (status r = 400
      <-> reqBody <> Undefined /\ reqBody <> Null
          /\ toBoolean (get reqBody "pdfUrl") = false)
  /\ (status r = 400 ->
      body r = Text "Missing pdfUrl"
      /\ forall h', postPackage h' reqBody = r)
  /\ (status r = 500 ->
      exists msg, body r = Text ("Package generation error: " +:+ msg)).
Proof.
  intros r. subst r. unfold postPackage.
  destruct reqBody;
    try (cbn; repeat split; try (intros; discriminate); try (intros [? ?]; discriminate);
         try (intros (? & ? & ?); congruence); auto; try (eexists; reflexivity); fail).
  all: destruct (toBoolean (get _ "pdfUrl")) eqn:Hurl; cbn [negb];
    [destruct (stagePackage h _ _) as [dir|err]|];
    cbn; repeat split; try (intros; discriminate); try (intros [? ?]; discriminate);
    try (intros (? & ? & ?); congruence); auto; try (eexists; reflexivity);
    try (intros _; repeat split; congruence).
  all: try (intros h'; unfold postPackage; rewrite ?Hurl; reflexivity).
Qed.

(** *** What the manifest declares *)

Lemma prefix_app a : forall b c, String.prefix a b = true -> String.prefix a (b +:+ c) = true.
Proof.
  induction a as [|x a IH]; intros b c H; [destruct (b +:+ c); reflexivity|].
  destruct b as [|y b]; [discriminate H|].
  rewrite append_cons. cbn [String.prefix] in *.
  destruct (ascii_dec x y); [apply IH, H|discriminate H].
Qed.

Lemma prefix_refl_app a c : String.prefix a (a +:+ c) = true.
Proof.
  induction a as [|x a IH]; [destruct c; reflexivity|].
  rewrite append_cons. cbn [String.prefix].
  destruct (ascii_dec x x) as [_|Hne]; [exact IH|congruence].
Qed.

Lemma includes_head s post : includes (s +:+ post) s = true.
Proof.
  destruct s as [|c s]; [destruct post; reflexivity|].
  rewrite append_cons. cbn [includes].
  rewrite <- append_cons, prefix_refl_app. reflexivity.
Qed.

Lemma includes_app_l s post needle :
  includes s needle = true -> includes (s +:+ post) needle = true.
Proof.
  induction s as [|c s IH]; intros H.
  - cbn [includes] in H. rewrite orb_false_r in H.
    destruct needle; [|discriminate H]. destruct post; reflexivity.
  - rewrite append_cons. cbn [includes] in *.
    apply orb_true_iff in H as [H|H].
    + rewrite <- append_cons, (prefix_app _ _ _ H). reflexivity.
    + rewrite (IH H). apply orb_true_r.
Qed.

Lemma includes_middle pre s post : includes (pre +:+ s +:+ post) s = true.
Proof. apply includes_app_r, includes_head. Qed.

Lemma includes_join sep (g : string -> string) f l :
  f ∈ l -> includes (join sep (map g l)) (g f) = true.
Proof.
  induction l as [|x l IH]; intros Hin; [apply elem_of_nil in Hin; destruct Hin|].
  destruct l as [|y l].
  - apply list_elem_of_singleton in Hin as ->. cbn [map join].
    rewrite <- (append_empty_r (g x)) at 1. apply includes_head.
  - cbn [map]. rewrite join_cons.
    apply elem_of_cons in Hin as [->|Hin]; [apply includes_head|].
    do 2 apply includes_app_r. exact (IH Hin).
Qed.

Lemma includes_eq s pre post needle :
  s = pre +:+ needle +:+ post -> includes s needle = true.
Proof. intros ->. apply includes_middle. Qed.

(** X20. Whatever its arguments, the text [generateManifest]
    returns carries the package identifier in the [manifest] element,
    the launch file as [href] of the resource, and one [file] element
    for every entry of the resource list. *)
Theorem generateManifest_declares pkgId title launchFile files :
  includes (generateManifest pkgId title launchFile files)
    ("<manifest identifier=" +:+ dq +:+ pkgId +:+ dq) = true
  /\ includes (generateManifest pkgId title launchFile files)
       (" href=" +:+ dq +:+ launchFile +:+ dq +:+ ">") = true
  /\ forall f, f ∈ files ->
       includes (generateManifest pkgId title launchFile files)
         ("<file href=" +:+ dq +:+ f +:+ dq +:+ " />") = true.
Proof.
  split; [|split].
  - unfold generateManifest.
    rewrite (join_firstn_skipn nl 1); [|discriminate]. cbn [firstn skipn].
    apply includes_app_r. rewrite join_cons. apply includes_app_l.
    apply (includes_eq _ EmptyString (" version=" +:+ dq +:+ "1" +:+ dq)).
    rewrite !append_assoc. reflexivity.
  - unfold generateManifest.
    rewrite (join_firstn_skipn nl 20); [|discriminate]. cbn [firstn skipn].
    apply includes_app_r. rewrite join_cons. apply includes_app_l.
    apply (includes_eq _ ("    <resource identifier=" +:+ dq +:+ "RES_1" +:+ dq
                          +:+ " type=" +:+ dq +:+ "webcontent" +:+ dq
                          +:+ " adlcp:scormtype=" +:+ dq +:+ "sco" +:+ dq) EmptyString).
    rewrite append_empty_r, !append_assoc. reflexivity.
  - intros f Hf. unfold generateManifest.
    rewrite (join_firstn_skipn nl 21); [|discriminate]. cbn [firstn skipn].
    apply includes_app_r. rewrite join_cons. apply includes_app_l, includes_app_r.
    exact (includes_join _ (fun f => "<file href=" +:+ dq +:+ f +:+ dq +:+ " />") f files Hf).
Qed.

End PackageArchive.

(** ** The title in [Config.js] *)

Section ConfigTitle.
Import JS Server Script.

Lemma readString_escapeQuotes t : forall after,
  plain t = true ->
  readString (escapeQuotes t +:+ dq +:+ after) = Some (t, after).
Proof.
  induction t as [|c t IH]; intros after Hp.
  - reflexivity.
  - cbn [plain] in Hp.
    apply andb_true_iff in Hp as [Hp Ht]. apply andb_true_iff in Hp as [Hp Hcr].
    apply andb_true_iff in Hp as [Hb Hlf].
    apply negb_true_iff in Hb, Hlf, Hcr.
    cbn [escapeQuotes]. destruct (Ascii.eqb_spec c "034"%char) as [->|Hq].
    + rewrite !append_cons. cbn [readString].
      change (Ascii.eqb backslash "034") with false.
      change (Ascii.eqb backslash backslash) with true.
      change (Ascii.eqb "034" "034") with true. cbn [orb].
      rewrite (IH after Ht). reflexivity.
    + rewrite append_cons. cbn [readString].
      apply Ascii.eqb_neq in Hq. rewrite Hq, Hb, Hlf, Hcr. cbn [orb].
      rewrite (IH after Ht). reflexivity.
Qed.

Lemma generateConfigJS_title cfg pdfFilename t :
  get cfg "title" = Str t ->
  exists after,
    generateConfigJS cfg pdfFilename
    = Ok (configHead +:+ dq +:+ escapeQuotes t +:+ dq +:+ after).
Proof.
  intros Ht.
  assert (Hc : configTitle cfg = Ok (escapeQuotes t)).
  { unfold configTitle, or. rewrite Ht.
    destruct (toBoolean (Str t)) eqn:E; [reflexivity|].
    cbn in E. apply negb_false_iff, String.eqb_eq in E. subst t. reflexivity. }
  unfold generateConfigJS. rewrite Hc.
  unfold mbind, result_bind, mret, result_ret. cbn [bind].
  rewrite (join_firstn_skipn nl 3); [|discriminate]. cbn [firstn skipn].
  rewrite join_cons.
  match goal with |- exists after, Ok (_ +:+ _ +:+ ?rest) = _ => exists ("," +:+ rest) end.
  f_equal. unfold configHead.
  rewrite (join_firstn_skipn nl 3); [|discriminate]. cbn [firstn skipn join].
  rewrite !append_assoc. reflexivity.
Qed.

(** X19. For a title without backslash and line break, the text
    [generateConfigJS] returns opens with the fixed head up to [title: ]
    followed by a string literal that a script engine reads back as the
    title, double quotes included, and that ends where the title ends.
    The condition on the backslash is needed: for the title made of one
    backslash the literal does not end there. *)
Theorem configJS_title_reads_back cfg pdfFilename t :
  get cfg "title" = Str t ->
  plain t = true ->
  exists after,
    generateConfigJS cfg pdfFilename
    = Ok (configHead +:+ dq +:+ escapeQuotes t +:+ dq +:+ after)
    /\ readString (escapeQuotes t +:+ dq +:+ after) = Some (t, after)
    /\ readString (escapeQuotes (String backslash EmptyString) +:+ dq +:+ after)
       <> Some (String backslash EmptyString, after).
Proof.
  intros Ht Hp. destruct (generateConfigJS_title cfg pdfFilename t Ht) as [after Hout].
  exists after. split; [exact Hout|]. split; [apply readString_escapeQuotes, Hp|].
  cbn [escapeQuotes]. change (Ascii.eqb backslash "034") with false. cbv iota.
  unfold dq. rewrite !append_cons, !append_nil. cbn [readString].
  change (Ascii.eqb backslash "034") with false.
  change (Ascii.eqb backslash backslash) with true.
  change (Ascii.eqb "034" "034") with true. cbn [orb].
  destruct (readString after) as [[v rest]|]; cbn; [|discriminate].
  intros H. discriminate H.
Qed.

End ConfigTitle.

(** ** The name of the converted file *)

Section ConvertedName.
Import JS Convert.

Lemma string_of_list_ascii_app l1 l2 :
  string_of_list_ascii (l1 ++ l2) = string_of_list_ascii l1 +:+ string_of_list_ascii l2.
Proof.
  induction l1 as [|c l1 IH]; [reflexivity|].
  cbn [app string_of_list_ascii]. rewrite IH. reflexivity.
Qed.

Lemma list_ascii_of_string_app s1 s2 :
  list_ascii_of_string (s1 +:+ s2) = list_ascii_of_string s1 ++ list_ascii_of_string s2.
Proof.
  induction s1 as [|c s1 IH]; [reflexivity|].
  rewrite append_cons. cbn [list_ascii_of_string app]. rewrite IH. reflexivity.
Qed.

Lemma takeWhile_all f l rest :
  forallb f l = true -> takeWhile f (l ++ rest) = l ++ takeWhile f rest.
Proof.
  induction l as [|c l IH]; intros H; [reflexivity|].
  cbn [forallb] in H. apply andb_true_iff in H as [Hc Hl].
  cbn [app takeWhile]. rewrite Hc, (IH Hl). reflexivity.
Qed.

Lemma dropWhile_all f l rest :
  forallb f l = true -> dropWhile f (l ++ rest) = dropWhile f rest.
Proof.
  induction l as [|c l IH]; intros H; [reflexivity|].
  cbn [forallb] in H. apply andb_true_iff in H as [Hc Hl].
  cbn [app dropWhile]. rewrite Hc. exact (IH Hl).
Qed.

Lemma forallb_rev {A} (f : A -> bool) l : forallb f (rev l) = forallb f l.
Proof.
  induction l as [|c l IH]; [reflexivity|].
  cbn [rev forallb]. rewrite forallb_app, IH. cbn [forallb].
  rewrite andb_true_r. apply andb_comm.
Qed.

(** The last portion of [dir/name]. *)
Lemma lastPortion_file dir name :
  isFileName name = true ->
  lastPortion (dir +:+ "/" +:+ name) = rev (list_ascii_of_string name).
Proof.
  unfold isFileName, lastPortion. intros H.
  apply andb_true_iff in H as [Hne Hns]. apply negb_true_iff in Hne.
  rewrite !list_ascii_of_string_app, !rev_app_distr.
  change (rev (list_ascii_of_string "/")) with ["/"%char].
  rewrite <- forallb_rev in Hns.
  destruct (rev (list_ascii_of_string name)) as [|c l] eqn:E.
  - exfalso. apply (f_equal (@rev ascii)) in E. rewrite rev_involutive in E.
    apply (f_equal string_of_list_ascii) in E.
    rewrite string_of_list_ascii_of_string in E. subst name. discriminate Hne.
  - cbn [forallb] in Hns. apply andb_true_iff in Hns as [Hc Hl].
    rewrite <- app_assoc.
    change ((c :: l) ++ ["/"%char] ++ rev (list_ascii_of_string dir))
      with (c :: (l ++ "/"%char :: rev (list_ascii_of_string dir))).
    apply negb_true_iff in Hc.
    cbn [dropWhile]. rewrite Hc. cbn [takeWhile]. rewrite Hc. cbn [negb].
    rewrite (takeWhile_all (fun c => negb (isSlash c)) l _ Hl).
    cbn [takeWhile]. change (isSlash "/") with true. cbn [negb].
    rewrite app_nil_r. reflexivity.
Qed.

Lemma basename_file dir name :
  isFileName name = true -> basename (dir +:+ "/" +:+ name) = name.
Proof.
  intros H. unfold basename. rewrite (lastPortion_file dir name H), rev_involutive.
  apply string_of_list_ascii_of_string.
Qed.

Lemma replaceFirst_at_end stem pattern replacement :
  noDot stem = true ->
  replaceFirst (String "." pattern) replacement (stem +:+ String "." pattern)
  = stem +:+ replacement.
Proof.
  unfold noDot. induction stem as [|c stem IH]; intros H.
  - rewrite !append_nil.
    assert (E : Server.stripPrefix (String "." pattern) (String "." pattern) = Some EmptyString).
    { clear. induction (String "." pattern) as [|a p IHp]; [reflexivity|].
      cbn [Server.stripPrefix]. rewrite Ascii.eqb_refl. exact IHp. }
    destruct pattern; cbn [replaceFirst]; rewrite E; apply append_empty_r.
  - cbn [list_ascii_of_string forallb] in H. apply andb_true_iff in H as [Hc Hs].
    rewrite !append_cons. cbn [replaceFirst Server.stripPrefix].
    unfold isDot in Hc. apply negb_true_iff in Hc.
    rewrite Ascii.eqb_sym, Hc. rewrite (IH Hs). reflexivity.
Qed.

(** X21. The path [convertToPdf] resolves to when [soffice] exits
    with code 0, for an input [dir/name]. When [name] is [stem.ext] with
    a stem that is not empty and has no dot, the file is [stem.pdf] in
    the output directory. When [name] has no dot at all, the extension is
    empty and [.pdf] is put in front of the name, not after it. With any
    other exit code, or none, the promise is rejected with the code and
    what the process wrote to [stderr]. *)
Theorem convertToPdf_name dir name outDir stderr :
  isFileName name = true ->
  (forall stem ext,
     name = stem +:+ "." +:+ ext -> stem <> EmptyString ->
     noDot stem = true -> noDot ext = true ->
     convertToPdf (Closed (Some 0) stderr) (dir +:+ "/" +:+ name) outDir
     = Ok (outDir, stem +:+ ".pdf"))
  /\ (noDot name = true ->
      convertToPdf (Closed (Some 0) stderr) (dir +:+ "/" +:+ name) outDir
      = Ok (outDir, ".pdf" +:+ name))
  /\ (forall code,
        code <> Some 0 ->
        exists msg,
          convertToPdf (Closed code stderr) (dir +:+ "/" +:+ name) outDir
          = Throw (mkError ("soffice exit code " +:+ msg +:+ " - " +:+ stderr))
          /\ forall n, code = Some n -> msg = pretty n).
Proof.
  intros Hname. split; [|split].
  - intros stem ext -> Hstem Hs He. cbn [convertToPdf]. unfold pdfName.
    rewrite (basename_file dir _ Hname).
    assert (Hext : extname (dir +:+ "/" +:+ stem +:+ "." +:+ ext) = String "." ext).
    { unfold extname. rewrite (basename_file dir _ Hname), (lastPortion_file dir _ Hname).
      rewrite !list_ascii_of_string_app, !rev_app_distr.
      change (rev (list_ascii_of_string ".")) with ["."%char].
      unfold noDot in He, Hs. rewrite <- forallb_rev in He.
      rewrite <- !app_assoc. cbn [app].
      rewrite (dropWhile_all _ _ _ He), (takeWhile_all _ _ _ He).
      cbn [dropWhile takeWhile]. change (isDot ".") with true. cbn [negb].
      rewrite app_nil_r, rev_involutive.
      cbn [string_of_list_ascii]. rewrite string_of_list_ascii_of_string.
      destruct stem as [|c stem]; [congruence|].
      cbn [list_ascii_of_string forallb] in Hs. apply andb_true_iff in Hs as [Hc _].
      destruct (rev (list_ascii_of_string (String c stem))) as [|x l] eqn:E.
      { apply (f_equal (@length ascii)) in E. rewrite length_rev in E. discriminate E. }
      rewrite append_cons.
      assert (Hne : String.eqb (String c (stem +:+ "." +:+ ext)) ".." = false).
      { cbn [String.eqb]. unfold isDot in Hc. apply negb_true_iff in Hc. rewrite Hc.
        reflexivity. }
      rewrite Hne. reflexivity. }
    rewrite Hext.
    change (stem +:+ "." +:+ ext) with (stem +:+ String "." ext).
    rewrite (replaceFirst_at_end stem ext ".pdf" Hs). reflexivity.
  - intros Hnd. cbn [convertToPdf]. unfold pdfName.
    rewrite (basename_file dir _ Hname).
    assert (Hext : extname (dir +:+ "/" +:+ name) = EmptyString).
    { unfold extname. rewrite (lastPortion_file dir _ Hname).
      unfold noDot in Hnd. rewrite <- forallb_rev in Hnd.
      rewrite <- (app_nil_r (rev (list_ascii_of_string name))).
      rewrite (dropWhile_all _ _ _ Hnd). reflexivity. }
    rewrite Hext. destruct name; reflexivity.
  - intros code Hcode. destruct code as [[|n|n]|]; try congruence;
      eexists; (split; [reflexivity|]); intros m [= <-]; reflexivity.
Qed.

(** *** Names taken from what the client sends *)

Lemma forallb_takeWhile f l : forallb f (takeWhile f l) = true.
Proof.
  induction l as [|c l IH]; [reflexivity|].
  cbn [takeWhile]. destruct (f c) eqn:E; [|reflexivity].
  cbn [forallb]. rewrite E. exact IH.
Qed.

Lemma forallb_takeWhile_keeps g f l :
  forallb g l = true -> forallb g (takeWhile f l) = true.
Proof.
  induction l as [|c l IH]; intros H; [reflexivity|].
  cbn [forallb] in H. apply andb_true_iff in H as [Hc Hl].
  cbn [takeWhile]. destruct (f c); [|reflexivity].
  cbn [forallb]. rewrite Hc. exact (IH Hl).
Qed.

Lemma lastPortion_noSlash p :
  forallb (fun c => negb (isSlash c)) (lastPortion p) = true.
Proof. apply forallb_takeWhile. Qed.

Lemma basename_noSlash p : noSlash (basename p) = true.
Proof.
  unfold noSlash, basename.
  rewrite list_ascii_of_string_of_list_ascii, forallb_rev. apply lastPortion_noSlash.
Qed.

Lemma extname_shape p :
  extname p = EmptyString
  \/ exists ext, extname p = String "." ext /\ noDot ext = true /\ noSlash ext = true.
Proof.
  unfold extname.
  destruct (dropWhile _ (lastPortion p)) as [|c [|c' before]]; [auto..|].
  destruct (String.eqb (basename p) ".."); [auto|].
  right. eexists. split; [reflexivity|]. unfold noDot, noSlash.
  rewrite list_ascii_of_string_of_list_ascii, !forallb_rev. split.
  - apply forallb_takeWhile.
  - apply forallb_takeWhile_keeps, lastPortion_noSlash.
Qed.

(** X22. Whatever name the client sends, [path.basename] of it and
    [path.extname] of it hold no slash; the extension is empty or a dot
    followed by characters that are neither dot nor slash; so the name
    an upload is stored under, the identifier followed by the extension,
    holds no slash when the identifier has none, and names a file
    directly in the upload directory. *)
Theorem upload_names_safe uuid originalname :
  noSlash (basename originalname) = true
  /\ noSlash (extname originalname) = true
  /\ (extname originalname = EmptyString
      \/ exists ext, extname originalname = String "." ext /\ noDot ext = true)
  /\ (noSlash uuid = true -> noSlash (uploadFilename uuid originalname) = true).
Proof.
  assert (Hext : noSlash (extname originalname) = true).
  { destruct (extname_shape originalname) as [->|(ext & -> & _ & Hs)]; [reflexivity|].
    unfold noSlash in *. cbn [list_ascii_of_string forallb]. rewrite Hs. reflexivity. }
  split; [apply basename_noSlash|]. split; [exact Hext|]. split.
  - destruct (extname_shape originalname) as [H|(ext & H & Hd & _)]; [auto|].
    right. exists ext. auto.
  - intros Hu. unfold uploadFilename, noSlash in *.
    rewrite list_ascii_of_string_app, forallb_app, Hu, Hext. reflexivity.
Qed.

End ConvertedName.

(** ** The generated sample *)

Section SampleConfig.
Import JS Server.

(** The [Config.js] kept under [tmp/pkg_bcb70ea7-...] is,
    character for character, what [generateConfigJS] returns for the
    file name [content.pdf] and any configuration with the title
    [BAWANA SCORM-KIT] and two truthy flags. *)
Theorem sample_is_generated cfg :
  get cfg "title" = Str "BAWANA SCORM-KIT" ->
  toBoolean (get cfg "sidebarDefaultOpen") = true ->
  toBoolean (get cfg "slideSequenceLocked") = true ->
  generateConfigJS cfg pdfFilename = Ok Sample.configJs.
Proof.
  intros Ht Hs Hl. unfold generateConfigJS, configTitle, or.
  rewrite Ht, Hs, Hl. reflexivity.
Qed.

Lemma sample_is_generated_witness :
  generateConfigJS
    (Obj {[ "title" := Str "BAWANA SCORM-KIT";
            "sidebarDefaultOpen" := Bool true;
            "slideSequenceLocked" := Bool true ]}) "content.pdf"
  = Ok Sample.configJs.
Proof. apply sample_is_generated; vm_compute; reflexivity. Defined.

End SampleConfig.

(** ** Instances *)

Section ViewerInstances.
Import Viewer Session Frames.

Lemma progress_round_trip_witness :
  let api := {| cmi := (∅ : gmap string string); initialized := true;
                commits := 0; finished := false |} in
  let s := set_visitedPages [Some false; Some false; Some false]
             (set_scormVersion (Some V12) (set_scormAPI (Some api) initial)) in
  exists api',
    scormAPI (renderResolved 2 s) = Some api'
    /\ commits api' = 1%nat
    /\ exists t',
         run [Start (Some "data/content.pdf") (Some (V12, api'));
              DocumentResolved 0 {| numPages := 3 |}] initial = Some t'
         /\ visitedPages t' = [Some false; Some true; Some false]
         /\ currentPage t' = 2.
Proof.
  intros api s.
  assert (Hurl : "data/content.pdf" <> EmptyString) by discriminate.
  assert (Hp : 1 <= 2 <= Z.of_nat (length [false; false; false])) by (simpl; lia).
  destruct (progress_round_trip V12 api [false; false; false] 2 s initial
              "data/content.pdf" {| numPages := 3 |}
              eq_refl eq_refl eq_refl Hp Hurl eq_refl)
    as (api' & H1 & H2 & t' & H3 & H4 & H5 & _).
  exists api'. split; [exact H1|]. split; [exact H2|].
  exists t'. split; [exact H3|]. split; [exact H4|exact H5].
Defined.

Lemma visited_until_next_load_witness :
  let s := set_inflight {[ 0%nat := AwaitRender 2 ]}
             (set_visitedPages [Some false; Some false]
                (set_totalPages 2 (set_pdfDoc (Some {| numPages := 2 |}) initial))) in
  let s' := resize (prev (renderResolved 2 (settle 0 s))) in
  run [RenderResolved 0; Prev; Resize] s = Some s'
  /\ arrayGet (visitedPages s') 1 = Some true.
Proof.
  intros s s'.
  assert (Hjob : inflight s !! 0%nat = Some (AwaitRender 2)) by (vm_compute; reflexivity).
  assert (Hrun : run [RenderResolved 0; Prev; Resize] s = Some s')
    by (vm_compute; reflexivity).
  split; [exact Hrun|].
  destruct (visited_until_next_load 0 2 [Prev; Resize] s s' Hjob ltac:(lia) eq_refl Hrun)
    as [H _].
  exact H.
Defined.

Lemma getState_consistent_witness :
  let s := next (documentResolved {| numPages := 3 |}
                   (settle 0 (startViewerWithPdf (Some "a.pdf") None initial))) in
  1 <= stateCurrentPage (getState s)
  /\ stateCurrentPage (getState s) <= stateTotalPages (getState s).
Proof.
  intros s.
  assert (Hwf : Forall documentHasPages
                  [Start (Some "a.pdf") None; DocumentResolved 0 {| numPages := 3 |}; Next])
    by (repeat constructor).
  assert (Hrun : run [Start (Some "a.pdf") None; DocumentResolved 0 {| numPages := 3 |}; Next]
                   initial = Some s) by (vm_compute; reflexivity).
  destruct (getState_consistent _ s Hwf Hrun) as [Hlo Hhi].
  split; [exact Hlo|]. apply Hhi. reflexivity.
Defined.

Lemma every_raster_usable_witness :
  let page := {| getViewport := fun scale =>
                   {| width := SFmul Number.prec Number.emax (Number.of_Z 612) scale;
                      height := SFmul Number.prec Number.emax (Number.of_Z 792) scale |} |} in
  let win := {| innerWidth := Number.zero; innerHeight := Number.zero;
                clientWidth := Number.zero; clientHeight := Number.zero |} in
  let s := renderPage 1 (set_totalPages 5 (set_pdfDoc (Some {| numPages := 5 |}) initial)) in
  let s' := pageResolved 1 page win (settle 0 s) in
  run [PageResolved 0 page win] s = Some s'
  /\ In (Raster 1 Number.one) (effects s')
  /\ forall p scale, In (Raster p scale) (effects s') -> Number.positive_finite scale = true.
Proof.
  intros page win s s'.
  assert (Hrun : run [PageResolved 0 page win] s = Some s') by (vm_compute; reflexivity).
  assert (Hs : Forall usable (effects s)) by (repeat constructor).
  split; [exact Hrun|]. split; [vm_compute; auto|].
  intros p scale. exact (every_raster_usable _ s s' p scale Hrun Hs).
Defined.

Lemma superseded_load_wins_witness :
  exists s',
    run [Start (Some "a.pdf") None; Start (Some "b.pdf") None;
         DocumentResolved 1 {| numPages := 7 |}; DocumentResolved 0 {| numPages := 3 |}]
      initial = Some s'
    /\ pdfDoc s' = Some {| numPages := 3 |}
    /\ lastPdfUrl s' = Some "b.pdf".
Proof.
  assert (HA : "a.pdf" <> EmptyString) by discriminate.
  assert (HB : "b.pdf" <> EmptyString) by discriminate.
  destruct (superseded_load_wins "a.pdf" "b.pdf" None None
              {| numPages := 3 |} {| numPages := 7 |} initial HA HB)
    as (s' & Hrun & Hd & _ & Hl & _).
  exists s'. split; [exact Hrun|]. split; [exact Hd|exact Hl].
Defined.

Lemma one_render_at_a_time_witness :
  let s := resize (next (documentResolved {| numPages := 3 |}
                           (settle 0 (startViewerWithPdf (Some "a.pdf") None initial)))) in
  oneAtATime s.
Proof.
  intros s.
  apply (one_render_at_a_time (Some "a.pdf") None
           [DocumentResolved 0 {| numPages := 3 |}; Next; Resize] s eq_refl).
  vm_compute. reflexivity.
Defined.

Lemma busy_navigation_is_dropped_witness :
  let s := renderPage 1 (set_totalPages 3 (set_pdfDoc (Some {| numPages := 3 |}) initial)) in
  let s' := renderFailed (settle 0 (next (next s))) in
  run ([Next; Next] ++ [PageRejected 0]) s = Some s'
  /\ count isPageFetch s' = count isPageFetch s
  /\ currentPage s' = 3.
Proof.
  intros s s'.
  assert (Hrun : run ([Next; Next] ++ [PageRejected 0]) s = Some s')
    by (vm_compute; reflexivity).
  destruct (busy_navigation_is_dropped [Next; Next] [PageRejected 0] s s'
              eq_refl eq_refl eq_refl Hrun) as (_ & H & _).
  split; [exact Hrun|]. split; [exact H|reflexivity].
Defined.

Lemma resize_fetches_again_witness :
  let s := set_currPage 2 (set_currentPage 2
             (set_totalPages 3 (set_pdfDoc (Some {| numPages := 3 |}) initial))) in
  renderPage 2 s = s
  /\ count isPageFetch (resize s) = S (count isPageFetch s).
Proof.
  intros s.
  destruct (resize_fetches_again s eq_refl eq_refl ltac:(simpl; lia)) as (_ & H1 & H2).
  split; [apply H2; reflexivity|exact H1].
Defined.

Lemma destroy_is_final_witness :
  let s := set_totalPages 3 (set_pdfDoc (Some {| numPages := 3 |}) initial) in
  let s' := resize (destroy (next (destroy s))) in
  run (Destroy :: [Next; Destroy; Resize]) s = Some s'
  /\ pdfDoc s' = None
  /\ count isPageFetch s' = 0%nat
  /\ count isDestroyDocument s' = 1%nat.
Proof.
  intros s s'.
  assert (Hrun : run (Destroy :: [Next; Destroy; Resize]) s = Some s')
    by (vm_compute; reflexivity).
  destruct (destroy_is_final [Next; Destroy; Resize] s s' eq_refl Hrun) as (H1 & H2 & H3).
  split; [exact Hrun|]. split; [exact H1|]. split; [exact H2|exact H3].
Defined.

Lemma findAPI_nearest_witness :
  let lms := {| cmi := (∅ : gmap string string); initialized := false;
                commits := 0; finished := false |} in
  findAPI (SameOrigin None None) [SameOrigin None (Some lms); SameOrigin (Some lms) None]
  = Some (V2004, lms).
Proof.
  intros lms. apply findAPI_nearest.
  exists 1%nat, (SameOrigin None (Some lms)).
  split; [lia|]. split; [intros [|j] Hj; [reflexivity|lia]|].
  split; reflexivity.
Defined.

Lemma decodeVisited_total_witness :
  length (decodeVisited "1x0" 3) = 3%nat
  /\ decodeVisited "1x0" 3 !! 1%nat = Some (Some false).
Proof.
  destruct (decodeVisited_total "1x0" 3) as [Hlen Hbit].
  split; [exact Hlen|].
  rewrite (Hbit 1%nat ltac:(lia)). vm_compute. reflexivity.
Defined.

End ViewerInstances.

Section ServerInstances.
Import JS Server Package Script Convert.

Lemma postPackage_archive_witness :
  let h := {| uuidv4 := "0b9c";
              publicDir := {[ "player.html" := "<html></html>" ]};
              fetch := fun _ => FetchResponse 200 (Ok "%PDF-1.4") |} in
  let reqBody := Obj {[ "pdfUrl" := Str "https://example.com/a.pdf" ]} in
  exists dir,
    status (postPackage h reqBody) = 200
    /\ body (postPackage h reqBody) = Archive dir
    /\ dir !! "data/content.pdf" = Some "%PDF-1.4"
    /\ dir !! "index_lms.html" = Some indexLmsFallback.
Proof.
  intros h reqBody.
  assert (Hurl : toBoolean (get reqBody "pdfUrl") = true) by (vm_compute; reflexivity).
  assert (Hd : download (fetch h (get reqBody "pdfUrl")) = Ok "%PDF-1.4")
    by (vm_compute; reflexivity).
  assert (Ht : toBoolean (get (get reqBody "config") "title") = false
               \/ (exists t, get (get reqBody "config") "title" = Str t))
    by (left; vm_compute; reflexivity).
  assert (Hno : existsSync (publicDir h) "index_lms.html" = false)
    by (vm_compute; reflexivity).
  destruct (postPackage_archive h reqBody "%PDF-1.4" Hurl Hd Ht)
    as (configJS & dir & files & _ & Hr & Hpdf & _ & _ & _ & _ & Hfb).
  exists dir. rewrite Hr. split; [reflexivity|]. split; [reflexivity|].
  split; [exact Hpdf|exact (Hfb Hno)].
Defined.

Lemma archive_assets_witness :
  let h := {| uuidv4 := "0b9c";
              publicDir := {[ "player.html" := "<html></html>";
                              "css/styles.css" := "body{}";
                              "notes.txt" := "internal" ]};
              fetch := fun _ => FetchResponse 200 (Ok "%PDF-1.4") |} in
  exists dir,
    stagePackage h (Str "https://example.com/a.pdf") Undefined = Ok dir
    /\ dir !! "player.html" = Some "<html></html>"
    /\ dir !! "css/styles.css" = Some "body{}"
    /\ dir !! "notes.txt" = None.
Proof.
  intros h.
  assert (Hd : download (fetch h (Str "https://example.com/a.pdf")) = Ok "%PDF-1.4")
    by (vm_compute; reflexivity).
  assert (Hc : exists configJS,
             generateConfigJS (or Undefined (Obj ∅)) pdfFilename = Ok configJS)
    by (eexists; vm_compute; reflexivity).
  destruct Hc as [configJS Hc].
  pose proof (stagePackage_Ok h _ Undefined _ configJS Hd Hc) as E.
  destruct (archive_assets h _ _ _ E) as [Hin Hout].
  eexists. split; [exact E|]. split; [|split].
  - apply Hin; [left; reflexivity|vm_compute; reflexivity].
  - apply Hin; [|vm_compute; reflexivity].
    right; right; left. split; [vm_compute; reflexivity|].
    exists "styles.css". reflexivity.
  - match goal with |- ?m !! _ = None => destruct (m !! "notes.txt") as [c|] eqn:En end;
      [|reflexivity].
    destruct (Hout "notes.txt" c En) as [H|[H|[H|[[H _]|[_ (t & Ht & H)]]]]];
      try discriminate H.
    unfold copyTargets in Ht.
    repeat (apply elem_of_cons in Ht as [->|Ht];
            [destruct H as [H|[rest H]]; cbv [String.append] in H; discriminate H|]).
    apply elem_of_nil in Ht. destruct Ht.
Defined.

Lemma manifest_resources_witness :
  let h := {| uuidv4 := "0b9c"; publicDir := (∅ : gmap string string);
              fetch := fun _ => FetchResponse 200 (Ok "%PDF-1.4") |} in
  exists dir files,
    stagePackage h (Str "https://example.com/a.pdf") Undefined = Ok dir
    /\ dir !! "imsmanifest.xml"
       = Some (generateManifest "pkg_0b9c" "SCORM Package" "index_lms.html" files)
    /\ take 4 files = ["player.html"; "index_lms.html"; "Config.js"; "data/content.pdf"]
    /\ existsSync dir "player.html" = false.
Proof.
  intros h.
  assert (Hd : download (fetch h (Str "https://example.com/a.pdf")) = Ok "%PDF-1.4")
    by (vm_compute; reflexivity).
  assert (Hc : exists configJS,
             generateConfigJS (or Undefined (Obj ∅)) pdfFilename = Ok configJS)
    by (eexists; vm_compute; reflexivity).
  destruct Hc as [configJS Hc].
  pose proof (stagePackage_Ok h _ Undefined _ configJS Hd Hc) as E.
  destruct (manifest_resources h _ _ _ E) as (files & Hm & Hfour & _ & Hno).
  eexists _, files. split; [exact E|]. split; [exact Hm|]. split; [exact Hfour|].
  apply Hno. vm_compute. reflexivity.
Defined.

Lemma postPackage_title_not_a_string_witness :
  let h := {| uuidv4 := "0b9c"; publicDir := (∅ : gmap string string);
              fetch := fun _ => FetchResponse 200 (Ok "%PDF-1.4") |} in
  let reqBody := Obj {[ "pdfUrl" := Str "https://example.com/a.pdf";
                        "config" := Obj {[ "title" := Bool true ]} ]} in
  status (postPackage h reqBody) = 500
  /\ archiveStreamed (postPackage h reqBody) = false.
Proof.
  intros h reqBody.
  assert (Hurl : toBoolean (get reqBody "pdfUrl") = true) by (vm_compute; reflexivity).
  assert (Hd : download (fetch h (get reqBody "pdfUrl")) = Ok "%PDF-1.4")
    by (vm_compute; reflexivity).
  assert (Ht : toBoolean (get (get reqBody "config") "title") = true)
    by (vm_compute; reflexivity).
  assert (Hn : forall t, get (get reqBody "config") "title" <> Str t)
    by (intros t H; vm_compute in H; discriminate H).
  destruct (postPackage_title_not_a_string h reqBody "%PDF-1.4" Hurl Hd Ht Hn)
    as (H1 & H2 & _).
  split; [exact H1|exact H2].
Defined.

Lemma postPackage_status_witness :
  let h := {| uuidv4 := "0b9c"; publicDir := (∅ : gmap string string);
              fetch := fun _ => FetchRejected (mkError "unreachable") |} in
  status (postPackage h (Obj {[ "config" := Obj ∅ ]})) = 400
  /\ body (postPackage h (Obj {[ "config" := Obj ∅ ]})) = Text "Missing pdfUrl".
Proof.
  intros h.
  destruct (postPackage_status h (Obj {[ "config" := Obj ∅ ]}))
    as (_ & _ & _ & H400 & Hbody & _).
  assert (Hs : status (postPackage h (Obj {[ "config" := Obj ∅ ]})) = 400).
  { apply H400. split; [discriminate|]. split; [discriminate|]. vm_compute. reflexivity. }
  split; [exact Hs|]. apply Hbody. exact Hs.
Defined.

Lemma configJS_title_reads_back_witness :
  let t := "Say " +:+ dq +:+ "hi" +:+ dq in
  exists after,
    generateConfigJS (Obj {[ "title" := Str t ]}) "content.pdf"
    = Ok (configHead +:+ dq +:+ escapeQuotes t +:+ dq +:+ after)
    /\ readString (escapeQuotes t +:+ dq +:+ after) = Some (t, after).
Proof.
  intros t.
  assert (Ht : get (Obj {[ "title" := Str t ]}) "title" = Str t) by (vm_compute; reflexivity).
  assert (Hp : plain t = true) by (vm_compute; reflexivity).
  destruct (configJS_title_reads_back (Obj {[ "title" := Str t ]}) "content.pdf" t Ht Hp)
    as (after & H1 & H2 & _).
  exists after. split; [exact H1|exact H2].
Defined.

Lemma convertToPdf_name_witness :
  convertToPdf (Closed (Some 0) EmptyString) "/tmp/w/deck.pptx" "/tmp/w"
  = Ok ("/tmp/w", "deck.pdf")
  /\ convertToPdf (Closed (Some 0) EmptyString) "/tmp/w/README" "/tmp/w"
     = Ok ("/tmp/w", ".pdfREADME").
Proof.
  split.
  - destruct (convertToPdf_name "/tmp/w" "deck.pptx" "/tmp/w" EmptyString eq_refl)
      as (H & _).
    apply (H "deck" "pptx"); [reflexivity|discriminate|reflexivity|reflexivity].
  - destruct (convertToPdf_name "/tmp/w" "README" "/tmp/w" EmptyString eq_refl)
      as (_ & H & _).
    apply H. reflexivity.
Defined.

Lemma generateManifest_declares_witness :
  includes (generateManifest "pkg_1" "Intro" "index_lms.html" ["player.html"; "js/pdf.min.js"])
    ("<file href=" +:+ dq +:+ "js/pdf.min.js" +:+ dq +:+ " />") = true.
Proof.
  apply generateManifest_declares. rewrite !elem_of_cons. auto.
Defined.

Lemma upload_names_safe_witness :
  noSlash (uploadFilename "0b9c" "../../etc/cron.d/job.pptx") = true
  /\ uploadFilename "0b9c" "../../etc/cron.d/job.pptx" = "0b9c.pptx".
Proof.
  split; [|reflexivity].
  destruct (upload_names_safe "0b9c" "../../etc/cron.d/job.pptx") as (_ & _ & _ & H).
  apply H. reflexivity.
Defined.

End ServerInstances.
